(** * artyom/alb: an http.Handler adapter for AWS Lambda behind an ALB

    Shallow embedding of the adapter ([Handler], [lambdaHandler.Run],
    [buildURL]) in its two revisions, [src/alb.go] (module
    [Conservative]) and [src/unnamed/part_000] (module [FastPath]),
    together with the functions of the Go standard library they call
    (unicode/utf8, encoding/base64, strings, net/textproto, net/url).

    Go values are modelled as follows: a [string] is a finite sequence
    of 8-bit bytes (Rocq [string]), a [[]byte] is a [list byte], a
    [map[string]T] is a [gmap string T], and a pair [(T, error)] is a
    [result T]. *)

From Stdlib Require Import ZArith Lia Ascii String List Bool.
From Stdlib.Strings Require Import Byte.
From stdpp Require Import gmap strings list fin_maps sorting.

Local Open Scope Z_scope.

(** ** Errors and fallible results *)

(** The error values the adapter can return: [base64.CorruptInputError],
    [url.EscapeError], [url.InvalidHostError], an [errors.New] message,
    the [fmt.Errorf] of an invalid port after a host, and a [url.Error]
    that records the operation and the URL around another error. *)
Inductive error : Type :=
| CorruptInputError (offset : Z)
| EscapeError (s : string)
| InvalidHostError (s : string)
| errorString (msg : string)
| invalidPortError (colonPort : string)
| urlError (Op URL : string) (Err : error).

Inductive result (A : Type) : Type :=
| Ok (a : A)
| Err (e : error).
Arguments Ok {A} a.
Arguments Err {A} e.

Definition bind {A B} (r : result A) (k : A -> result B) : result B :=
  match r with
  | Ok a => k a
  | Err e => Err e
  end.

Notation "'let?' x ':=' r 'in' k" := (bind r (fun x => k))
  (at level 10, x pattern, r at level 100, k at level 200, only parsing).

Definition isOk {A} (r : result A) : bool :=
  match r with Ok _ => true | Err _ => false end.

(** ** Bytes and characters as numbers *)

Definition b2z (b : byte) : Z := Z.of_N (Byte.to_N b).

(** [byte(v)]: conversion of an unsigned integer to a byte keeps the low
    eight bits. *)
Definition z2b (z : Z) : byte :=
  match Byte.of_N (Z.to_N (Z.land z 255)) with
  | Some b => b
  | None => Byte.x00
  end.

Definition c2z (c : ascii) : Z := Z.of_N (N_of_ascii c).
Definition z2c (z : Z) : ascii := ascii_of_N (Z.to_N (Z.land z 255)).

(** [[]byte(s)] and [string(b)]. *)
Definition bytesOf (s : string) : list byte := list_byte_of_string s.
Definition stringOf (b : list byte) : string := string_of_list_byte b.

(** [len(s)] as an int. *)
Definition len (s : string) : Z := Z.of_nat (String.length s).

(** ** Package strings *)

Module strings.

(** [strings.Join(a, sep)]. *)
Fixpoint Join (a : list string) (sep : string) : string :=
  match a with
  | [] => EmptyString
  | [s] => s
  | s :: rest => s +:+ sep +:+ Join rest sep
  end.

(** [strings.IndexByte(s, c) >= 0]. *)
Fixpoint ContainsByte (s : string) (c : ascii) : bool :=
  match s with
  | EmptyString => false
  | String d s' => Ascii.eqb d c || ContainsByte s' c
  end.

(** [strings.Cut(s, sep)] for a one-byte separator: the text before and
    after the first [sep], and whether [sep] occurs. This is also
    net/url's older helper [split(s, sep, true)]. *)
Fixpoint Cut (s : string) (sep : ascii) : string * string * bool :=
  match s with
  | EmptyString => (EmptyString, EmptyString, false)
  | String d s' =>
      if Ascii.eqb d sep then (EmptyString, s', true)
      else let '(before, after, found) := Cut s' sep in
           (String d before, after, found)
  end.

(** [strings.Count(s, sep)] for a one-byte separator. *)
Fixpoint Count (s : string) (sep : ascii) : Z :=
  match s with
  | EmptyString => 0
  | String d s' => (if Ascii.eqb d sep then 1 else 0) + Count s' sep
  end.

(** [strings.HasPrefix(s, prefix)]. *)
Fixpoint HasPrefix (s pre : string) {struct pre} : bool :=
  match pre, s with
  | EmptyString, _ => true
  | String _ _, EmptyString => false
  | String c pre', String d s' => Ascii.eqb d c && HasPrefix s' pre'
  end.

(** [strings.HasSuffix(s, suffix)] for a one-byte suffix. *)
Fixpoint HasSuffixByte (s : string) (c : ascii) : bool :=
  match s with
  | EmptyString => false
  | String d EmptyString => Ascii.eqb d c
  | String _ s' => HasSuffixByte s' c
  end.

(** [s[:len(s)-1]]. *)
Fixpoint dropLast (s : string) : string :=
  match s with
  | EmptyString => EmptyString
  | String _ EmptyString => EmptyString
  | String d s' => String d (dropLast s')
  end.

(** Every byte of [s] satisfies [p]. *)
Fixpoint all (p : ascii -> bool) (s : string) : bool :=
  match s with
  | EmptyString => true
  | String d s' => p d && all p s'
  end.

End strings.

(** ** Package unicode/utf8 *)

Module utf8.

Definition RuneSelf : Z := 0x80.
Definition locb : Z := 0x80.
Definition hicb : Z := 0xBF.

Definition xx : Z := 0xF1.
Definition as_ : Z := 0xF0.
Definition s1 : Z := 0x02.
Definition s2 : Z := 0x13.
Definition s3 : Z := 0x03.
Definition s4 : Z := 0x23.
Definition s5 : Z := 0x34.
Definition s6 : Z := 0x04.
Definition s7 : Z := 0x44.

(** The table [first]: information about the first byte of an encoding. *)
Definition first (b : Z) : Z :=
  if b <? 0x80 then as_
  else if b <? 0xC2 then xx
  else if b <? 0xE0 then s1
  else if b =? 0xE0 then s2
  else if b <? 0xED then s3
  else if b =? 0xED then s4
  else if b <? 0xF0 then s3
  else if b =? 0xF0 then s5
  else if b <? 0xF4 then s6
  else if b =? 0xF4 then s7
  else xx.

(** The table [acceptRanges]: the range of valid second bytes. *)
Definition acceptRanges (i : Z) : Z * Z :=
  if i =? 0 then (locb, hicb)
  else if i =? 1 then (0xA0, hicb)
  else if i =? 2 then (locb, 0x9F)
  else if i =? 3 then (0x90, hicb)
  else if i =? 4 then (locb, 0x8F)
  else (0, 0).

Definition outside (c lo hi : Z) : bool := (c <? lo) || (hi <? c).

(** [utf8.Valid(p)]. The loop index [i] is the number of bytes already
    dropped from the front of [p]. *)
Fixpoint Valid (p : list byte) : bool :=
  match p with
  | [] => true
  | pi :: rest =>
      if b2z pi <? RuneSelf then Valid rest
      else
        let x := first (b2z pi) in
        if x =? xx then false
        else
          let size := Z.land x 7 in
          if Z.of_nat (length p) <? size then false
          else
            let '(lo, hi) := acceptRanges (Z.shiftr x 4) in
            match rest with
            | [] => false
            | c1 :: rest1 =>
                if outside (b2z c1) lo hi then false
                else if size =? 2 then Valid rest1
                else
                  match rest1 with
                  | [] => false
                  | c2 :: rest2 =>
                      if outside (b2z c2) locb hicb then false
                      else if size =? 3 then Valid rest2
                      else
                        match rest2 with
                        | [] => false
                        | c3 :: rest3 =>
                            if outside (b2z c3) locb hicb then false
                            else Valid rest3
                        end
                  end
            end
  end.

End utf8.

(** ** Package encoding/base64, [StdEncoding] *)

Module base64.

Definition encodeStd : string :=
  "ABCDEFGHIJKLMNOPQRSTUVWXYZabcdefghijklmnopqrstuvwxyz0123456789+/".

Definition padChar : ascii := "="%char.

(** [enc.encode[i]]. *)
Definition encode (i : Z) : ascii :=
  match String.get (Z.to_nat i) encodeStd with
  | Some c => c
  | None => zero
  end.

Fixpoint indexFrom (s : string) (c : ascii) (i : Z) : Z :=
  match s with
  | EmptyString => 0xFF
  | String d s' => if Ascii.eqb d c then i else indexFrom s' c (i + 1)
  end.

(** [enc.decodeMap[c]]: the table is filled with 0xFF and then
    [decodeMap[encoder[i]] = i]. *)
Definition decodeMap (c : ascii) : Z := indexFrom encodeStd c 0.

(** [StdEncoding.EncodeToString(src)]: three bytes become four
    characters; a final block of one or two bytes is padded. *)
Fixpoint EncodeToString (src : list byte) : string :=
  match src with
  | [] => EmptyString
  | [b0] =>
      let val := Z.shiftl (b2z b0) 16 in
      String (encode (Z.land (Z.shiftr val 18) 0x3F))
     (String (encode (Z.land (Z.shiftr val 12) 0x3F))
     (String padChar (String padChar EmptyString)))
  | [b0; b1] =>
      let val := Z.lor (Z.shiftl (b2z b0) 16) (Z.shiftl (b2z b1) 8) in
      String (encode (Z.land (Z.shiftr val 18) 0x3F))
     (String (encode (Z.land (Z.shiftr val 12) 0x3F))
     (String (encode (Z.land (Z.shiftr val 6) 0x3F))
     (String padChar EmptyString)))
  | b0 :: b1 :: b2 :: rest =>
      let val := Z.lor (Z.lor (Z.shiftl (b2z b0) 16) (Z.shiftl (b2z b1) 8))
                       (b2z b2) in
      String (encode (Z.land (Z.shiftr val 18) 0x3F))
     (String (encode (Z.land (Z.shiftr val 12) 0x3F))
     (String (encode (Z.land (Z.shiftr val 6) 0x3F))
     (String (encode (Z.land val 0x3F))
     (EncodeToString rest))))
  end.

Definition isNewline (c : ascii) : bool :=
  Ascii.eqb c "010"%char || Ascii.eqb c "013"%char.

(** [for si < len(src) && (src[si] == '\n' || src[si] == '\r') { si++ }] *)
Fixpoint skipNewlines (src : string) (si : Z) : string * Z :=
  match src with
  | String c rest =>
      if isNewline c then skipNewlines rest (si + 1) else (src, si)
  | EmptyString => (src, si)
  end.

(** The value assembled from the sextets of one quantum, missing
    sextets being zero. *)
Definition quantumVal (dbuf : list Z) : Z :=
  Z.lor (Z.lor (Z.lor (Z.shiftl (nth 0 dbuf 0) 18)
                      (Z.shiftl (nth 1 dbuf 0) 12))
               (Z.shiftl (nth 2 dbuf 0) 6))
        (nth 3 dbuf 0).

(** The bytes a quantum of [dlen] sextets yields ([dlen - 1] of them);
    the encoding is not strict, so unused low bits are ignored. *)
Definition quantumBytes (dbuf : list Z) : list byte :=
  let val := quantumVal dbuf in
  take (length dbuf - 1)
       [z2b (Z.shiftr val 16); z2b (Z.shiftr val 8); z2b (Z.shiftr val 0)].

(** [StdEncoding.DecodeString(s)]: the loop of [Decode] over
    [decodeQuantum]. [si] is the index of the next byte of the input,
    [dbuf] holds the sextets read so far in the current quantum.
    Only the error is kept when decoding fails. *)
Fixpoint decode (src : string) (si : Z) (dbuf : list Z) : result (list byte) :=
  match src with
  | EmptyString =>
      match dbuf with
      | [] => Ok []
      | _ => Err (CorruptInputError (si - Z.of_nat (length dbuf)))
      end
  | String c rest =>
      let out := decodeMap c in
      if negb (out =? 0xFF) then
        let dbuf' := dbuf ++ [out] in
        if (length dbuf' =? 4)%nat then
          let? tl := decode rest (si + 1) [] in
          Ok (quantumBytes dbuf' ++ tl)
        else decode rest (si + 1) dbuf'
      else if isNewline c then decode rest (si + 1) dbuf
      else if negb (Ascii.eqb c padChar) then Err (CorruptInputError si)
      else
        match length dbuf with
        | 0%nat | 1%nat => Err (CorruptInputError si)
        | 2%nat =>
            let '(rest1, si1) := skipNewlines rest (si + 1) in
            match rest1 with
            | EmptyString => Err (CorruptInputError si1)
            | String c1 rest2 =>
                if negb (Ascii.eqb c1 padChar)
                then Err (CorruptInputError (si1 - 1))
                else
                  let '(rest3, si3) := skipNewlines rest2 (si1 + 1) in
                  match rest3 with
                  | EmptyString => Ok (quantumBytes dbuf)
                  | String _ _ => Err (CorruptInputError si3)
                  end
            end
        | _ =>
            let '(rest1, si1) := skipNewlines rest (si + 1) in
            match rest1 with
            | EmptyString => Ok (quantumBytes dbuf)
            | String _ _ => Err (CorruptInputError si1)
            end
        end
  end.

Definition DecodeString (s : string) : result (list byte) := decode s 0 [].

End base64.



(** ** ASCII classes *)

Definition between (lo hi c : ascii) : bool := Ascii.leb lo c && Ascii.leb c hi.
Definition isLower (c : ascii) : bool := between "a" "z" c.
Definition isUpper (c : ascii) : bool := between "A" "Z" c.
Definition isDigit (c : ascii) : bool := between "0" "9" c.
Definition isAlnum (c : ascii) : bool := isUpper c || isLower c || isDigit c.

(** [c] is one of the bytes of [set]. *)
Definition oneOf (set : string) (c : ascii) : bool := strings.ContainsByte set c.

(** ['a' - 'A']. *)
Definition toLower : Z := 32.

(** ** Package net/textproto *)

Module textproto.

(** [validHeaderFieldByte]: the token characters of RFC 7230. *)
Definition validHeaderFieldByte (c : ascii) : bool :=
  isAlnum c || oneOf "!#$%&'*+-.^_`|~" c.

(** The second loop of [canonicalMIMEHeaderKey]: first letter upper
    case and upper case after each dash. *)
Fixpoint canonical (a : string) (upper : bool) : string :=
  match a with
  | EmptyString => EmptyString
  | String c rest =>
      let c' := if upper && isLower c then z2c (c2z c - toLower)
                else if negb upper && isUpper c then z2c (c2z c + toLower)
                else c in
      String c' (canonical rest (Ascii.eqb c' "-"))
  end.

(** [textproto.CanonicalMIMEHeaderKey(s)]: a key with a byte that is not
    a valid header field byte is returned unchanged. *)
Definition CanonicalMIMEHeaderKey (s : string) : string :=
  if strings.all validHeaderFieldByte s then canonical s true else s.

End textproto.

(** ** Package net/url (Go 1.13) *)

Module url.

Record Userinfo : Type := mkUserinfo {
  username : string;
  password : string;
  passwordSet : bool
}.

Record URL : Type := mkURL {
  Scheme : string;
  Opaque : string;
  User : option Userinfo;
  Host : string;
  Path : string;
  RawPath : string;
  ForceQuery : bool;
  RawQuery : string;
  Fragment : string
}.

(** [new(URL)] *)
Definition zeroURL : URL :=
  mkURL EmptyString EmptyString None EmptyString EmptyString EmptyString
        false EmptyString EmptyString.

Inductive encoding : Type :=
| encodePath
| encodePathSegment
| encodeHost
| encodeZone
| encodeUserPassword
| encodeQueryComponent
| encodeFragment.

Definition isHostMode (mode : encoding) : bool :=
  match mode with encodeHost | encodeZone => true | _ => false end.
Definition isQueryComponent (mode : encoding) : bool :=
  match mode with encodeQueryComponent => true | _ => false end.

Definition ishex (c : ascii) : bool :=
  isDigit c || between "a" "f" c || between "A" "F" c.

Definition unhex (c : ascii) : Z :=
  if isDigit c then c2z c - c2z "0"
  else if between "a" "f" c then c2z c - c2z "a" + 10
  else if between "A" "F" c then c2z c - c2z "A" + 10
  else 0.

(** [shouldEscape(c, mode)] *)
Definition shouldEscape (c : ascii) (mode : encoding) : bool :=
  if isAlnum c then false
  else if isHostMode mode
          && (oneOf "!$&'()*+,;=:[]<>" c || Ascii.eqb c "034")
  then false
  else if oneOf "-_.~" c then false
  else if oneOf "$&+,/:;=?@" c then
    match mode with
    | encodePath => Ascii.eqb c "?"
    | encodePathSegment => oneOf "/;,?" c
    | encodeUserPassword => oneOf "@/?:" c
    | encodeQueryComponent => true
    | encodeFragment => false
    | encodeHost | encodeZone => true
    end
  else if match mode with encodeFragment => oneOf "!()*" c | _ => false end
  then false
  else true.

(** [s[i:]] cut down to at most three bytes, the text of an
    [EscapeError]. *)
Definition upTo3 (s : string) : string := String.substring 0 3 s.

(** [unescape(s, mode)]. The source validates in a first pass and
    builds the result in a second; the first error met from the left
    is the one returned, so one pass suffices here. *)
Fixpoint unescape (s : string) (mode : encoding) : result string :=
  match s with
  | EmptyString => Ok EmptyString
  | String c rest =>
      if Ascii.eqb c "%" then
        match rest with
        | String a (String b rest') =>
            if negb (ishex a && ishex b) then Err (EscapeError (upTo3 s))
            else
              let v := Z.lor (Z.shiftl (unhex a) 4) (unhex b) in
              if match mode with encodeHost => true | _ => false end
                 && (unhex a <? 8)
                 && negb (String.eqb (upTo3 s) "%25")
              then Err (EscapeError (upTo3 s))
              else if match mode with encodeZone => true | _ => false end
                      && negb (String.eqb (upTo3 s) "%25")
                      && negb (v =? c2z " ")
                      && shouldEscape (z2c v) encodeHost
              then Err (EscapeError (upTo3 s))
              else
                let? t := unescape rest' mode in
                Ok (String (z2c v) t)
        | _ => Err (EscapeError (upTo3 s))
        end
      else if Ascii.eqb c "+" then
        let? t := unescape rest mode in
        Ok (String (if isQueryComponent mode then " "%char else "+"%char) t)
      else if isHostMode mode && (c2z c <? 0x80) && shouldEscape c encodeHost
      then Err (InvalidHostError (String c EmptyString))
      else
        let? t := unescape rest mode in
        Ok (String c t)
  end.

Definition upperhex (i : Z) : ascii :=
  match String.get (Z.to_nat i) "0123456789ABCDEF" with
  | Some c => c
  | None => zero
  end.

(** [escape(s, mode)] *)
Fixpoint escape (s : string) (mode : encoding) : string :=
  match s with
  | EmptyString => EmptyString
  | String c rest =>
      if Ascii.eqb c " " && isQueryComponent mode
      then String "+" (escape rest mode)
      else if shouldEscape c mode
      then String "%" (String (upperhex (Z.shiftr (c2z c) 4))
                      (String (upperhex (Z.land (c2z c) 15))
                      (escape rest mode)))
      else String c (escape rest mode)
  end.

Definition QueryUnescape (s : string) : result string :=
  unescape s encodeQueryComponent.

Definition QueryEscape (s : string) : string :=
  escape s encodeQueryComponent.

(** *** Parsing *)

Inductive schemeScan : Type :=
| noScheme
| missingScheme
| foundScheme (scheme rest : string).

(** The loop of [getscheme]; [first] says that [i == 0]. *)
Fixpoint scanScheme (s : string) (first : bool) : schemeScan :=
  match s with
  | EmptyString => noScheme
  | String c rest =>
      let continue :=
        match scanScheme rest false with
        | foundScheme scheme r => foundScheme (String c scheme) r
        | other => other
        end in
      if isLower c || isUpper c then continue
      else if isDigit c || oneOf "+-." c then
        if first then noScheme else continue
      else if Ascii.eqb c ":" then
        if first then missingScheme else foundScheme EmptyString rest
      else noScheme
  end.

(** [getscheme(rawurl)] *)
Definition getscheme (rawurl : string) : result (string * string) :=
  match scanScheme rawurl true with
  | noScheme => Ok (EmptyString, rawurl)
  | missingScheme => Err (errorString "missing protocol scheme")
  | foundScheme scheme rest => Ok (scheme, rest)
  end.

(** [stringContainsCTLByte(s)] *)
Fixpoint stringContainsCTLByte (s : string) : bool :=
  match s with
  | EmptyString => false
  | String b rest =>
      (c2z b <? c2z " ") || (c2z b =? 0x7f) || stringContainsCTLByte rest
  end.

(** [strings.ToLower] on the ASCII text of a scheme. *)
Fixpoint ToLower (s : string) : string :=
  match s with
  | EmptyString => EmptyString
  | String c rest =>
      String (if isUpper c then z2c (c2z c + toLower) else c) (ToLower rest)
  end.

(** [strings.IndexByte(s, c)], -1 when [c] does not occur. *)
Fixpoint IndexByte (s : string) (c : ascii) : Z :=
  match s with
  | EmptyString => -1
  | String d rest =>
      if Ascii.eqb d c then 0
      else let i := IndexByte rest c in if i <? 0 then -1 else i + 1
  end.

(** [strings.LastIndexByte(s, c)], -1 when [c] does not occur. *)
Fixpoint LastIndexByte (s : string) (c : ascii) : Z :=
  match s with
  | EmptyString => -1
  | String d rest =>
      let i := LastIndexByte rest c in
      if 0 <=? i then i + 1 else if Ascii.eqb d c then 0 else -1
  end.

(** [s[:i]] and [s[i:]] *)
Definition upto (s : string) (i : Z) : string :=
  String.substring 0 (Z.to_nat i) s.
Definition from (s : string) (i : Z) : string :=
  String.substring (Z.to_nat i) (String.length s - Z.to_nat i) s.

(** [split(s, "/", false)]: the separator stays in the second part. *)
Definition splitKeep (s : string) (sep : ascii) : string * string :=
  let i := IndexByte s sep in
  if i <? 0 then (s, EmptyString) else (upto s i, from s i).

(** [validOptionalPort(port)] *)
Definition validOptionalPort (port : string) : bool :=
  match port with
  | EmptyString => true
  | String c rest => Ascii.eqb c ":" && strings.all isDigit rest
  end.

(** [validUserinfo(s)]; a byte outside ASCII decodes to a rune that is
    not in the list. *)
Definition validUserinfo (s : string) : bool :=
  strings.all (fun r => isAlnum r || oneOf "-._:~!$&'()*+,;=%@" r) s.

(** [parseHost(host)] *)
Definition parseHost (host : string) : result string :=
  let plain := unescape host encodeHost in
  if strings.HasPrefix host "[" then
    let i := LastIndexByte host "]" in
    if i <? 0 then Err (errorString "missing ']' in host")
    else
      let colonPort := from host (i + 1) in
      if negb (validOptionalPort colonPort) then Err (invalidPortError colonPort)
      else
        match String.index 0 "%25" (upto host i) with
        | Some zone =>
            let zone := Z.of_nat zone in
            let? host1 := unescape (upto host zone) encodeHost in
            let? host2 := unescape (upto (from host zone) (i - zone)) encodeZone in
            let? host3 := unescape (from host i) encodeHost in
            Ok (host1 +:+ host2 +:+ host3)
        | None => plain
        end
  else
    let i := LastIndexByte host ":" in
    if 0 <=? i then
      let colonPort := from host i in
      if negb (validOptionalPort colonPort) then Err (invalidPortError colonPort)
      else plain
    else plain.

(** [parseAuthority(authority)] *)
Definition parseAuthority (authority : string)
  : result (option Userinfo * string) :=
  let i := LastIndexByte authority "@" in
  let? host := if i <? 0 then parseHost authority
               else parseHost (from authority (i + 1)) in
  if i <? 0 then Ok (None, host)
  else
    let userinfo := upto authority i in
    if negb (validUserinfo userinfo)
    then Err (errorString "net/url: invalid userinfo")
    else if negb (strings.ContainsByte userinfo ":") then
      let? userinfo := unescape userinfo encodeUserPassword in
      Ok (Some (mkUserinfo userinfo EmptyString false), host)
    else
      let '(username, password, _) := strings.Cut userinfo ":" in
      let? username := unescape username encodeUserPassword in
      let? password := unescape password encodeUserPassword in
      Ok (Some (mkUserinfo username password true), host).

(** [u.setPath(p)] *)
Definition setPath (u : URL) (p : string) : result URL :=
  let? path := unescape p encodePath in
  let escp := escape path encodePath in
  Ok (mkURL (Scheme u) (Opaque u) (User u) (Host u) path
            (if String.eqb p escp then EmptyString else p)
            (ForceQuery u) (RawQuery u) (Fragment u)).

(** [parse(rawurl, viaRequest)] *)
Definition parse (rawurl : string) (viaRequest : bool) : result URL :=
  if stringContainsCTLByte rawurl
  then Err (errorString "net/url: invalid control character in URL")
  else if String.eqb rawurl EmptyString && viaRequest
  then Err (errorString "empty url")
  else if String.eqb rawurl "*"
  then Ok (mkURL EmptyString EmptyString None EmptyString "*" EmptyString
                 false EmptyString EmptyString)
  else
    let? (scheme, rest) := getscheme rawurl in
    let scheme := ToLower scheme in
    let '(rest, forceQuery, rawQuery) :=
      if strings.HasSuffixByte rest "?" && (strings.Count rest "?" =? 1)
      then (strings.dropLast rest, true, EmptyString)
      else let '(before, after, _) := strings.Cut rest "?" in
           (before, false, after) in
    let url := mkURL scheme EmptyString None EmptyString EmptyString
                     EmptyString forceQuery rawQuery EmptyString in
    let withAuthority :=
      if (negb (String.eqb scheme EmptyString)
          || negb viaRequest && negb (strings.HasPrefix rest "///"))
         && strings.HasPrefix rest "//"
      then
        let '(authority, rest') := splitKeep (from rest 2) "/" in
        let? (user, host) := parseAuthority authority in
        setPath (mkURL scheme EmptyString user host EmptyString EmptyString
                       forceQuery rawQuery EmptyString) rest'
      else setPath url rest in
    if negb (strings.HasPrefix rest "/") then
      if negb (String.eqb scheme EmptyString) then
        Ok (mkURL scheme rest None EmptyString EmptyString EmptyString
                  forceQuery rawQuery EmptyString)
      else if viaRequest then Err (errorString "invalid URI for request")
      else
        let colon := IndexByte rest ":" in
        let slash := IndexByte rest "/" in
        if (0 <=? colon) && ((slash <? 0) || (colon <? slash))
        then Err (errorString "first path segment in URL cannot contain colon")
        else withAuthority
    else withAuthority.

(** [url.Parse(rawurl)] *)
Definition Parse (rawurl : string) : result URL :=
  let '(u, frag, _) := strings.Cut rawurl "#" in
  match parse u false with
  | Err err => Err (urlError "parse" u err)
  | Ok url =>
      if String.eqb frag EmptyString then Ok url
      else
        match unescape frag encodeFragment with
        | Err err => Err (urlError "parse" rawurl err)
        | Ok fragment =>
            Ok (mkURL (Scheme url) (Opaque url) (User url) (Host url)
                      (Path url) (RawPath url) (ForceQuery url)
                      (RawQuery url) fragment)
        end
  end.

(** *** Query values *)

(** [url.Values] is [map[string][]string]. *)
Abbreviation Values := (gmap string (list string)).

(** [v.Set(key, value)] *)
Definition Values_Set (v : Values) (key value : string) : Values :=
  <[key := [value]]> v.

(** [v.Add(key, value)], that is [v[key] = append(v[key], value)] *)
Definition Values_Add (v : Values) (key value : string) : Values :=
  <[key := default [] (v !! key) ++ [value]]> v.

(** [buf.WriteString(keyEscaped + "=" + QueryEscape(v))], after a ['&']
    when the buffer is not empty. *)
Definition writePair (keyEscaped : string) (buf v : string) : string :=
  (if 0 <? len buf then buf +:+ "&" else buf)
    +:+ keyEscaped +:+ "=" +:+ QueryEscape v.

(** [v.Encode()]: the keys are collected and sorted with [sort.Strings]
    (bytewise lexicographic order, [String.le]), so the order in which
    the map is ranged over does not matter. *)
Definition Values_Encode (v : Values) : string :=
  let keys := merge_sort String.le (map fst (map_to_list v)) in
  foldl (fun buf k =>
           let vs := default [] (v !! k) in
           let keyEscaped := QueryEscape k in
           foldl (writePair keyEscaped) buf vs)
        EmptyString keys.

Definition isSeparator (c : ascii) : bool := oneOf "&;" c.

(** The fields of a raw query: the text between separators, as the loop
    of [parseQuery] cuts it with [strings.IndexAny(key, "&;")]. *)
Fixpoint fields (query : string) : list string :=
  match query with
  | EmptyString => [EmptyString]
  | String c rest =>
      if isSeparator c then EmptyString :: fields rest
      else match fields rest with
           | f :: fs => String c f :: fs
           | [] => [String c EmptyString]
           end
  end.

Definition firstError (err : option error) (err1 : error) : option error :=
  match err with
  | None => Some err1
  | Some _ => err
  end.

(** One turn of the loop of [parseQuery] on the field [key]. *)
Definition parseField (acc : Values * option error) (key : string)
  : Values * option error :=
  let '(m, err) := acc in
  if String.eqb key EmptyString then acc
  else
    let '(key, value, _) := strings.Cut key "=" in
    match QueryUnescape key with
    | Err err1 => (m, firstError err err1)
    | Ok key =>
        match QueryUnescape value with
        | Err err1 => (m, firstError err err1)
        | Ok value => (<[key := default [] (m !! key) ++ [value]]> m, err)
        end
    end.

(** [url.ParseQuery(query)]: the values and the first error met. *)
Definition ParseQuery (query : string) : Values * option error :=
  foldl parseField (∅, None) (fields query).

(** The name and the value of one field, before unescaping; an empty
    field holds no pair. *)
Definition rawPair (key : string) : option (string * string) :=
  if String.eqb key EmptyString then None
  else let '(name, value, _) := strings.Cut key "=" in Some (name, value).

(** The name=value pairs a raw query contains, before unescaping. *)
Definition rawPairs (query : string) : list (string * string) :=
  omap rawPair (fields query).

End url.

(** ** Package net/http and net/http/httptest *)

Module http.

(** [http.Header] is [map[string][]string]. *)
Abbreviation Header := (gmap string (list string)).

(** [h.Set(key, value)] *)
Definition Header_Set (h : Header) (key value : string) : Header :=
  <[textproto.CanonicalMIMEHeaderKey key := [value]]> h.

(** [h.Get(key)]: the first value of the key, or the empty string. *)
Definition Header_Get (h : Header) (key : string) : string :=
  match h !! textproto.CanonicalMIMEHeaderKey key with
  | Some (v :: _) => v
  | _ => EmptyString
  end.

(** The fields of [http.Request] the adapter sets. [Body] is the content
    of the one-shot reader, [Context] the value given to [WithContext]. *)
Module Request.
Record t {context : Type} : Type := mk {
  ProtoMajor : Z;
  ProtoMinor : Z;
  Proto : string;
  Method : string;
  URL : url.URL;
  Header : Header;
  Host : string;
  Body : list byte;
  ContentLength : Z;
  Context : context
}.
Arguments t context : clear implicits.
Arguments mk {context}.
End Request.
Abbreviation Request := Request.t.

End http.

Module httptest.

(** What a fresh [httptest.ResponseRecorder] holds once [ServeHTTP] has
    returned: [StatusCode], [Status] and [Header] of [recorder.Result()],
    and [Body], the bytes of [recorder.Body]. *)
Record ResponseRecorder : Type := mkRecorder {
  StatusCode : Z;
  Status : string;
  Header : http.Header;
  Body : list byte
}.

End httptest.

(** ** Package alb: what both revisions share *)

Module request.
(** [type request struct] *)
Record t : Type := mk {
  Method : string;
  Path : string;
  Query : gmap string string;
  Headers : gmap string string;
  Body : string;
  BodyEncoded : bool
}.
End request.
Abbreviation request := request.t.

Module response.
(** [type response struct] *)
Record t : Type := mk {
  StatusCode : Z;
  Status : string;
  Headers : gmap string string;
  Body : string;
  BodyEncoded : bool
}.
End response.
Abbreviation response := response.t.

(** An [http.Handler]: [h.ServeHTTP(recorder, r)] on a fresh recorder.
    [Run] does not recover from a panic of the handler; a handler that
    panics or does not return is outside this model. [context] is the
    type of the non-nil [context.Context] values ([WithContext] panics on
    a nil one). *)
Definition handler (context : Type) : Type :=
  http.Request context -> httptest.ResponseRecorder.

(** Go leaves the order in which [range] visits a map unspecified. A
    [mapOrder] fixes it for the three loops of [Run]: over [req.Query],
    over [req.Headers] and over [res.Header]. *)
Record mapOrder : Type := mkOrder {
  rangeQuery : gmap string string -> list (string * string);
  rangeHeaders : gmap string string -> list (string * string);
  rangeHeader : http.Header -> list (string * list string)
}.

(** Each loop visits every entry of its map exactly once. *)
Definition validOrder (R : mapOrder) : Prop :=
  (forall m, rangeQuery R m ≡ₚ map_to_list m)
  /\ (forall m, rangeHeaders R m ≡ₚ map_to_list m)
  /\ (forall m, rangeHeader R m ≡ₚ map_to_list m).

(** The order of stdpp's [map_to_list], one valid order. *)
Definition listOrder : mapOrder := mkOrder map_to_list map_to_list map_to_list.

(** What a call of the adapter did: the requests it handed to the handler,
    in order, and the response or the error it returned. *)
Record outcome (context : Type) : Type := mkOutcome {
  calls : list (http.Request context);
  returned : result response
}.
Arguments mkOutcome {context} calls returned.
Arguments calls {context} o.
Arguments returned {context} o.

Module lambdaHandler.
Section Serve.
Context {context : Type}.
Variable R : mapOrder.

(** [for k, v := range req.Headers { headers.Set(k, v) }] *)
Definition setHeaders (kvs : list (string * string)) : http.Header :=
  foldl (fun headers kv => http.Header_Set headers kv.1 kv.2) ∅ kvs.

(** [for k, vv := range res.Header { out.Headers[k] = strings.Join(vv, ",") }] *)
Definition joinHeaders (kvs : list (string * list string)) : gmap string string :=
  foldl (fun headers kv => <[kv.1 := strings.Join kv.2 ","]> headers) ∅ kvs.

(** The [switch] on [req.BodyEncoded]: the bytes of [r.Body] and
    [r.ContentLength]. *)
Definition requestBody (req : request) : result (list byte * Z) :=
  if request.BodyEncoded req then
    let? b := base64.DecodeString (request.Body req) in
    Ok (b, Z.of_nat (length b))
  else Ok (bytesOf (request.Body req), len (request.Body req)).

(** From [recorder.Result()] to the returned envelope: status, joined
    headers, and the body as text or as base64. *)
Definition envelope (recorder : httptest.ResponseRecorder) : response :=
  let headers := joinHeaders (rangeHeader R (httptest.Header recorder)) in
  let b := httptest.Body recorder in
  if utf8.Valid b then
    response.mk (httptest.StatusCode recorder) (httptest.Status recorder)
                headers (stringOf b) false
  else
    response.mk (httptest.StatusCode recorder) (httptest.Status recorder)
                headers (base64.EncodeToString b) true.

(** The part of [Run] after the URL is built, the same text in both
    revisions (part_000 lines 85-128, alb.go lines 82-126). *)
Definition serve (h : handler context) (ctx : context) (req : request)
    (u : url.URL) : outcome context :=
  let headers := setHeaders (rangeHeaders R (request.Headers req)) in
  match requestBody req with
  | Err err => mkOutcome [] (Err err)
  | Ok (body, contentLength) =>
      let r := http.Request.mk 1 1 "HTTP/1.1" (request.Method req) u
                 headers (http.Header_Get headers "Host")
                 body contentLength ctx in
      let recorder := h r in
      mkOutcome [r] (Ok (envelope recorder))
  end.

End Serve.
End lambdaHandler.

(** [panic(v)] or a normal return. *)
Inductive panics (A : Type) : Type :=
| Returns (a : A)
| Panics (v : string).
Arguments Returns {A} a.
Arguments Panics {A} v.

(** ** Revision src/alb.go: unescape and re-encode the query *)

Module Conservative.
Section Run.
Context {context : Type}.
Variable R : mapOrder.

(** The loop over [req.Query]: [vals.Set(k, v2)] with [v2] the unescaped
    value; the first value that does not unescape ends [Run]. *)
Fixpoint unescapeQuery (kvs : list (string * string)) (vals : url.Values)
  : result url.Values :=
  match kvs with
  | [] => Ok vals
  | (k, v) :: rest =>
      let? v2 := url.QueryUnescape v in
      unescapeQuery rest (url.Values_Set vals k v2)
  end.

(** Lines 70-81: the URL of the request. *)
Definition requestURL (req : request) : result url.URL :=
  let u := url.mkURL EmptyString EmptyString None EmptyString
                     (request.Path req) EmptyString false EmptyString
                     EmptyString in
  if 0 <? Z.of_nat (size (request.Query req)) then
    let? vals := unescapeQuery (rangeQuery R (request.Query req)) ∅ in
    Ok (url.mkURL EmptyString EmptyString None EmptyString
                  (request.Path req) EmptyString false
                  (url.Values_Encode vals) EmptyString)
  else Ok u.

(** [lambdaHandler.Run(ctx, req)] *)
Definition Run (h : handler context) (ctx : context) (req : request)
  : outcome context :=
  match requestURL req with
  | Err err => mkOutcome [] (Err err)
  | Ok u => lambdaHandler.serve R h ctx req u
  end.

(** [func Handler(h http.Handler)]; [None] is the nil interface value.
    The first component lists the handler invocations made. *)
Definition Handler (h : option (handler context))
  : list (http.Request context)
    * panics (context -> request -> outcome context) :=
  match h with
  | None => ([], Panics "Wrap called with nil handler")
  | Some h => ([], Returns (Run h))
  end.

End Run.
End Conservative.

(** ** Revision src/unnamed/part_000: concatenate and parse once *)

Module FastPath.
Section Run.
Context {context : Type}.
Variable R : mapOrder.

(** The loop of [buildURL] over the query; [i] counts the pairs written. *)
Fixpoint writeQuery (kvs : list (string * string)) (b : string) (i : Z)
  : string :=
  match kvs with
  | [] => b
  | (k, v) :: rest =>
      let b := if negb (i =? 0) then b +:+ "&" else b in
      writeQuery rest (b +:+ k +:+ "=" +:+ v) (i + 1)
  end.

(** [func buildURL(path string, query map[string]string)] *)
Definition buildURL (path : string) (query : gmap string string)
  : result url.URL :=
  if Z.of_nat (size query) =? 0 then url.Parse path
  else url.Parse (writeQuery (rangeQuery R query) (path +:+ "?") 0).

(** [lambdaHandler.Run(ctx, req)] *)
Definition Run (h : handler context) (ctx : context) (req : request)
  : outcome context :=
  match buildURL (request.Path req) (request.Query req) with
  | Err err => mkOutcome [] (Err err)
  | Ok u => lambdaHandler.serve R h ctx req u
  end.

(** [func Handler(h http.Handler)]; [None] is the nil interface value.
    The first component lists the handler invocations made. *)
Definition Handler (h : option (handler context))
  : list (http.Request context)
    * panics (context -> request -> outcome context) :=
  match h with
  | None => ([], Panics "Wrap called with nil handler")
  | Some h => ([], Returns (Run h))
  end.

End Run.
End FastPath.

(** ** The two revisions side by side *)

Inductive revision : Type :=
| alb_go      (* src/alb.go *)
| part_000.   (* src/unnamed/part_000 *)

(** The URL a revision builds for an event. *)
Definition requestURL (v : revision) (R : mapOrder) (req : request)
  : result url.URL :=
  match v with
  | alb_go => Conservative.requestURL R req
  | part_000 => FastPath.buildURL R (request.Path req) (request.Query req)
  end.

Definition Run {context : Type} (v : revision) (R : mapOrder)
    (h : handler context) (ctx : context) (req : request) : outcome context :=
  match v with
  | alb_go => Conservative.Run R h ctx req
  | part_000 => FastPath.Run R h ctx req
  end.

Definition Handler {context : Type} (v : revision) (R : mapOrder)
    (h : option (handler context))
  : list (http.Request context)
    * panics (context -> request -> outcome context) :=
  match v with
  | alb_go => Conservative.Handler R h
  | part_000 => FastPath.Handler R h
  end.

(** ** Notions the specification uses *)

(** What a reader of the envelope recovers from its body field. *)
Definition envelopeBytes (out : response) : result (list byte) :=
  if response.BodyEncoded out then base64.DecodeString (response.Body out)
  else Ok (bytesOf (response.Body out)).

(** A correctly percent-escaped query value: every byte is one that needs
    no escaping in a query component, a ['+'], or starts a ['%'] followed
    by two hexadecimal digits. *)
Definition escapedByte (c : ascii) : bool :=
  negb (url.shouldEscape c url.encodeQueryComponent) || oneOf "%+" c.

Definition escaped (s : string) : bool :=
  isOk (url.QueryUnescape s) && strings.all escapedByte s.

(** The bytes [QueryEscape] writes. *)
Definition escapeOutput (c : ascii) : bool := isAlnum c || oneOf "-_.~+%" c.

(** The text [buildURL] writes for one query parameter. *)
Definition pairText (kv : string * string) : string :=
  kv.1 +:+ "=" +:+ kv.2.

(** The [RawPath] that [setPath] stores for the escaped path [p]. *)
Definition rawPathOf (p : string) : string :=
  if String.eqb p (url.escape p url.encodePath) then EmptyString else p.

(** The unescaped text of a correctly escaped value. *)
Definition unescaped (v : string) : string :=
  match url.QueryUnescape v with
  | Ok t => t
  | Err _ => EmptyString
  end.

(** The values a query map stands for: one unescaped value per name. *)
Definition queryValues (query : gmap string string) : url.Values :=
  (fun v => [unescaped v]) <$> query.

(** The pair [Values.Encode] writes for a query parameter whose value was
    unescaped first. *)
Definition encodedPair (kv : string * string) : string * string :=
  (url.QueryEscape kv.1, url.QueryEscape (unescaped kv.2)).

(** The entries of a query map in the order [Values.Encode] writes
    them: sorted by name. *)
Definition sortedQuery (query : gmap string string) : list (string * string) :=
  map (fun k => (k, default EmptyString (query !! k)))
      (merge_sort String.le (map fst (map_to_list (queryValues query)))).

(** [strings.ContainsAny(s, chars)] for ASCII [chars] *)
Definition ContainsAny (s chars : string) : bool :=
  negb (strings.all (fun c => negb (oneOf chars c)) s).

(** A written pair that [url.ParseQuery] reads back: no separator in it,
    no ['='] in the name, and both parts unescape. *)
Definition readable (kv : string * string) : Prop :=
  ContainsAny kv.1 "&;=" = false /\ ContainsAny kv.2 "&;" = false
  /\ isOk (url.QueryUnescape kv.1) = true
  /\ isOk (url.QueryUnescape kv.2) = true.

(** A path that [url.Parse] leaves as it is: it starts with one ['/'] and
    has no ['%'], ['?'], ['#'] and no control byte. *)
Definition plainPath (p : string) : bool :=
  strings.HasPrefix p "/" && negb (strings.HasPrefix p "//")
  && negb (url.stringContainsCTLByte p) && negb (ContainsAny p "%?#").

(** A parameter name that reads the same escaped and unescaped and does
    not break the query apart. *)
Definition plainName (k : string) : bool :=
  negb (url.stringContainsCTLByte k) && negb (ContainsAny k "%+&;=#").

(** The request [serve] hands to the handler when the body decodes. *)
Definition builtRequest {context : Type} (R : mapOrder) (ctx : context)
    (req : request) (u : url.URL) (body : list byte) (n : Z)
  : http.Request context :=
  let headers :=
    lambdaHandler.setHeaders (rangeHeaders R (request.Headers req)) in
  http.Request.mk 1 1 "HTTP/1.1" (request.Method req) u headers
                  (http.Header_Get headers "Host") body n ctx.

(** ** Sample handlers and events *)

(** A handler that writes status 200 and the body [Hello]. *)
Definition helloHandler : handler unit :=
  fun _ => httptest.mkRecorder 200 "200 OK"
             (<["Content-Type" := ["text/html"; "charset=utf-8"]]> ∅)
             (bytesOf "Hello").

(** A handler that writes four bytes that are not UTF-8. *)
Definition binaryHandler : handler unit :=
  fun _ => httptest.mkRecorder 200 "200 OK" ∅ [xff; xfe; x00; x01].

(** A GET event without headers. *)
Definition event (path : string) (query : gmap string string)
    (body : string) (encoded : bool) : request :=
  request.mk "GET" path query ∅ body encoded.

(** ** Notions for further properties *)

(** Every byte is below [utf8.RuneSelf]. *)
Definition asciiBytes (p : list byte) : bool :=
  forallb (fun b => b2z b <? utf8.RuneSelf) p.

(** A path with a root that [url.Parse] reads as a path only: it starts
    with one ['/'] and has no ['?'], ['#'] and no control byte. It may
    hold percent-escapes. *)
Definition rootedPath (p : string) : bool :=
  strings.HasPrefix p "/" && negb (strings.HasPrefix p "//")
  && negb (url.stringContainsCTLByte p) && negb (ContainsAny p "?#").

(** Text without a control byte and without a ['#']. *)
Definition cleanText (s : string) : bool :=
  negb (url.stringContainsCTLByte s) && negb (ContainsAny s "#").

(** The text [buildURL] hands to [url.Parse] for a query that is not
    empty. *)
Definition assembled (R : mapOrder) (path : string)
    (query : gmap string string) : string :=
  path +:+ String "?" (strings.Join (map pairText (rangeQuery R query)) "&").

(** A handler that answers 200 with the request's body. *)
Definition echoHandler : handler unit :=
  fun r => httptest.mkRecorder 200 "200 OK" ∅ (http.Request.Body r).

(** What [url.Parse] makes of the text [rawurl] when it is the path [p],
    which starts with one ['/'], followed by the raw query [query]: the
    work of [setPath] and the wrapping of its error. *)
Definition parsedPath (p query rawurl : string) : result url.URL :=
  match url.unescape p url.encodePath with
  | Ok path =>
      Ok (url.mkURL EmptyString EmptyString None EmptyString path
                    (if String.eqb p (url.escape path url.encodePath)
                     then EmptyString else p)
                    false query EmptyString)
  | Err e => Err (urlError "parse" rawurl e)
  end.

(** A byte that occurs in no UTF-8 encoding: [0xC0], [0xC1], and [0xF5]
    and above. *)
Definition forbiddenByte (b : byte) : bool :=
  (b2z b =? 0xC0) || (b2z b =? 0xC1) || (0xF5 <=? b2z b).

(** A GET event with headers and no query. *)
Definition eventWith (headers : gmap string string) : request :=
  request.mk "GET" "/" ∅ headers EmptyString false.

(** * Facts about the library functions *)

(** ** Bytes *)

Lemma b2z_range b : 0 <= b2z b < 256.
Proof.
  unfold b2z. pose proof (Byte.to_N_bounded b). lia.
Qed.

Lemma z2b_b2z b : z2b (b2z b) = b.
Proof.
  unfold z2b. pose proof (b2z_range b) as Hr.
  change 255 with (Z.ones 8). rewrite Z.land_ones by lia.
  rewrite Z.mod_small by (change (2 ^ 8) with 256; lia).
  unfold b2z. rewrite N2Z.id, Byte.of_to_N. reflexivity.
Qed.

Lemma bytesOf_stringOf b : bytesOf (stringOf b) = b.
Proof. apply list_byte_of_string_of_list_byte. Qed.

Lemma stringOf_bytesOf s : stringOf (bytesOf s) = s.
Proof. apply string_of_list_byte_of_string. Qed.

(** ** Facts about base64 *)

Section Base64Facts.
Import base64.

Lemma lor_disjoint hi lo n :
  0 <= n -> 0 <= lo < 2 ^ n ->
  Z.lor (Z.shiftl hi n) lo = hi * 2 ^ n + lo.
Proof.
  intros Hn Hlo.
  assert (Hand : Z.land (Z.shiftl hi n) lo = 0).
  { apply Z.bits_inj'. intros m Hm.
    rewrite Z.land_spec, Z.bits_0.
    destruct (Z.lt_ge_cases m n) as [Hlt | Hge].
    - rewrite Z.shiftl_spec_low by lia. reflexivity.
    - destruct (Z.eq_dec lo 0) as [-> | Hne].
      + rewrite Z.bits_0. apply andb_false_r.
      + rewrite (Z.bits_above_log2 lo m); [apply andb_false_r | lia |].
        apply Z.lt_le_trans with n; [| lia].
        apply Z.log2_lt_pow2; lia. }
  pose proof (Z.add_lor_land (Z.shiftl hi n) lo) as Hadd.
  rewrite Hand, Z.shiftl_mul_pow2 in Hadd by lia.
  rewrite Z.shiftl_mul_pow2 by lia. lia.
Qed.

Lemma land_low x n : 0 <= n -> Z.land x (Z.ones n) = x mod 2 ^ n.
Proof. intros. apply Z.land_ones; lia. Qed.

(** The 24-bit value of three bytes, as the encoder assembles it. *)
Lemma val3_arith b0 b1 b2 :
  0 <= b0 < 256 -> 0 <= b1 < 256 -> 0 <= b2 < 256 ->
  Z.lor (Z.lor (Z.shiftl b0 16) (Z.shiftl b1 8)) b2
  = b0 * 65536 + b1 * 256 + b2.
Proof.
  intros H0 H1 H2.
  assert (E1 : Z.shiftl b1 8 = b1 * 256)
    by (rewrite Z.shiftl_mul_pow2 by lia; reflexivity).
  rewrite (lor_disjoint b0 (Z.shiftl b1 8) 16)
    by (rewrite ?E1; change (2 ^ 16) with 65536; lia).
  rewrite E1. change (2 ^ 16) with 65536.
  replace (b0 * 65536 + b1 * 256) with (Z.shiftl (b0 * 256 + b1) 8).
  2:{ rewrite Z.shiftl_mul_pow2 by lia. change (2 ^ 8) with 256. lia. }
  rewrite lor_disjoint by (change (2 ^ 8) with 256; lia).
  rewrite Z.shiftl_mul_pow2 by lia. reflexivity.
Qed.

(** The value the decoder assembles from four sextets. *)
Lemma quantumVal_arith s0 s1 s2 s3 :
  0 <= s0 < 64 -> 0 <= s1 < 64 -> 0 <= s2 < 64 -> 0 <= s3 < 64 ->
  Z.lor (Z.lor (Z.lor (Z.shiftl s0 18) (Z.shiftl s1 12)) (Z.shiftl s2 6)) s3
  = s0 * 262144 + s1 * 4096 + s2 * 64 + s3.
Proof.
  intros H0 H1 H2 H3.
  rewrite (Z.shiftl_mul_pow2 s1 12), (Z.shiftl_mul_pow2 s2 6) by lia.
  rewrite (lor_disjoint s0 (s1 * 2 ^ 12) 18)
    by (change (2 ^ 12) with 4096; change (2 ^ 18) with 262144; lia).
  assert (Ha : s0 * 2 ^ 18 + s1 * 2 ^ 12 = Z.shiftl (s0 * 64 + s1) 12)
    by (rewrite Z.shiftl_mul_pow2 by lia; change (2 ^ 12) with 4096;
        change (2 ^ 18) with 262144; lia).
  rewrite Ha.
  rewrite (lor_disjoint (s0 * 64 + s1) (s2 * 2 ^ 6) 12)
    by (change (2 ^ 12) with 4096; change (2 ^ 6) with 64; lia).
  assert (Hb : (s0 * 64 + s1) * 2 ^ 12 + s2 * 2 ^ 6
               = Z.shiftl ((s0 * 64 + s1) * 64 + s2) 6)
    by (rewrite Z.shiftl_mul_pow2 by lia; change (2 ^ 12) with 4096;
        change (2 ^ 6) with 64; lia).
  rewrite Hb.
  rewrite lor_disjoint by (change (2 ^ 6) with 64; lia).
  change (2 ^ 6) with 64. lia.
Qed.

Lemma sextet_arith v k :
  0 <= k -> Z.land (Z.shiftr v k) 0x3F = (v / 2 ^ k) mod 64.
Proof.
  intros Hk. change 0x3F with (Z.ones 6).
  rewrite land_low by lia. rewrite Z.shiftr_div_pow2 by lia. reflexivity.
Qed.

Lemma sextet_range v k : 0 <= k -> 0 <= Z.land (Z.shiftr v k) 0x3F < 64.
Proof.
  intros Hk. rewrite sextet_arith by lia. apply Z.mod_pos_bound. lia.
Qed.

Lemma z2b_arith v b : 0 <= b < 256 -> v mod 256 = b -> z2b v = z2b b.
Proof.
  intros Hb Hv. unfold z2b. change 255 with (Z.ones 8).
  rewrite !land_low by lia. change (2 ^ 8) with 256.
  rewrite Hv, Z.mod_small by lia. reflexivity.
Qed.

Lemma decodeMap_encode i : 0 <= i < 64 -> decodeMap (encode i) = i.
Proof.
  intros Hi. rewrite <- (Z2Nat.id i) by lia.
  assert (Hn : (Z.to_nat i < 64)%nat) by lia.
  generalize dependent (Z.to_nat i). clear. intros n Hn.
  do 64 (destruct n as [| n]; [vm_compute; reflexivity |]).
  lia.
Qed.

Lemma decode_sextet v rest si dbuf :
  0 <= v < 64 ->
  decode (String (encode v) rest) si dbuf =
    if (length (dbuf ++ [v]) =? 4)%nat
    then let? tl := decode rest (si + 1) [] in
         Ok (quantumBytes (dbuf ++ [v]) ++ tl)
    else decode rest (si + 1) (dbuf ++ [v]).
Proof.
  intros Hv. cbn [decode]. rewrite decodeMap_encode by exact Hv.
  destruct (Z.eqb_spec v 0xFF) as [E | _]; [lia | reflexivity].
Qed.

Lemma sextet0_arith v : Z.land v 0x3F = v mod 64.
Proof. change 0x3F with (Z.ones 6). apply land_low. lia. Qed.

(** The decoder reassembles the value the encoder split into sextets. *)
Lemma quantumVal_sextets val :
  0 <= val < 16777216 ->
  quantumVal [Z.land (Z.shiftr val 18) 0x3F; Z.land (Z.shiftr val 12) 0x3F;
              Z.land (Z.shiftr val 6) 0x3F; Z.land val 0x3F] = val.
Proof.
  intros Hval. unfold quantumVal. cbn [nth].
  rewrite quantumVal_arith;
    try (apply sextet_range; lia);
    try (rewrite sextet0_arith; apply Z.mod_pos_bound; lia).
  rewrite !sextet_arith, sextet0_arith by lia.
  change (2 ^ 18) with 262144. change (2 ^ 12) with 4096.
  change (2 ^ 6) with 64.
  Z.div_mod_to_equations. lia.
Qed.

Lemma quantumBytes_val (b0 b1 b2 : byte) (val : Z) :
  val = b2z b0 * 65536 + b2z b1 * 256 + b2z b2 ->
  [z2b (Z.shiftr val 16); z2b (Z.shiftr val 8); z2b (Z.shiftr val 0)]
  = [b0; b1; b2].
Proof.
  intros Hval.
  rewrite <- (z2b_b2z b0), <- (z2b_b2z b1), <- (z2b_b2z b2).
  pose proof (b2z_range b0) as H0. pose proof (b2z_range b1) as H1.
  pose proof (b2z_range b2) as H2.
  rewrite !Z.shiftr_div_pow2 by lia.
  change (2 ^ 16) with 65536. change (2 ^ 8) with 256. change (2 ^ 0) with 1.
  f_equal; [| f_equal; [| f_equal]];
    apply z2b_arith; try assumption; rewrite Hval;
    Z.div_mod_to_equations; lia.
Qed.

Lemma list_ind3 {A} (P : list A -> Prop) :
  P [] -> (forall a, P [a]) -> (forall a b, P [a; b]) ->
  (forall a b c l, P l -> P (a :: b :: c :: l)) ->
  forall l, P l.
Proof.
  intros H0 H1 H2 H3 l.
  assert (H : P l /\ (forall a, P (a :: l)) /\ (forall a b, P (a :: b :: l))).
  { induction l as [| x l [IH0 [IH1 IH2]]]; repeat split; auto. }
  apply H.
Qed.

Lemma decode_pad_3 si dbuf :
  length dbuf = 3%nat ->
  decode (String padChar EmptyString) si dbuf = Ok (quantumBytes dbuf).
Proof. intros Hl. cbn. rewrite Hl. reflexivity. Qed.

Lemma decode_pad_2 si dbuf :
  length dbuf = 2%nat ->
  decode (String padChar (String padChar EmptyString)) si dbuf
  = Ok (quantumBytes dbuf).
Proof. intros Hl. cbn. rewrite Hl. reflexivity. Qed.

(** Decoding undoes encoding, wherever in the input the encoded text
    starts. *)
Lemma decode_EncodeToString src :
  forall si, decode (EncodeToString src) si [] = Ok src.
Proof.
  induction src as [| b0 | b0 b1 | b0 b1 b2 rest IH] using list_ind3;
    intros si.
  - reflexivity.
  - cbn [EncodeToString].
    set (val := Z.shiftl (b2z b0) 16).
    pose proof (b2z_range b0) as H0.
    assert (Hval : val = b2z b0 * 65536 + b2z b0 * 0 + 0)
      by (unfold val; rewrite Z.shiftl_mul_pow2 by lia;
          change (2 ^ 16) with 65536; lia).
    rewrite !decode_sextet by (apply sextet_range; lia).
    cbn [length app Nat.eqb].
    rewrite decode_pad_2 by reflexivity.
    unfold quantumBytes. cbn [length Nat.sub take]. f_equal.
    assert (E6 : Z.land (Z.shiftr val 6) 0x3F = 0)
      by (rewrite sextet_arith by lia; rewrite Hval;
          change (2 ^ 6) with 64; Z.div_mod_to_equations; lia).
    assert (E0 : Z.land val 0x3F = 0)
      by (rewrite sextet0_arith; rewrite Hval; Z.div_mod_to_equations; lia).
    assert (Hq : quantumVal [Z.land (Z.shiftr val 18) 0x3F;
                             Z.land (Z.shiftr val 12) 0x3F] = val).
    { rewrite <- (quantumVal_sextets val) at 3 by lia.
      rewrite E6, E0. reflexivity. }
    rewrite Hq.
    rewrite <- (z2b_b2z b0). f_equal.
    apply z2b_arith; [lia |].
    rewrite Z.shiftr_div_pow2 by lia. change (2 ^ 16) with 65536.
    rewrite Hval. Z.div_mod_to_equations. lia.
  - cbn [EncodeToString].
    set (val := Z.lor (Z.shiftl (b2z b0) 16) (Z.shiftl (b2z b1) 8)).
    pose proof (b2z_range b0) as H0. pose proof (b2z_range b1) as H1.
    assert (Hval : val = b2z b0 * 65536 + b2z b1 * 256 + 0).
    { unfold val. rewrite <- (Z.lor_0_r (Z.lor _ _)).
      apply val3_arith; lia. }
    rewrite !decode_sextet by (apply sextet_range; lia).
    cbn [length app Nat.eqb].
    rewrite decode_pad_3 by reflexivity.
    unfold quantumBytes. cbn [length Nat.sub take]. f_equal.
    assert (E0 : Z.land val 0x3F = 0)
      by (rewrite sextet0_arith; rewrite Hval; Z.div_mod_to_equations; lia).
    assert (Hq : quantumVal [Z.land (Z.shiftr val 18) 0x3F;
                             Z.land (Z.shiftr val 12) 0x3F;
                             Z.land (Z.shiftr val 6) 0x3F] = val).
    { rewrite <- (quantumVal_sextets val) at 4 by lia.
      rewrite E0. reflexivity. }
    rewrite !Hq.
    rewrite <- (z2b_b2z b0), <- (z2b_b2z b1).
    rewrite !Z.shiftr_div_pow2 by lia.
    change (2 ^ 16) with 65536. change (2 ^ 8) with 256.
    f_equal; [| f_equal]; apply z2b_arith; try lia;
      rewrite Hval; Z.div_mod_to_equations; lia.
  - cbn [EncodeToString].
    set (val := Z.lor (Z.lor (Z.shiftl (b2z b0) 16) (Z.shiftl (b2z b1) 8))
                      (b2z b2)).
    pose proof (b2z_range b0) as H0. pose proof (b2z_range b1) as H1.
    pose proof (b2z_range b2) as H2.
    assert (Hval : val = b2z b0 * 65536 + b2z b1 * 256 + b2z b2)
      by (apply val3_arith; lia).
    rewrite !decode_sextet;
      try (apply sextet_range; lia);
      try (rewrite sextet0_arith; apply Z.mod_pos_bound; lia).
    cbn [length app Nat.eqb].
    rewrite IH. cbn [bind].
    unfold quantumBytes. cbn [length Nat.sub take].
    rewrite quantumVal_sextets by lia.
    rewrite (quantumBytes_val b0 b1 b2) by exact Hval.
    reflexivity.
Qed.

Lemma DecodeString_EncodeToString src :
  DecodeString (EncodeToString src) = Ok src.
Proof. apply decode_EncodeToString. Qed.

End Base64Facts.

(** ** Strings *)

Section StringFacts.
Implicit Types (s t : string) (c d : ascii) (p q : ascii -> bool).

Lemma sapp_nil_l s : EmptyString +:+ s = s.
Proof. reflexivity. Qed.

Lemma sapp_cons c s t : String c s +:+ t = String c (s +:+ t).
Proof. reflexivity. Qed.

Lemma sapp_nil_r s : s +:+ EmptyString = s.
Proof. induction s as [| c s IH]; [reflexivity |]. now rewrite sapp_cons, IH. Qed.

Lemma sapp_assoc s t u : (s +:+ t) +:+ u = s +:+ (t +:+ u).
Proof.
  induction s as [| c s IH]; [reflexivity |]. now rewrite !sapp_cons, IH.
Qed.

Lemma sapp_eq_nil s t : s +:+ t = EmptyString -> s = EmptyString /\ t = EmptyString.
Proof. destruct s; [auto | discriminate]. Qed.

Lemma ContainsByte_app s t c :
  strings.ContainsByte (s +:+ t) c
  = strings.ContainsByte s c || strings.ContainsByte t c.
Proof.
  induction s as [| d s IH]; [reflexivity |].
  rewrite sapp_cons. cbn. now rewrite IH, orb_assoc.
Qed.

Lemma all_app p s t : strings.all p (s +:+ t) = strings.all p s && strings.all p t.
Proof.
  induction s as [| d s IH]; [reflexivity |].
  rewrite sapp_cons. cbn. now rewrite IH, andb_assoc.
Qed.

Lemma all_impl p q s :
  (forall c, p c = true -> q c = true) ->
  strings.all p s = true -> strings.all q s = true.
Proof.
  intros Hpq. induction s as [| d s IH]; [reflexivity |]. cbn.
  intros [Hd Hs]%andb_prop. now rewrite (Hpq _ Hd), IH.
Qed.

Lemma all_ContainsByte p s c :
  strings.all p s = true -> p c = false -> strings.ContainsByte s c = false.
Proof.
  intros Hall Hc. induction s as [| d s IH]; [reflexivity |].
  cbn in *. apply andb_prop in Hall as [Hd Hs].
  rewrite (IH Hs), orb_false_r.
  destruct (Ascii.eqb_spec d c) as [-> | _]; [congruence | reflexivity].
Qed.

(** A string without any byte of [chars] does not contain [c], one of
    them. *)
Lemma ContainsAny_byte s chars c :
  ContainsAny s chars = false -> oneOf chars c = true ->
  strings.ContainsByte s c = false.
Proof.
  unfold ContainsAny. intros Hall%negb_false_iff Hc.
  apply (all_ContainsByte _ _ _ Hall). now rewrite Hc.
Qed.

Lemma ContainsAny_app s t chars :
  ContainsAny (s +:+ t) chars = ContainsAny s chars || ContainsAny t chars.
Proof. unfold ContainsAny. now rewrite all_app, negb_andb. Qed.

Lemma Cut_app s t c :
  strings.ContainsByte s c = false ->
  strings.Cut (s +:+ String c t) c = (s, t, true).
Proof.
  induction s as [| d s IH]; intros Hs.
  - rewrite sapp_nil_l. cbn [strings.Cut]. now rewrite Ascii.eqb_refl.
  - cbn [strings.ContainsByte] in Hs. apply orb_false_elim in Hs as [Hd Hs].
    rewrite sapp_cons. cbn [strings.Cut]. now rewrite Hd, (IH Hs).
Qed.

Lemma Cut_none s c :
  strings.ContainsByte s c = false ->
  strings.Cut s c = (s, EmptyString, false).
Proof.
  induction s as [| d s IH]; intros Hs; [reflexivity |].
  cbn [strings.ContainsByte] in Hs. apply orb_false_elim in Hs as [Hd Hs].
  cbn [strings.Cut]. now rewrite Hd, (IH Hs).
Qed.

Lemma Count_app s t c :
  strings.Count (s +:+ t) c = strings.Count s c + strings.Count t c.
Proof.
  induction s as [| d s IH]; [reflexivity |].
  rewrite sapp_cons. cbn. rewrite IH. lia.
Qed.

Lemma Count_nonneg s c : 0 <= strings.Count s c.
Proof.
  induction s as [| d s IH]; cbn; [lia |].
  destruct (Ascii.eqb d c); lia.
Qed.

Lemma HasSuffixByte_Count s c :
  strings.HasSuffixByte s c = true -> 1 <= strings.Count s c.
Proof.
  induction s as [| d s IH]; [discriminate |].
  cbn. destruct s as [| e s].
  - intros ->. cbn. lia.
  - intros Hs. specialize (IH Hs). destruct (Ascii.eqb d c); lia.
Qed.

Lemma HasSuffixByte_app s t c :
  t <> EmptyString ->
  strings.HasSuffixByte (s +:+ t) c = strings.HasSuffixByte t c.
Proof.
  intros Ht. induction s as [| d s IH]; [reflexivity |].
  rewrite sapp_cons. cbn.
  destruct (s +:+ t) eqn:E; [| exact IH].
  apply sapp_eq_nil in E as [_ E]. contradiction.
Qed.

Lemma HasSuffixByte_none s c :
  strings.ContainsByte s c = false -> strings.HasSuffixByte s c = false.
Proof.
  induction s as [| d s IH]; [reflexivity |].
  cbn. intros [Hd Hs]%orb_false_elim.
  destruct s; [exact Hd | now apply IH].
Qed.

Lemma len_app s t : len (s +:+ t) = len s + len t.
Proof.
  unfold len.
  assert (E : String.length (s +:+ t)
              = (String.length s + String.length t)%nat).
  { induction s as [| d s IH]; [reflexivity |].
    rewrite sapp_cons. simpl. now rewrite IH. }
  rewrite E. lia.
Qed.

Lemma len_nonneg s : 0 <= len s.
Proof. unfold len. lia. Qed.

Lemma len_pos s : s <> EmptyString -> 0 < len s.
Proof. destruct s; [contradiction | unfold len; cbn; lia]. Qed.

End StringFacts.

(** ** Escaping in net/url *)

Section EscapeFacts.
Import url.
Implicit Types (s t : string) (c d : ascii).

(** Case analysis over the 256 bytes. *)
Ltac each_byte c := destruct c as [[] [] [] [] [] [] [] []].

Lemma upperhex_ishex c :
  ishex (upperhex (Z.shiftr (c2z c) 4)) && ishex (upperhex (Z.land (c2z c) 15))
  = true.
Proof. each_byte c; vm_compute; reflexivity. Qed.

Lemma unhex_upperhex c :
  z2c (Z.lor (Z.shiftl (unhex (upperhex (Z.shiftr (c2z c) 4))) 4)
             (unhex (upperhex (Z.land (c2z c) 15)))) = c.
Proof. each_byte c; vm_compute; reflexivity. Qed.

Lemma unreserved_not_special c :
  shouldEscape c encodeQueryComponent = false ->
  Ascii.eqb c "%" = false /\ Ascii.eqb c "+" = false.
Proof. each_byte c; vm_compute; intros H; try discriminate H; auto. Qed.

Lemma escape_byte_output c :
  escapeOutput (upperhex (Z.shiftr (c2z c) 4))
  && escapeOutput (upperhex (Z.land (c2z c) 15)) = true.
Proof. each_byte c; vm_compute; reflexivity. Qed.

Lemma unreserved_output c :
  shouldEscape c encodeQueryComponent = false -> escapeOutput c = true.
Proof. each_byte c; vm_compute; intros H; try discriminate H; auto. Qed.

Lemma escapedByte_output c : escapedByte c = true -> escapeOutput c = true.
Proof. each_byte c; vm_compute; intros H; try discriminate H; auto. Qed.

Lemma escapeOutput_safe c :
  escapeOutput c = true ->
  oneOf "&;=#?" c = false
  /\ ((c2z c <? c2z " ") || (c2z c =? 0x7f)) = false.
Proof. each_byte c; vm_compute; intros H; try discriminate H; auto. Qed.

(** Unescaping undoes escaping of a query component. *)
Lemma QueryUnescape_QueryEscape s : QueryUnescape (QueryEscape s) = Ok s.
Proof.
  unfold QueryUnescape, QueryEscape.
  induction s as [| c s IH]; [reflexivity |].
  cbn [escape isQueryComponent]. rewrite andb_true_r.
  destruct (Ascii.eqb_spec c " ") as [-> | Hsp].
  - cbn [unescape]. change (Ascii.eqb "+" "%") with false.
    change (Ascii.eqb "+" "+") with true. cbn iota.
    rewrite IH. reflexivity.
  - destruct (shouldEscape c encodeQueryComponent) eqn:Hesc.
    + cbn [unescape]. change (Ascii.eqb "%" "%") with true. cbn iota.
      rewrite upperhex_ishex. cbn [negb andb]. rewrite IH. cbn [bind].
      now rewrite unhex_upperhex.
    + destruct (unreserved_not_special c Hesc) as [Hp Hq].
      cbn [unescape]. rewrite Hp, Hq. cbn [isHostMode andb].
      rewrite IH. reflexivity.
Qed.

Lemma QueryEscape_output s : strings.all escapeOutput (QueryEscape s) = true.
Proof.
  unfold QueryEscape. induction s as [| c s IH]; [reflexivity |].
  cbn [escape isQueryComponent]. rewrite andb_true_r.
  destruct (Ascii.eqb c " ").
  - cbn [strings.all]. now rewrite IH.
  - destruct (shouldEscape c encodeQueryComponent) eqn:Hesc.
    + cbn [strings.all]. rewrite IH, andb_true_r.
      pose proof (escape_byte_output c) as H.
      apply andb_prop in H as [-> ->]. reflexivity.
    + cbn [strings.all]. now rewrite IH, (unreserved_output c Hesc).
Qed.

(** A string of such bytes has no separator, no ['='], ['#'], ['?'] and no
    control byte. *)
Lemma output_ContainsAny s :
  strings.all escapeOutput s = true -> ContainsAny s "&;=#?" = false.
Proof.
  intros H. unfold ContainsAny. apply negb_false_iff.
  apply (all_impl escapeOutput); [| exact H].
  intros c Hc. destruct (escapeOutput_safe c Hc) as [-> _]. reflexivity.
Qed.

Lemma output_no_CTL s :
  strings.all escapeOutput s = true -> stringContainsCTLByte s = false.
Proof.
  induction s as [| c s IH]; [reflexivity |].
  cbn [strings.all stringContainsCTLByte]. intros [Hc Hs]%andb_prop.
  destruct (escapeOutput_safe c Hc) as [_ ->]. now apply IH.
Qed.

Lemma escaped_output s : escaped s = true -> strings.all escapeOutput s = true.
Proof.
  unfold escaped. intros [_ H]%andb_prop.
  apply (all_impl escapedByte); [apply escapedByte_output | exact H].
Qed.

Lemma escaped_unescapes s :
  escaped s = true -> exists t, QueryUnescape s = Ok t.
Proof.
  unfold escaped. intros [H _]%andb_prop.
  destruct (QueryUnescape s) as [t | e]; [eauto | discriminate].
Qed.

(** Without ['%'] and ['+'] nothing is unescaped, in a path or a query
    component. *)
Lemma unescape_plain s mode :
  isHostMode mode = false ->
  strings.ContainsByte s "%" = false ->
  isQueryComponent mode = false \/ strings.ContainsByte s "+" = false ->
  unescape s mode = Ok s.
Proof.
  intros Hmode. induction s as [| c s IH]; [reflexivity |].
  cbn [strings.ContainsByte]. intros [Hc Hs]%orb_false_elim Hplus.
  cbn [unescape]. rewrite Hc, Hmode. cbn [andb].
  destruct (Ascii.eqb c "+") eqn:Hp.
  - destruct Hplus as [Hq | Hplus].
    + rewrite Hq, IH by auto. apply Ascii.eqb_eq in Hp as ->. reflexivity.
    + discriminate Hplus.
  - rewrite IH; [reflexivity | exact Hs |].
    destruct Hplus as [Hq | Hplus]; [now left | right]. exact Hplus.
Qed.

(** [QueryUnescape] fails only with an [EscapeError]. *)
Lemma QueryUnescape_error s e :
  QueryUnescape s = Err e -> exists t, e = EscapeError t.
Proof.
  unfold QueryUnescape.
  assert (H : forall n s, (String.length s < n)%nat -> forall e,
             unescape s encodeQueryComponent = Err e ->
             exists t, e = EscapeError t).
  { clear. induction n as [| n IH]; intros s Hn e; [lia |].
    destruct s as [| c s]; [discriminate |].
    cbn [unescape isHostMode isQueryComponent andb].
    destruct (Ascii.eqb c "%").
    - destruct s as [| a [| b s]]; try (intros [= <-]; eauto).
      destruct (negb (ishex a && ishex b)); [intros [= <-]; eauto |].
      destruct (unescape s encodeQueryComponent) as [t | e'] eqn:E;
        [discriminate |].
      cbn [bind]. intros [= <-]. apply (IH s); [cbn in Hn; lia | exact E].
    - destruct (Ascii.eqb c "+");
        (destruct (unescape s encodeQueryComponent) as [t | e'] eqn:E;
         [discriminate |]);
        cbn [bind]; intros [= <-];
        (apply (IH s); [cbn in Hn; lia | exact E]). }
  apply (H (S (String.length s))). lia.
Qed.

End EscapeFacts.

(** ** Parsing in net/url *)

Section ParseFacts.
Import url.
Implicit Types (s t p q : string) (c d : ascii) (u : URL).

Lemma CTL_app s t :
  stringContainsCTLByte (s +:+ t)
  = stringContainsCTLByte s || stringContainsCTLByte t.
Proof.
  induction s as [| c s IH]; [reflexivity |].
  rewrite sapp_cons. cbn [stringContainsCTLByte]. now rewrite IH, orb_assoc.
Qed.

Lemma setPath_RawQuery u p u' :
  setPath u p = Ok u' ->
  RawQuery u' = RawQuery u /\ ForceQuery u' = ForceQuery u
  /\ Fragment u' = Fragment u.
Proof.
  unfold setPath. destruct (unescape p encodePath) as [path | e];
    [| discriminate].
  cbn [bind]. intros [= <-]. auto.
Qed.

(** The scheme scanner stops at a ['?']. *)
Lemma scanScheme_app p q first :
  strings.ContainsByte p "?" = false ->
  scanScheme (p +:+ String "?" q) first =
    match scanScheme p first with
    | foundScheme scheme r => foundScheme scheme (r +:+ String "?" q)
    | other => other
    end.
Proof.
  revert first. induction p as [| c p IH]; intros first Hp; [reflexivity |].
  cbn [strings.ContainsByte] in Hp. apply orb_false_elim in Hp as [_ Hp].
  rewrite sapp_cons. cbn [scanScheme]. rewrite (IH false Hp).
  destruct (isLower c || isUpper c);
    [destruct (scanScheme p false); reflexivity |].
  destruct (isDigit c || oneOf "+-." c);
    [destruct first; [reflexivity | destruct (scanScheme p false); reflexivity] |].
  destruct (Ascii.eqb c ":"); [destruct first |]; reflexivity.
Qed.

Lemma scanScheme_rest p first scheme r c :
  scanScheme p first = foundScheme scheme r ->
  strings.ContainsByte p c = false -> strings.ContainsByte r c = false.
Proof.
  revert first scheme r. induction p as [| d p IH]; intros first scheme r;
    [discriminate |].
  cbn [scanScheme strings.ContainsByte].
  intros Hscan [_ Hp]%orb_false_elim.
  destruct (scanScheme p false) as [| | scheme' r'] eqn:E.
  - destruct (isLower d || isUpper d); [discriminate |].
    destruct (isDigit d || oneOf "+-." d); [destruct first; discriminate |].
    destruct (Ascii.eqb d ":"); [destruct first |]; try discriminate.
    injection Hscan as _ <-. exact Hp.
  - destruct (isLower d || isUpper d); [discriminate |].
    destruct (isDigit d || oneOf "+-." d); [destruct first; discriminate |].
    destruct (Ascii.eqb d ":"); [destruct first |]; try discriminate.
    injection Hscan as _ <-. exact Hp.
  - assert (Hr' : strings.ContainsByte r' c = false) by (eapply IH; eauto).
    destruct (isLower d || isUpper d); [injection Hscan as _ <-; exact Hr' |].
    destruct (isDigit d || oneOf "+-." d);
      [destruct first; [discriminate | injection Hscan as _ <-; exact Hr'] |].
    destruct (Ascii.eqb d ":"); [destruct first |]; try discriminate.
    injection Hscan as _ <-. exact Hp.
Qed.

(** With a query that is not empty after the only ['?'], the query is not
    forced and the cut is at that ['?']. *)
Lemma query_split r q :
  strings.ContainsByte r "?" = false -> q <> EmptyString ->
  strings.HasSuffixByte (r +:+ String "?" q) "?"
  && (strings.Count (r +:+ String "?" q) "?" =? 1) = false
  /\ strings.Cut (r +:+ String "?" q) "?" = (r, q, true).
Proof.
  intros Hr Hq. split; [| now apply Cut_app].
  rewrite HasSuffixByte_app by discriminate.
  rewrite Count_app. cbn [strings.Count]. change (Ascii.eqb "?" "?") with true.
  destruct q as [| c q]; [contradiction |].
  change (strings.HasSuffixByte (String "?" (String c q)) "?")
    with (strings.HasSuffixByte (String c q) "?").
  destruct (strings.HasSuffixByte (String c q) "?") eqn:E; [| reflexivity].
  apply HasSuffixByte_Count in E.
  pose proof (Count_nonneg r "?"). cbn [andb]. apply Z.eqb_neq. lia.
Qed.

Lemma contains_not_star s :
  strings.ContainsByte s "?" = true -> String.eqb s "*" = false.
Proof.
  intros Hs. apply String.eqb_neq. intros ->. discriminate.
Qed.

(** Whatever else [parse] makes of it, the text after the only ['?'] is
    the raw query. *)
Lemma parse_RawQuery p q u :
  strings.ContainsByte p "?" = false -> q <> EmptyString ->
  parse (p +:+ String "?" q) false = Ok u -> RawQuery u = q.
Proof.
  intros Hp Hq. unfold parse.
  destruct (stringContainsCTLByte _); [discriminate |].
  rewrite andb_false_r.
  rewrite contains_not_star
    by (rewrite ContainsByte_app; cbn; apply orb_true_r).
  unfold getscheme. rewrite scanScheme_app by exact Hp.
  destruct (scanScheme p true) as [| | scheme r] eqn:Es; [| discriminate |];
    cbn [bind];
    [ destruct (query_split p q Hp Hq) as [-> ->]
    | assert (Hr : strings.ContainsByte r "?" = false)
        by (eapply scanScheme_rest; eauto);
      destruct (query_split r q Hr Hq) as [-> ->] ];
    cbn zeta;
    repeat match goal with
           | |- context [if ?b then _ else _] => destruct b
           | |- context [let '(_, _) := ?x in _] => destruct x
           | |- context [bind ?x _] => destruct x as [[? ?] |]; cbn [bind]
           end;
    try discriminate;
    try (intros [= <-]; reflexivity);
    intros [Hu _]%setPath_RawQuery; exact Hu.
Qed.

Lemma parse_no_query p u :
  strings.ContainsByte p "?" = false ->
  parse p false = Ok u -> RawQuery u = EmptyString.
Proof.
  intros Hp. unfold parse.
  destruct (stringContainsCTLByte _); [discriminate |].
  rewrite andb_false_r.
  destruct (String.eqb p "*"); [intros [= <-]; reflexivity |].
  unfold getscheme.
  destruct (scanScheme p true) as [| | scheme r] eqn:Es; [| discriminate |];
    cbn [bind];
    [ rewrite (HasSuffixByte_none p "?" Hp), (Cut_none p "?" Hp)
    | assert (Hr : strings.ContainsByte r "?" = false)
        by (eapply scanScheme_rest; eauto);
      rewrite (HasSuffixByte_none r "?" Hr), (Cut_none r "?" Hr) ];
    cbn [andb]; cbn zeta;
    repeat match goal with
           | |- context [if ?b then _ else _] => destruct b
           | |- context [let '(_, _) := ?x in _] => destruct x
           | |- context [bind ?x _] => destruct x as [[? ?] |]; cbn [bind]
           end;
    try discriminate;
    try (intros [= <-]; reflexivity);
    intros [Hu _]%setPath_RawQuery; exact Hu.
Qed.

Lemma plainPath_unfold p :
  plainPath p = true ->
  (exists p', p = String "/" p')
  /\ strings.HasPrefix p "//" = false
  /\ stringContainsCTLByte p = false
  /\ strings.ContainsByte p "%" = false
  /\ strings.ContainsByte p "?" = false
  /\ strings.ContainsByte p "#" = false.
Proof.
  unfold plainPath.
  intros [[[H1 H2%negb_true_iff]%andb_prop H3%negb_true_iff]%andb_prop
            H4%negb_true_iff]%andb_prop.
  repeat split; try assumption;
    try (eapply ContainsAny_byte; [exact H4 | reflexivity]).
  destruct p as [| c p']; [discriminate |].
  cbn [strings.HasPrefix] in H1. rewrite andb_true_r in H1.
  apply Ascii.eqb_eq in H1 as ->. eauto.
Qed.

(** A plain path followed by a query parses into that path and that raw
    query. *)
Lemma Parse_plain_query p q :
  plainPath p = true -> q <> EmptyString ->
  stringContainsCTLByte q = false -> strings.ContainsByte q "#" = false ->
  Parse (p +:+ String "?" q)
  = Ok (mkURL EmptyString EmptyString None EmptyString p (rawPathOf p)
              false q EmptyString).
Proof.
  intros Hplain Hq Hctl Hhash.
  pose proof Hplain as ([p' ->] & H2 & H3 & Hpct & Hqm & Hh)%plainPath_unfold.
  unfold Parse.
  rewrite Cut_none
    by (rewrite ContainsByte_app, Hh; cbn [strings.ContainsByte];
        rewrite Hhash; reflexivity).
  unfold parse.
  rewrite CTL_app, H3. cbn [stringContainsCTLByte].
  rewrite Hctl. change (_ || false) with false at 1. cbn match.
  rewrite andb_false_r.
  rewrite contains_not_star
    by (rewrite ContainsByte_app; cbn; apply orb_true_r).
  unfold getscheme. rewrite scanScheme_app by exact Hqm.
  change (scanScheme (String "/" p') true) with noScheme.
  cbn [bind ToLower].
  destruct (query_split (String "/" p') q Hqm Hq) as [-> ->].
  change (strings.HasPrefix (String "/" p') "/") with true.
  cbn [negb]. cbv iota zeta.
  rewrite H2, andb_false_r. unfold setPath.
  rewrite unescape_plain by auto. reflexivity.
Qed.

(** A plain path alone parses into itself. *)
Lemma Parse_plain p :
  plainPath p = true ->
  Parse p = Ok (mkURL EmptyString EmptyString None EmptyString p (rawPathOf p)
                      false EmptyString EmptyString).
Proof.
  intros Hplain.
  pose proof Hplain as ([p' ->] & H2 & H3 & Hpct & Hqm & Hh)%plainPath_unfold.
  unfold Parse. rewrite Cut_none by exact Hh.
  unfold parse. rewrite H3. rewrite andb_false_r.
  change (String.eqb (String "/" p') "*") with false.
  unfold getscheme.
  change (scanScheme (String "/" p') true) with noScheme.
  cbn [bind ToLower].
  rewrite (HasSuffixByte_none _ _ Hqm), (Cut_none _ _ Hqm).
  change (strings.HasPrefix (String "/" p') "/") with true.
  cbn [negb andb]. cbv iota zeta.
  rewrite H2, andb_false_r. unfold setPath.
  rewrite unescape_plain by auto. reflexivity.
Qed.

(** The raw query of whatever [Parse] returns. *)
Lemma Parse_RawQuery p q u :
  ContainsAny p "?#" = false -> strings.ContainsByte q "#" = false ->
  q <> EmptyString ->
  Parse (p +:+ String "?" q) = Ok u -> RawQuery u = q.
Proof.
  intros Hp Hhash Hq. unfold Parse.
  rewrite Cut_none
    by (rewrite ContainsByte_app, (ContainsAny_byte p "?#" "#" Hp eq_refl);
        cbn [strings.ContainsByte]; rewrite Hhash; reflexivity).
  destruct (parse _ false) as [url |] eqn:E; [| discriminate].
  cbn. intros [= <-].
  eapply parse_RawQuery; [| exact Hq | exact E].
  eapply ContainsAny_byte; [exact Hp | reflexivity].
Qed.

Lemma Parse_no_query p u :
  ContainsAny p "?#" = false ->
  Parse p = Ok u -> RawQuery u = EmptyString.
Proof.
  intros Hp. unfold Parse.
  rewrite Cut_none by (eapply ContainsAny_byte; [exact Hp | reflexivity]).
  destruct (parse _ false) as [url |] eqn:E; [| discriminate].
  cbn. intros [= <-].
  eapply parse_no_query; [| exact E].
  eapply ContainsAny_byte; [exact Hp | reflexivity].
Qed.

End ParseFacts.

(** ** Query strings *)

Section QueryFacts.
Import url.
Implicit Types (s t f k : string) (fs : list string)
  (l : list (string * string)).

Lemma Join_cons f fs sep :
  fs <> [] -> strings.Join (f :: fs) sep = f +:+ sep +:+ strings.Join fs sep.
Proof. destruct fs; [contradiction | reflexivity]. Qed.

Lemma Join_snoc fs f sep :
  fs <> [] -> strings.Join (fs ++ [f]) sep = strings.Join fs sep +:+ sep +:+ f.
Proof.
  induction fs as [| g fs IH]; [contradiction |]. intros _.
  destruct fs as [| g' fs]; [reflexivity |].
  change ((g :: g' :: fs) ++ [f]) with (g :: ((g' :: fs) ++ [f])).
  rewrite Join_cons by (destruct fs; discriminate).
  rewrite IH by discriminate.
  rewrite (Join_cons g (g' :: fs)) by discriminate.
  now rewrite !sapp_assoc.
Qed.

Lemma Join_nonempty f fs sep :
  f <> EmptyString -> strings.Join (f :: fs) sep <> EmptyString.
Proof.
  intros Hf. destruct fs as [| g fs]; [exact Hf |].
  rewrite Join_cons by discriminate.
  intros [E _]%sapp_eq_nil. contradiction.
Qed.

(** The loop of [buildURL] writes the pairs joined by ['&']. *)
Lemma writeQuery_Join l b i :
  0 <= i -> l <> [] ->
  FastPath.writeQuery l b i
  = (if i =? 0 then b else b +:+ "&")
      +:+ strings.Join (map pairText l) "&".
Proof.
  revert b i. induction l as [| [k v] l IH]; [contradiction |].
  intros b i Hi _. cbn [FastPath.writeQuery map].
  destruct l as [| kv l].
  - cbn [FastPath.writeQuery map strings.Join]. unfold pairText. cbn [fst snd].
    destruct (i =? 0); cbn [negb]; now rewrite ?sapp_assoc.
  - rewrite IH by (lia || discriminate).
    destruct (Z.eqb_spec (i + 1) 0) as [E | _]; [lia |].
    rewrite (Join_cons (pairText (k, v))) by discriminate.
    unfold pairText at 2. cbn [fst snd].
    destruct (i =? 0); cbn [negb]; now rewrite ?sapp_assoc.
Qed.

Lemma fields_nosep f : ContainsAny f "&;" = false -> fields f = [f].
Proof.
  unfold ContainsAny. intros H%negb_false_iff.
  induction f as [| c f IH]; [reflexivity |].
  cbn [strings.all] in H. apply andb_prop in H as [Hc Hf].
  cbn [fields]. unfold isSeparator. apply negb_true_iff in Hc. rewrite Hc.
  now rewrite (IH Hf).
Qed.

Lemma fields_app f t :
  ContainsAny f "&;" = false ->
  fields (f +:+ String "&" t) = f :: fields t.
Proof.
  unfold ContainsAny. intros H%negb_false_iff.
  induction f as [| c f IH]; [reflexivity |].
  cbn [strings.all] in H. apply andb_prop in H as [Hc Hf].
  rewrite sapp_cons. cbn [fields]. unfold isSeparator.
  apply negb_true_iff in Hc. rewrite Hc. now rewrite (IH Hf).
Qed.

Lemma fields_Join fs :
  fs <> [] -> Forall (fun f => ContainsAny f "&;" = false) fs ->
  fields (strings.Join fs "&") = fs.
Proof.
  induction fs as [| f fs IH]; [contradiction |]. intros _ Hall.
  apply Forall_cons in Hall as [Hf Hfs].
  destruct fs as [| g fs]; [now apply fields_nosep |].
  rewrite Join_cons by discriminate.
  change ("&" +:+ strings.Join (g :: fs) "&")
    with (String "&" (strings.Join (g :: fs) "&")).
  rewrite fields_app by exact Hf. now rewrite IH.
Qed.

End QueryFacts.

(** ** Loops over the entries of a map *)

Section FoldFacts.
Context {A B : Type}.
Variable step : gmap string B -> string * A -> gmap string B.
Variable g : A -> B.
Hypothesis step_other :
  forall m k a k', k' <> k -> step m (k, a) !! k' = m !! k'.
Hypothesis step_fresh :
  forall m k a, m !! k = None -> step m (k, a) !! k = Some (g a).

Lemma foldl_step_other (l : list (string * A)) m k :
  k ∉ l.*1 -> foldl step m l !! k = m !! k.
Proof.
  revert m. induction l as [| [k' a] l IH]; intros m Hk; [reflexivity |].
  cbn in *. apply not_elem_of_cons in Hk as [Hne Hk].
  rewrite IH by exact Hk. now apply step_other.
Qed.

Lemma foldl_step_entry (l : list (string * A)) m k a :
  NoDup l.*1 -> (forall k', k' ∈ l.*1 -> m !! k' = None) ->
  (k, a) ∈ l -> foldl step m l !! k = Some (g a).
Proof.
  revert m. induction l as [| [k' a'] l IH]; intros m Hnd Hfresh Hin.
  - now apply not_elem_of_nil in Hin.
  - cbn in *. apply NoDup_cons in Hnd as [Hk' Hnd].
    apply elem_of_cons in Hin as [[= -> ->] | Hin].
    + rewrite foldl_step_other by exact Hk'.
      apply step_fresh, Hfresh. left.
    + apply IH; [exact Hnd | | exact Hin].
      intros k'' Hk''. rewrite step_other.
      * apply Hfresh. now right.
      * intros ->. contradiction.
Qed.

(** Visiting every entry of [q] once, in any order, builds [g <$> q]. *)
Lemma foldl_step_map (q : gmap string A) (l : list (string * A)) :
  l ≡ₚ map_to_list q -> foldl step ∅ l = g <$> q.
Proof.
  intros Hl. apply map_eq. intros k. rewrite lookup_fmap.
  assert (Hnd : NoDup l.*1).
  { rewrite Hl. apply NoDup_fst_map_to_list. }
  destruct (q !! k) as [a |] eqn:Hk; cbn.
  - apply foldl_step_entry; [exact Hnd | intros; apply lookup_empty |].
    rewrite Hl. now apply elem_of_map_to_list.
  - rewrite foldl_step_other; [apply lookup_empty |].
    intros [[k' a] [-> Hin]]%list_elem_of_fmap.
    rewrite Hl in Hin. apply elem_of_map_to_list in Hin. cbn in Hk.
    congruence.
Qed.

End FoldFacts.

(** * Facts about the adapter *)

Section AdapterFacts.
Context {context : Type}.
Implicit Types (R : mapOrder) (h : handler context) (ctx : context)
  (req : request) (v : revision).

Lemma length_bytesOf s : length (bytesOf s) = String.length s.
Proof.
  unfold bytesOf, list_byte_of_string. rewrite length_map.
  induction s as [| c s IH]; simpl; [reflexivity | now rewrite IH].
Qed.

(** Each revision builds the URL and then runs the shared part. *)
Lemma Run_unfold v R h ctx req :
  Run v R h ctx req =
    match requestURL v R req with
    | Err err => mkOutcome [] (Err err)
    | Ok u => lambdaHandler.serve R h ctx req u
    end.
Proof. destruct v; reflexivity. Qed.

Lemma serve_unfold R h ctx req u :
  lambdaHandler.serve R h ctx req u =
    match lambdaHandler.requestBody req with
    | Err err => mkOutcome [] (Err err)
    | Ok (body, n) =>
        let r := builtRequest R ctx req u body n in
        mkOutcome [r] (Ok (lambdaHandler.envelope R (h r)))
    end.
Proof.
  unfold lambdaHandler.serve.
  destruct (lambdaHandler.requestBody req) as [[body n] | err]; reflexivity.
Qed.

(** An envelope is returned only after exactly one handler call, and it
    is the encoding of what that call recorded. *)
Lemma Run_returns v R h ctx req out :
  returned (Run v R h ctx req) = Ok out ->
  exists r, calls (Run v R h ctx req) = [r]
            /\ out = lambdaHandler.envelope R (h r).
Proof.
  rewrite Run_unfold.
  destruct (requestURL v R req) as [u | err]; [| discriminate].
  rewrite serve_unfold.
  destruct (lambdaHandler.requestBody req) as [[body n] | err];
    [| discriminate].
  cbn. intros [= <-]. eexists. split; reflexivity.
Qed.

(** An error is returned without any handler call. *)
Lemma Run_fails v R h ctx req err :
  returned (Run v R h ctx req) = Err err -> calls (Run v R h ctx req) = [].
Proof.
  rewrite Run_unfold.
  destruct (requestURL v R req) as [u | e]; [| reflexivity].
  rewrite serve_unfold.
  destruct (lambdaHandler.requestBody req) as [[body n] | e];
    [discriminate | reflexivity].
Qed.

End AdapterFacts.

Section HeaderFacts.

(** The response headers are the captured ones, each joined by a comma. *)
Lemma joinHeaders_map R (header : http.Header) :
  validOrder R ->
  lambdaHandler.joinHeaders (rangeHeader R header)
  = (fun vv => strings.Join vv ",") <$> header.
Proof.
  intros (_ & _ & Hperm). unfold lambdaHandler.joinHeaders.
  apply (foldl_step_map
           (fun headers kv => <[kv.1 := strings.Join kv.2 ","]> headers)
           (fun vv => strings.Join vv ",")).
  - intros m k a k' Hne. cbn. now apply lookup_insert_ne.
  - intros m k a _. cbn. apply lookup_insert_eq.
  - apply Hperm.
Qed.

End HeaderFacts.

Section UrlOfRun.
Import url.
Implicit Types (R : mapOrder) (req : request).

Lemma listOrder_valid : validOrder listOrder.
Proof. repeat split; intros m; reflexivity. Qed.

Lemma size_zero_empty {A} (m : gmap string A) :
  (Z.of_nat (size m) =? 0) = true <-> m = ∅.
Proof.
  rewrite Z.eqb_eq. rewrite <- map_size_empty_iff. lia.
Qed.

Lemma range_nonempty R (q : gmap string string) :
  validOrder R -> q <> ∅ -> rangeQuery R q <> [].
Proof.
  intros (Hperm & _) Hq E. specialize (Hperm q). rewrite E in Hperm.
  symmetry in Hperm. apply Permutation_nil_r in Hperm.
  now apply map_to_list_empty_iff in Hperm.
Qed.

Lemma buildURL_empty R path :
  FastPath.buildURL R path ∅ = Parse path.
Proof. reflexivity. Qed.

(** For a query that is not empty [buildURL] parses the path, a ['?'] and
    the pairs joined by ['&']. *)
Lemma buildURL_nonempty R path (q : gmap string string) :
  validOrder R -> q <> ∅ ->
  FastPath.buildURL R path q
  = Parse (path +:+ String "?"
             (strings.Join (map pairText (rangeQuery R q)) "&")).
Proof.
  intros HR Hq. unfold FastPath.buildURL.
  destruct (Z.eqb_spec (Z.of_nat (size q)) 0) as [E | _].
  - exfalso. apply Hq. apply size_zero_empty. now apply Z.eqb_eq.
  - rewrite writeQuery_Join by (lia || now apply range_nonempty).
    change (0 =? 0) with true. cbv iota.
    rewrite sapp_assoc. reflexivity.
Qed.

Lemma requestURL_empty R req :
  request.Query req = ∅ ->
  Conservative.requestURL R req
  = Ok (mkURL EmptyString EmptyString None EmptyString (request.Path req)
              EmptyString false EmptyString EmptyString).
Proof.
  intros E. unfold Conservative.requestURL. rewrite E. reflexivity.
Qed.

(** In [src/alb.go] one value that does not unescape fails the loop. *)
Lemma unescapeQuery_fails (l : list (string * string)) k val e :
  (k, val) ∈ l -> QueryUnescape val = Err e ->
  forall vals, exists t, Conservative.unescapeQuery l vals = Err (EscapeError t).
Proof.
  intros Hin Hval. induction l as [| [k' v'] l IH]; intros vals.
  - now apply not_elem_of_nil in Hin.
  - cbn [Conservative.unescapeQuery].
    destruct (QueryUnescape v') as [v2 | e'] eqn:Ev'; cbn [bind].
    + apply elem_of_cons in Hin as [[= -> ->] | Hin]; [congruence |].
      now apply IH.
    + destruct (QueryUnescape_error _ _ Ev') as [t ->]. eauto.
Qed.

End UrlOfRun.

(** ** The pairs of a raw query *)

Section PairFacts.
Import url.
Implicit Types (s t f k : string) (fs : list string)
  (l : list (string * string)).

Lemma ContainsAny_mono s chars chars' :
  (forall c, oneOf chars' c = true -> oneOf chars c = true) ->
  ContainsAny s chars = false -> ContainsAny s chars' = false.
Proof.
  unfold ContainsAny. intros Hsub H%negb_false_iff. apply negb_false_iff.
  eapply all_impl; [| exact H].
  intros c Hc. cbn beta in *. apply negb_true_iff in Hc.
  apply negb_true_iff.
  destruct (oneOf chars' c) eqn:E; [| reflexivity].
  rewrite (Hsub c E) in Hc. discriminate.
Qed.

Lemma oneOf_sub (chars chars' : string) c :
  strings.all (oneOf chars) chars' = true ->
  oneOf chars' c = true -> oneOf chars c = true.
Proof.
  unfold oneOf at 2. induction chars' as [| d chars' IH]; [discriminate |].
  cbn [strings.all strings.ContainsByte].
  intros [Hd Hall]%andb_prop [Hc | Hc]%orb_prop.
  - apply Ascii.eqb_eq in Hc as <-. exact Hd.
  - now apply IH.
Qed.

(** A string free of the bytes of [chars] is free of any selection
    [chars'] of them. *)
Lemma ContainsAny_sub s chars chars' :
  strings.all (oneOf chars) chars' = true ->
  ContainsAny s chars = false -> ContainsAny s chars' = false.
Proof.
  intros Hsub. apply ContainsAny_mono. intros c. now apply oneOf_sub.
Qed.

Lemma ContainsAny_nil chars : ContainsAny EmptyString chars = false.
Proof. reflexivity. Qed.

Lemma ContainsAny_cons c s chars :
  ContainsAny (String c s) chars = oneOf chars c || ContainsAny s chars.
Proof.
  unfold ContainsAny. cbn [strings.all].
  now rewrite negb_andb, negb_involutive.
Qed.

Lemma pairText_eq k v : pairText (k, v) = k +:+ String "=" v.
Proof. reflexivity. Qed.

Lemma pairText_nonempty kv : pairText kv <> EmptyString.
Proof.
  destruct kv as [k v]. rewrite pairText_eq.
  intros [_ E]%sapp_eq_nil. discriminate.
Qed.

Lemma pairText_ContainsAny k v chars :
  oneOf chars "=" = false ->
  ContainsAny k chars = false -> ContainsAny v chars = false ->
  ContainsAny (pairText (k, v)) chars = false.
Proof.
  intros He Hk Hv.
  now rewrite pairText_eq, ContainsAny_app, ContainsAny_cons, Hk, He, Hv.
Qed.

Lemma ContainsAny_Join fs sep chars :
  ContainsAny sep chars = false ->
  Forall (fun f => ContainsAny f chars = false) fs ->
  ContainsAny (strings.Join fs sep) chars = false.
Proof.
  intros Hsep. induction fs as [| f fs IH]; [reflexivity |].
  intros [Hf Hfs]%Forall_cons.
  destruct fs as [| g fs]; [exact Hf |].
  rewrite Join_cons by discriminate.
  now rewrite !ContainsAny_app, Hf, Hsep, IH.
Qed.

(** What [rawPairs] reads from one written pair. *)
Lemma rawPair_read k v :
  strings.ContainsByte k "=" = false -> rawPair (pairText (k, v)) = Some (k, v).
Proof.
  intros Hk. unfold rawPair.
  destruct (String.eqb_spec (pairText (k, v)) EmptyString) as [E | _].
  - now apply pairText_nonempty in E.
  - rewrite pairText_eq, Cut_app by exact Hk. reflexivity.
Qed.

(** Pairs joined by ['&'] are read back as they were written. *)
Lemma rawPairs_Join l :
  Forall (fun kv => ContainsAny kv.1 "&;=" = false
                    /\ ContainsAny kv.2 "&;" = false) l ->
  rawPairs (strings.Join (map pairText l) "&") = l.
Proof.
  intros Hl. unfold rawPairs.
  destruct l as [| kv l]; [reflexivity |].
  rewrite fields_Join.
  - induction Hl as [| [k v] l' [Hk Hv] _ IH]; [reflexivity |].
    cbn [map omap list_omap]. cbn [fst snd] in *.
    rewrite (rawPair_read k v)
      by (eapply ContainsAny_byte; [exact Hk | reflexivity]).
    now rewrite IH.
  - discriminate.
  - apply Forall_map. eapply Forall_impl; [exact Hl |].
    intros [k v] [Hk Hv]. cbn [fst snd] in *.
    apply pairText_ContainsAny; [reflexivity | | exact Hv].
    revert Hk. now apply ContainsAny_sub.
Qed.

End PairFacts.

(** ** Encoding the values of a query *)

Section EncodeFacts.
Import url.
Implicit Types (s t f k : string) (fs : list string)
  (l : list (string * string)) (q : gmap string string).

Lemma Join_first_nonempty fs sep :
  fs <> [] -> Forall (fun f => f <> EmptyString) fs ->
  strings.Join fs sep <> EmptyString.
Proof.
  destruct fs as [| f fs]; [contradiction |].
  intros _ [Hf _]%Forall_cons. now apply Join_nonempty.
Qed.

(** Writing one more pair into a buffer that holds joined pairs. *)
Lemma writePair_Join fs ke x :
  Forall (fun f => f <> EmptyString) fs ->
  writePair ke (strings.Join fs "&") x
  = strings.Join (fs ++ [pairText (ke, QueryEscape x)]) "&".
Proof.
  intros Hfs. unfold writePair. destruct fs as [| f fs].
  - reflexivity.
  - pose proof (Join_first_nonempty (f :: fs) "&" ltac:(discriminate) Hfs)
      as Hne.
    destruct (Z.ltb_spec 0 (len (strings.Join (f :: fs) "&"))) as [_ | Hle].
    + rewrite Join_snoc by discriminate.
      rewrite pairText_eq. cbn [fst snd].
      rewrite !sapp_assoc. reflexivity.
    + apply len_pos in Hne. lia.
Qed.

Lemma encode_keys (v : Values) (ks : list string) fs :
  Forall (fun f => f <> EmptyString) fs ->
  Forall (fun k => exists x, v !! k = Some [x]) ks ->
  foldl (fun buf k =>
           foldl (writePair (QueryEscape k)) buf (default [] (v !! k)))
        (strings.Join fs "&") ks
  = strings.Join
      (fs ++ map (fun k => pairText (QueryEscape k,
                                     QueryEscape (hd EmptyString
                                                     (default [] (v !! k)))))
                 ks) "&".
Proof.
  revert fs. induction ks as [| k ks IH]; intros fs Hfs Hks.
  - cbn. now rewrite app_nil_r.
  - apply Forall_cons in Hks as [[x Hx] Hks].
    cbn [foldl map]. rewrite Hx. cbn [default from_option foldl hd id].
    rewrite writePair_Join by exact Hfs.
    rewrite IH.
    + now rewrite <- app_assoc.
    + apply Forall_app. split; [exact Hfs |].
      apply Forall_singleton, pairText_nonempty.
    + exact Hks.
Qed.

Lemma queryValues_lookup q k :
  queryValues q !! k = (fun v => [unescaped v]) <$> (q !! k).
Proof. unfold queryValues. apply lookup_fmap. Qed.

Lemma sorted_keys_perm q :
  merge_sort String.le (map fst (map_to_list (queryValues q)))
  ≡ₚ (map_to_list q).*1.
Proof.
  rewrite merge_sort_Permutation. unfold queryValues.
  rewrite map_to_list_fmap. rewrite <- list_fmap_compose.
  apply reflexive_eq. apply list_fmap_ext. now intros _ [k v'] _.
Qed.

(** [Values.Encode] visits every entry of the query once. *)
Lemma sortedQuery_perm q : sortedQuery q ≡ₚ map_to_list q.
Proof.
  unfold sortedQuery.
  change (map ?f ?l) with (f <$> l). rewrite sorted_keys_perm.
  rewrite <- list_fmap_compose.
  rewrite <- (list_fmap_id (map_to_list q)) at 2.
  apply reflexive_eq. apply list_fmap_ext. intros i [k v] Hi. cbn.
  apply list_elem_of_lookup_2, elem_of_map_to_list in Hi. now rewrite Hi.
Qed.

Lemma Values_Encode_queryValues q :
  Values_Encode (queryValues q)
  = strings.Join (map pairText (map encodedPair (sortedQuery q))) "&".
Proof.
  unfold Values_Encode, sortedQuery. cbv zeta.
  rewrite (encode_keys (queryValues q) _ []).
  - cbn [app]. rewrite !map_map. f_equal.
    apply map_ext. intros k. unfold encodedPair. cbn [fst snd].
    rewrite queryValues_lookup. destruct (q !! k); reflexivity.
  - constructor.
  - apply Forall_forall. intros k Hk.
    rewrite sorted_keys_perm in Hk.
    apply list_elem_of_fmap in Hk as [[k' v] [-> Hin]].
    apply elem_of_map_to_list in Hin. cbn.
    rewrite queryValues_lookup, Hin. eauto.
Qed.

Lemma encodedPair_safe kv :
  ContainsAny (encodedPair kv).1 "&;=" = false
  /\ ContainsAny (encodedPair kv).2 "&;" = false.
Proof.
  unfold encodedPair. cbn [fst snd].
  split; (eapply ContainsAny_sub;
          [| apply output_ContainsAny, QueryEscape_output]); reflexivity.
Qed.

(** The pairs of the encoded query: one per entry, name and unescaped
    value escaped anew. *)
Lemma rawPairs_Encode q :
  rawPairs (Values_Encode (queryValues q)) = map encodedPair (sortedQuery q).
Proof.
  rewrite Values_Encode_queryValues. apply rawPairs_Join.
  apply Forall_map, Forall_forall. intros kv _. apply encodedPair_safe.
Qed.

Lemma unescapeQuery_ok l (vals : Values) :
  Forall (fun kv => escaped kv.2 = true) l ->
  Conservative.unescapeQuery l vals
  = Ok (foldl (fun m kv => Values_Set m kv.1 (unescaped kv.2)) vals l).
Proof.
  revert vals. induction l as [| [k v] l IH]; intros vals Hl; [reflexivity |].
  apply Forall_cons in Hl as [Hv Hl]. cbn [fst snd] in Hv.
  cbn [Conservative.unescapeQuery foldl fst snd]. unfold unescaped at 2.
  destruct (escaped_unescapes v Hv) as [t ->]. cbn [bind].
  now apply IH.
Qed.

Lemma escaped_entries R q :
  validOrder R ->
  (forall k v, q !! k = Some v -> escaped v = true) ->
  Forall (fun kv => escaped kv.2 = true) (rangeQuery R q).
Proof.
  intros (Hperm & _) Hq. apply Forall_forall. intros [k v] Hin.
  rewrite Hperm in Hin. apply elem_of_map_to_list in Hin.
  now apply (Hq k v).
Qed.

(** With correctly escaped values [src/alb.go] builds a URL whose path is
    the event's and whose raw query encodes the unescaped values. *)
Lemma requestURL_ok R req :
  validOrder R ->
  (forall k v, request.Query req !! k = Some v -> escaped v = true) ->
  Conservative.requestURL R req
  = Ok (mkURL EmptyString EmptyString None EmptyString (request.Path req)
              EmptyString false
              (Values_Encode (queryValues (request.Query req)))
              EmptyString).
Proof.
  intros HR Hq. unfold Conservative.requestURL.
  destruct (Z.ltb_spec 0 (Z.of_nat (size (request.Query req)))) as [_ | Hs].
  - rewrite unescapeQuery_ok by now apply escaped_entries.
    cbn [bind]. do 3 f_equal.
    apply (foldl_step_map
             (fun m kv => Values_Set m kv.1 (unescaped kv.2))
             (fun v => [unescaped v])).
    + intros m k a k' Hne. cbn. now apply lookup_insert_ne.
    + intros m k a _. cbn. apply lookup_insert_eq.
    + apply HR.
  - assert (E : request.Query req = ∅) by (apply map_size_empty_iff; lia).
    rewrite E. reflexivity.
Qed.

End EncodeFacts.

(** ** Reading a query back *)

Section ParseQueryFacts.
Import url.
Implicit Types (s t f k : string) (fs : list string)
  (l : list (string * string)) (q : gmap string string) (m : Values).

Lemma unescaped_Ok s t : QueryUnescape s = Ok t -> unescaped s = t.
Proof. unfold unescaped. now intros ->. Qed.

Lemma unescaped_QueryEscape s : unescaped (QueryEscape s) = s.
Proof. apply unescaped_Ok, QueryUnescape_QueryEscape. Qed.

(** One turn of [parseQuery] on a written pair. *)
Lemma parseField_pair m err ek ev :
  strings.ContainsByte ek "=" = false ->
  isOk (QueryUnescape ek) = true -> isOk (QueryUnescape ev) = true ->
  parseField (m, err) (pairText (ek, ev))
  = (Values_Add m (unescaped ek) (unescaped ev), err).
Proof.
  intros Heq Hk Hv. unfold parseField.
  destruct (String.eqb_spec (pairText (ek, ev)) EmptyString) as [E | _].
  - now apply pairText_nonempty in E.
  - rewrite pairText_eq, Cut_app by exact Heq. unfold unescaped.
    destruct (QueryUnescape ek); [| discriminate].
    destruct (QueryUnescape ev); [| discriminate]. reflexivity.
Qed.

Lemma parseFields_pairs l m err :
  Forall readable l ->
  foldl parseField (m, err) (map pairText l)
  = (foldl (fun m kv => Values_Add m (unescaped kv.1) (unescaped kv.2)) m l,
     err).
Proof.
  revert m. induction l as [| [ek ev] l IH]; intros m Hl; [reflexivity |].
  apply Forall_cons in Hl as [(Hk & _ & Hok & Hov) Hl]. cbn [fst snd] in *.
  cbn [map foldl]. rewrite parseField_pair; try assumption.
  - now apply IH.
  - eapply ContainsAny_byte; [exact Hk | reflexivity].
Qed.

(** Written pairs joined by ['&'] are parsed pair by pair. *)
Lemma ParseQuery_Join l :
  Forall readable l ->
  ParseQuery (strings.Join (map pairText l) "&")
  = (foldl (fun m kv => Values_Add m (unescaped kv.1) (unescaped kv.2)) ∅ l,
     None).
Proof.
  intros Hl. unfold ParseQuery. destruct l as [| kv l]; [reflexivity |].
  rewrite fields_Join.
  - now apply parseFields_pairs.
  - discriminate.
  - apply Forall_map. eapply Forall_impl; [exact Hl |].
    intros [k v] (Hk & Hv & _). cbn [fst snd] in *.
    apply pairText_ContainsAny; [reflexivity | | exact Hv].
    revert Hk. now apply ContainsAny_sub.
Qed.

(** Appending the unescaped value of each entry of [q], in any order,
    gives the values of [q]. *)
Lemma addValues_queryValues q l :
  l ≡ₚ map_to_list q ->
  foldl (fun m kv => Values_Add m kv.1 (unescaped kv.2)) ∅ l = queryValues q.
Proof.
  apply (foldl_step_map (fun m kv => Values_Add m kv.1 (unescaped kv.2))
                        (fun v => [unescaped v])).
  - intros m k a k' Hne. cbn. unfold Values_Add. now apply lookup_insert_ne.
  - intros m k a Hk. cbn. unfold Values_Add.
    rewrite lookup_insert_eq, Hk. reflexivity.
Qed.

Lemma foldl_ext_Forall {A B} (f g : B -> A -> B) (P : A -> Prop)
    (l : list A) (b : B) :
  (forall b a, P a -> f b a = g b a) -> Forall P l ->
  foldl f b l = foldl g b l.
Proof.
  intros Hfg Hl. revert b.
  induction Hl as [| a l Ha _ IH]; intros b; [reflexivity |].
  cbn. now rewrite Hfg, IH.
Qed.

(** What the handler reads from the query [src/alb.go] encodes. *)
Lemma ParseQuery_Encode q :
  ParseQuery (Values_Encode (queryValues q)) = (queryValues q, None).
Proof.
  rewrite Values_Encode_queryValues, ParseQuery_Join.
  - f_equal. rewrite foldl_fmap.
    rewrite <- (addValues_queryValues q (sortedQuery q))
      by apply sortedQuery_perm.
    apply (foldl_ext_Forall _ _ (fun _ => True)).
    + intros m [k v] _. unfold encodedPair. cbn [fst snd].
      now rewrite !unescaped_QueryEscape.
    + apply Forall_forall. auto.
  - apply Forall_map, Forall_forall. intros kv _.
    destruct (encodedPair_safe kv) as [Hk Hv].
    repeat split; try assumption; unfold encodedPair; cbn [fst snd];
      now rewrite QueryUnescape_QueryEscape.
Qed.

Lemma plainName_unfold k :
  plainName k = true ->
  stringContainsCTLByte k = false /\ ContainsAny k "%+&;=#" = false
  /\ QueryUnescape k = Ok k.
Proof.
  unfold plainName. intros [H1%negb_true_iff H2%negb_true_iff]%andb_prop.
  repeat split; try assumption.
  apply unescape_plain; [reflexivity | | right];
    (eapply ContainsAny_byte; [exact H2 | reflexivity]).
Qed.

(** What the handler reads from the query [part_000] concatenates. *)
Lemma ParseQuery_written R q :
  validOrder R ->
  map_Forall (fun k v => plainName k = true /\ escaped v = true) q ->
  ParseQuery (strings.Join (map pairText (rangeQuery R q)) "&")
  = (queryValues q, None).
Proof.
  intros HR Hq.
  assert (Hl : Forall (fun kv => plainName kv.1 = true /\ escaped kv.2 = true)
                      (rangeQuery R q)).
  { apply Forall_forall. intros [k v] Hin.
    destruct HR as (Hperm & _). rewrite Hperm in Hin.
    apply elem_of_map_to_list in Hin. exact (Hq k v Hin). }
  rewrite ParseQuery_Join.
  - f_equal. rewrite <- (addValues_queryValues q (rangeQuery R q))
               by apply HR.
    eapply foldl_ext_Forall; [| exact Hl].
    intros m kv [(_ & _ & Huk)%plainName_unfold _]. cbn beta.
    now rewrite (unescaped_Ok _ _ Huk).
  - eapply Forall_impl; [exact Hl |].
    intros [k v] [(_ & Hk & Huk)%plainName_unfold Hv]. cbn [fst snd] in *.
    pose proof (output_ContainsAny _ (escaped_output _ Hv)) as Hv'.
    destruct (escaped_unescapes v Hv) as [t Ht].
    unfold readable. cbn [fst snd]. repeat split.
    + revert Hk. now apply ContainsAny_sub.
    + revert Hv'. now apply ContainsAny_sub.
    + now rewrite Huk.
    + now rewrite Ht.
Qed.

Lemma CTL_Join fs :
  Forall (fun f => stringContainsCTLByte f = false) fs ->
  stringContainsCTLByte (strings.Join fs "&") = false.
Proof.
  induction fs as [| f fs IH]; [reflexivity |].
  intros [Hf Hfs]%Forall_cons.
  destruct fs as [| g fs]; [exact Hf |].
  rewrite Join_cons by discriminate.
  rewrite !CTL_app, Hf, IH by exact Hfs. reflexivity.
Qed.

(** With a plain path, plain names and escaped values [buildURL]
    succeeds, keeps the path and carries the written pairs. *)
Lemma buildURL_plain R path q :
  validOrder R -> plainPath path = true ->
  map_Forall (fun k v => plainName k = true /\ escaped v = true) q ->
  exists u,
    FastPath.buildURL R path q = Ok u
    /\ Path u = path
    /\ ParseQuery (RawQuery u) = (queryValues q, None).
Proof.
  intros HR Hpath Hq.
  destruct (decide (q = ∅)) as [-> | Hne].
  - rewrite buildURL_empty, Parse_plain by exact Hpath.
    eexists. repeat split.
  - assert (Hl : Forall (fun kv => plainName kv.1 = true
                                   /\ escaped kv.2 = true) (rangeQuery R q)).
    { apply Forall_forall. intros [k v] Hin.
      destruct HR as (Hperm & _). rewrite Hperm in Hin.
      apply elem_of_map_to_list in Hin. exact (Hq k v Hin). }
    rewrite buildURL_nonempty by assumption.
    rewrite Parse_plain_query; try assumption.
    + eexists. split; [reflexivity |]. split; [reflexivity |].
      cbn [RawQuery]. now apply ParseQuery_written.
    + apply Join_first_nonempty.
      * intros E%map_eq_nil. now apply (range_nonempty R _ HR Hne).
      * apply Forall_map, Forall_forall. intros kv _.
        apply pairText_nonempty.
    + apply CTL_Join, Forall_map. eapply Forall_impl; [exact Hl |].
      intros [k v] [(Hk & _)%plainName_unfold Hv]. cbn [fst snd] in *.
      rewrite pairText_eq, CTL_app, Hk. cbn [stringContainsCTLByte].
      now rewrite (output_no_CTL _ (escaped_output _ Hv)).
    + apply (ContainsAny_byte _ "#"); [| reflexivity].
      apply (ContainsAny_Join _ "&" "#"); [reflexivity |].
      apply Forall_map. eapply Forall_impl; [exact Hl |].
      intros [k v] [(_ & Hk & _)%plainName_unfold Hv]. cbn [fst snd] in *.
      pose proof (output_ContainsAny _ (escaped_output _ Hv)) as Hv'.
      apply pairText_ContainsAny; [reflexivity | |];
        (eapply ContainsAny_sub; [| eassumption]); reflexivity.
Qed.

End ParseQueryFacts.

(** ** Parsing what [buildURL] assembles *)

Section UrlOfPart000.
Import url.
Implicit Types (R : mapOrder) (p path s : string) (q : gmap string string).

Lemma rootedPath_unfold p :
  rootedPath p = true ->
  (exists p', p = String "/" p')
  /\ strings.HasPrefix p "//" = false
  /\ stringContainsCTLByte p = false
  /\ strings.ContainsByte p "?" = false
  /\ strings.ContainsByte p "#" = false.
Proof.
  unfold rootedPath.
  intros [[[H1 H2%negb_true_iff]%andb_prop H3%negb_true_iff]%andb_prop
            H4%negb_true_iff]%andb_prop.
  repeat split; try assumption;
    try (eapply ContainsAny_byte; [exact H4 | reflexivity]).
  destruct p as [| c p']; [discriminate |].
  cbn [strings.HasPrefix] in H1. rewrite andb_true_r in H1.
  apply Ascii.eqb_eq in H1 as ->. eauto.
Qed.

Lemma Parse_rooted_query p s :
  rootedPath p = true -> s <> EmptyString ->
  stringContainsCTLByte s = false -> strings.ContainsByte s "#" = false ->
  Parse (p +:+ String "?" s) = parsedPath p s (p +:+ String "?" s).
Proof.
  intros Hroot Hs Hctl Hhash.
  pose proof Hroot as ([p' ->] & H2 & H3 & Hqm & Hh)%rootedPath_unfold.
  unfold Parse, parsedPath.
  rewrite Cut_none
    by (rewrite ContainsByte_app, Hh; cbn [strings.ContainsByte];
        rewrite Hhash; reflexivity).
  unfold parse.
  rewrite CTL_app, H3. cbn [stringContainsCTLByte].
  rewrite Hctl. change (_ || false) with false at 1. cbn match.
  rewrite andb_false_r.
  rewrite contains_not_star
    by (rewrite ContainsByte_app; cbn; apply orb_true_r).
  unfold getscheme. rewrite scanScheme_app by exact Hqm.
  change (scanScheme (String "/" p') true) with noScheme.
  cbn [bind ToLower].
  destruct (query_split (String "/" p') s Hqm Hs) as [-> ->].
  change (strings.HasPrefix (String "/" p') "/") with true.
  cbn [negb]. cbv iota zeta.
  rewrite H2, andb_false_r. unfold setPath.
  destruct (unescape (String "/" p') encodePath); reflexivity.
Qed.

Lemma Parse_rooted p :
  rootedPath p = true -> Parse p = parsedPath p EmptyString p.
Proof.
  intros Hroot.
  pose proof Hroot as ([p' ->] & H2 & H3 & Hqm & Hh)%rootedPath_unfold.
  unfold Parse, parsedPath. rewrite Cut_none by exact Hh.
  unfold parse. rewrite H3. rewrite andb_false_r.
  change (String.eqb (String "/" p') "*") with false.
  unfold getscheme.
  change (scanScheme (String "/" p') true) with noScheme.
  cbn [bind ToLower].
  rewrite (HasSuffixByte_none _ _ Hqm), (Cut_none _ _ Hqm).
  change (strings.HasPrefix (String "/" p') "/") with true.
  cbn [negb andb]. cbv iota zeta.
  rewrite H2, andb_false_r. unfold setPath.
  destruct (unescape (String "/" p') encodePath); reflexivity.
Qed.

(** The text written for a query map of names and values without ['#']
    and control bytes. *)
Lemma cleanQuery_text R q :
  validOrder R -> q <> ∅ ->
  map_Forall (fun k v => cleanText k = true /\ cleanText v = true) q ->
  strings.Join (map pairText (rangeQuery R q)) "&" <> EmptyString
  /\ stringContainsCTLByte
       (strings.Join (map pairText (rangeQuery R q)) "&") = false
  /\ strings.ContainsByte
       (strings.Join (map pairText (rangeQuery R q)) "&") "#" = false.
Proof.
  intros HR Hne Hq.
  assert (Hl : Forall (fun kv => cleanText kv.1 = true
                                 /\ cleanText kv.2 = true)
                      (rangeQuery R q)).
  { apply Forall_forall. intros [k v] Hin.
    destruct HR as (Hperm & _). rewrite Hperm in Hin.
    apply elem_of_map_to_list in Hin. exact (Hq k v Hin). }
  split; [| split].
  - apply Join_first_nonempty.
    + intros E%map_eq_nil. now apply (range_nonempty R _ HR Hne).
    + apply Forall_map, Forall_forall. intros kv _.
      apply pairText_nonempty.
  - apply CTL_Join, Forall_map. eapply Forall_impl; [exact Hl |].
    intros [k v] [[Hk%negb_true_iff _]%andb_prop
                    [Hv%negb_true_iff _]%andb_prop].
    cbn [fst snd] in *.
    rewrite pairText_eq, CTL_app, Hk. cbn [stringContainsCTLByte].
    now rewrite Hv.
  - apply (ContainsAny_byte _ "#"); [| reflexivity].
    apply (ContainsAny_Join _ "&" "#"); [reflexivity |].
    apply Forall_map. eapply Forall_impl; [exact Hl |].
    intros [k v] [[_ Hk%negb_true_iff]%andb_prop
                    [_ Hv%negb_true_iff]%andb_prop].
    cbn [fst snd] in *.
    apply pairText_ContainsAny; [reflexivity | assumption | assumption].
Qed.

(** What [url.Parse] makes of the text [buildURL] assembles for such a
    path and query map. *)
Lemma Parse_assembled R path q :
  validOrder R -> rootedPath path = true -> q <> ∅ ->
  map_Forall (fun k v => cleanText k = true /\ cleanText v = true) q ->
  Parse (assembled R path q)
  = parsedPath path (strings.Join (map pairText (rangeQuery R q)) "&")
               (assembled R path q).
Proof.
  intros HR Hpath Hne Hq.
  destruct (cleanQuery_text R q HR Hne Hq) as (H1 & H2 & H3).
  unfold assembled. now apply Parse_rooted_query.
Qed.

End UrlOfPart000.

(** * The scenarios of the specification *)

Example Join_content_type :
  strings.Join ["text/html"; "charset=utf-8"] "," = "text/html,charset=utf-8".
Proof. reflexivity. Qed.

Example binary_body_not_utf8 :
  utf8.Valid [xff; xfe; x00; x01] = false
  /\ base64.EncodeToString [xff; xfe; x00; x01] = "//4AAQ=="
  /\ base64.DecodeString "//4AAQ==" = Ok [xff; xfe; x00; x01].
Proof. repeat split; vm_compute; reflexivity. Qed.

Example foo_bar_no_query :
  FastPath.buildURL listOrder "/foo/bar" ∅
  = Ok (url.mkURL EmptyString EmptyString None EmptyString "/foo/bar"
                  EmptyString false EmptyString EmptyString).
Proof. vm_compute. reflexivity. Qed.

(** GET /hello through a handler that writes 200 and [Hello]. *)
Example hello_end_to_end (v : revision) :
  exists r out,
    Run v listOrder helloHandler tt (event "/hello" ∅ EmptyString false)
    = mkOutcome [r] (Ok out)
    /\ response.StatusCode out = 200
    /\ response.Body out = "Hello"
    /\ response.BodyEncoded out = false.
Proof.
  destruct v; eexists _, _; (split; [vm_compute; reflexivity |]);
    repeat split.
Qed.

(** * The properties of the specification *)

(** C1. Whenever [Run] returns an envelope, the handler was called once,
    and with [b] the body bytes it recorded: if [b] is valid UTF-8 the
    body field is the text of [b] and [isBase64Encoded] is false; if not,
    the body field is the standard base64 encoding of [b] and
    [isBase64Encoded] is true. So the flag is true exactly when [b] is
    not valid UTF-8. *)
Theorem C1_body_text_or_base64 {context : Type} (v : revision) (R : mapOrder)
    (h : handler context) (ctx : context) (req : request) (out : response) :
  returned (Run v R h ctx req) = Ok out ->
  exists r, calls (Run v R h ctx req) = [r] /\
    let b := httptest.Body (h r) in
    (utf8.Valid b = true ->
       response.Body out = stringOf b /\ response.BodyEncoded out = false)
    /\ (utf8.Valid b = false ->
         response.Body out = base64.EncodeToString b
         /\ response.BodyEncoded out = true)
    /\ (response.BodyEncoded out = true <-> utf8.Valid b = false).
Proof.
  intros Hret. destruct (Run_returns _ _ _ _ _ _ Hret) as (r & Hcalls & ->).
  exists r. split; [exact Hcalls |].
  unfold lambdaHandler.envelope. cbn zeta.
  destruct (utf8.Valid (httptest.Body (h r))); cbn;
    repeat split; try discriminate; auto.
Qed.

Lemma C1_witness :
  exists out,
    returned (Run part_000 listOrder binaryHandler tt
                  (event "/hello" ∅ EmptyString false)) = Ok out
    /\ response.Body out = "//4AAQ=="
    /\ response.BodyEncoded out = true.
Proof.
  assert (H : exists out,
             returned (Run part_000 listOrder binaryHandler tt
                           (event "/hello" ∅ EmptyString false)) = Ok out)
    by (eexists; vm_compute; reflexivity).
  destruct H as [out H]. exists out. split; [exact H |].
  destruct (C1_body_text_or_base64 part_000 listOrder binaryHandler tt
              (event "/hello" ∅ EmptyString false) out H)
    as (r & _ & _ & Hbin & _).
  apply Hbin. reflexivity.
Defined.

(** C2. Decoding the body field of a returned envelope (base64 when the
    flag is set, its bytes otherwise) gives back the bytes the handler
    recorded: a valid UTF-8 body travels as the same text with the flag
    false, any other body travels as base64 with the flag true. *)
Theorem C2_envelope_round_trip {context : Type} (v : revision) (R : mapOrder)
    (h : handler context) (ctx : context) (req : request) (out : response) :
  returned (Run v R h ctx req) = Ok out ->
  exists r, calls (Run v R h ctx req) = [r] /\
    let b := httptest.Body (h r) in
    envelopeBytes out = Ok b
    /\ (utf8.Valid b = true ->
          response.BodyEncoded out = false /\ response.Body out = stringOf b)
    /\ (utf8.Valid b = false ->
          response.BodyEncoded out = true
          /\ response.Body out = base64.EncodeToString b
          /\ base64.DecodeString (response.Body out) = Ok b).
Proof.
  intros Hret. destruct (Run_returns _ _ _ _ _ _ Hret) as (r & Hcalls & ->).
  exists r. split; [exact Hcalls |].
  unfold lambdaHandler.envelope, envelopeBytes. cbn zeta.
  destruct (utf8.Valid (httptest.Body (h r)));
    cbn [response.BodyEncoded response.Body];
    repeat split; try discriminate; intros;
    rewrite ?bytesOf_stringOf, ?DecodeString_EncodeToString; reflexivity.
Qed.

Lemma C2_witness :
  exists out,
    returned (Run part_000 listOrder binaryHandler tt
                  (event "/hello" ∅ EmptyString false)) = Ok out
    /\ envelopeBytes out = Ok [xff; xfe; x00; x01].
Proof.
  assert (H : exists out,
             returned (Run part_000 listOrder binaryHandler tt
                           (event "/hello" ∅ EmptyString false)) = Ok out)
    by (eexists; vm_compute; reflexivity).
  destruct H as [out H]. exists out. split; [exact H |].
  destruct (C2_envelope_round_trip part_000 listOrder binaryHandler tt
              (event "/hello" ∅ EmptyString false) out H)
    as (r & _ & Hbytes & _).
  exact Hbytes.
Defined.

(** C3. For an event whose [isBase64Encoded] is false, the request handed
    to the handler has as body the bytes of the event's body string and as
    content length their number. The handler gets exactly one such request
    when the URL is built, and none when it is not. *)
Theorem C3_text_body_verbatim {context : Type} (v : revision) (R : mapOrder)
    (h : handler context) (ctx : context) (req : request) :
  request.BodyEncoded req = false ->
  (forall r, r ∈ calls (Run v R h ctx req) ->
     http.Request.Body r = bytesOf (request.Body req)
     /\ http.Request.ContentLength r
        = Z.of_nat (length (bytesOf (request.Body req))))
  /\ match requestURL v R req with
     | Ok u => exists r, calls (Run v R h ctx req) = [r]
                         /\ http.Request.URL r = u
     | Err err => Run v R h ctx req = mkOutcome [] (Err err)
     end.
Proof.
  intros Henc. rewrite Run_unfold.
  destruct (requestURL v R req) as [u | err].
  - rewrite serve_unfold. unfold lambdaHandler.requestBody. rewrite Henc.
    cbn. split.
    + intros r Hr. apply list_elem_of_singleton in Hr as ->. cbn.
      split; [reflexivity |]. unfold len. now rewrite length_bytesOf.
    + eexists. split; reflexivity.
  - split; [| reflexivity]. cbn. intros r Hr.
    now apply not_elem_of_nil in Hr.
Qed.

Lemma C3_witness :
  exists r,
    calls (Run part_000 listOrder helloHandler tt
               (event "/hello" ∅ "Hi" false)) = [r]
    /\ http.Request.Body r = bytesOf "Hi"
    /\ http.Request.ContentLength r = 2.
Proof.
  assert (Hc : exists r,
             calls (Run part_000 listOrder helloHandler tt
                        (event "/hello" ∅ "Hi" false)) = [r])
    by (eexists; vm_compute; reflexivity).
  destruct Hc as [r Hc]. exists r. split; [exact Hc |].
  apply (proj1 (C3_text_body_verbatim part_000 listOrder helloHandler tt
                  (event "/hello" ∅ "Hi" false) eq_refl)).
  rewrite Hc. now apply list_elem_of_singleton.
Defined.

(** C4, as amended. [Run] builds the URL first; when that fails its error
    is returned and the handler is not called. Otherwise, for an event
    whose [isBase64Encoded] is true: if the body is valid base64 the
    handler gets one request whose body is the decoded bytes and whose
    content length is their number; if it is not, [Run] returns the
    decoder's error, no envelope, and the handler is not called. *)
Theorem C4_base64_body {context : Type} (v : revision) (R : mapOrder)
    (h : handler context) (ctx : context) (req : request) :
  request.BodyEncoded req = true ->
  match requestURL v R req, base64.DecodeString (request.Body req) with
  | Err err, _ => Run v R h ctx req = mkOutcome [] (Err err)
  | Ok _, Err err => Run v R h ctx req = mkOutcome [] (Err err)
  | Ok u, Ok b =>
      exists r, calls (Run v R h ctx req) = [r]
        /\ http.Request.URL r = u
        /\ http.Request.Body r = b
        /\ http.Request.ContentLength r = Z.of_nat (length b)
        /\ returned (Run v R h ctx req) = Ok (lambdaHandler.envelope R (h r))
  end.
Proof.
  intros Henc. rewrite Run_unfold.
  destruct (requestURL v R req) as [u | err]; [| reflexivity].
  rewrite serve_unfold. unfold lambdaHandler.requestBody. rewrite Henc.
  destruct (base64.DecodeString (request.Body req)) as [b | err]; cbn.
  - eexists. repeat split; reflexivity.
  - reflexivity.
Qed.

(** C4 as stated fails: with a path that does not parse and a body that
    is not base64, [Run] returns the parser's error, not the decoder's. *)
Lemma C4_counterexample :
  request.BodyEncoded (event "%zz" ∅ "!" true) = true
  /\ base64.DecodeString "!" = Err (CorruptInputError 0)
  /\ FastPath.Run listOrder helloHandler tt (event "%zz" ∅ "!" true)
     = mkOutcome [] (Err (urlError "parse" "%zz" (EscapeError "%zz"))).
Proof. repeat split; vm_compute; reflexivity. Qed.

Lemma C4_witness :
  Run part_000 listOrder helloHandler tt (event "/hello" ∅ "!" true)
  = mkOutcome [] (Err (CorruptInputError 0)).
Proof.
  exact (C4_base64_body part_000 listOrder helloHandler tt
           (event "/hello" ∅ "!" true) eq_refl).
Defined.

(** C5, as amended. Let the values of the query map be correctly
    escaped. In [part_000], when the path has no ['?'] and no ['#'] and no
    parameter name has one of ['&'], [';'], ['='], ['#'], the raw query of
    a URL that [buildURL] returns contains exactly the map's entries as
    its name=value pairs, one pair per entry and no others, in some
    order. In [src/alb.go] the URL is always built, and its raw query
    contains one pair per entry and no others: the escaped name and the
    escaped unescaped value. *)
Theorem C5_query_pairs (R : mapOrder) (req : request) :
  validOrder R ->
  map_Forall (fun _ v => escaped v = true) (request.Query req) ->
  (ContainsAny (request.Path req) "?#" = false ->
   map_Forall (fun k _ => ContainsAny k "&;=#" = false) (request.Query req) ->
   forall u,
     FastPath.buildURL R (request.Path req) (request.Query req) = Ok u ->
     url.rawPairs (url.RawQuery u) ≡ₚ map_to_list (request.Query req))
  /\ (exists u,
        Conservative.requestURL R req = Ok u
        /\ url.rawPairs (url.RawQuery u)
           ≡ₚ encodedPair <$> map_to_list (request.Query req)).
Proof.
  intros HR Hvals. split.
  - intros Hpath Hnames u.
    destruct (decide (request.Query req = ∅)) as [E | Hne].
    + rewrite E, buildURL_empty. intros Hu.
      rewrite (Parse_no_query _ _ Hpath Hu), map_to_list_empty. reflexivity.
    + rewrite buildURL_nonempty by assumption.
      set (l := rangeQuery R (request.Query req)).
      assert (Hl : Forall (fun kv => ContainsAny kv.1 "&;=#" = false
                                     /\ ContainsAny kv.2 "&;=#?" = false) l).
      { apply Forall_forall. intros [k v] Hin. unfold l in Hin.
        destruct HR as (Hperm & _). rewrite Hperm in Hin.
        apply elem_of_map_to_list in Hin. split.
        - exact (Hnames k v Hin).
        - apply output_ContainsAny, escaped_output. exact (Hvals k v Hin). }
      intros Hu. apply Parse_RawQuery in Hu; [| exact Hpath | |].
      * rewrite Hu, rawPairs_Join; [apply HR |].
        eapply Forall_impl; [exact Hl |]. intros [k v] [Hk Hv].
        split; (eapply ContainsAny_sub; [| eassumption]); reflexivity.
      * apply (ContainsAny_byte _ "#"); [| reflexivity].
        apply (ContainsAny_Join _ "&" "#"); [reflexivity |].
        apply Forall_map. eapply Forall_impl; [exact Hl |].
        intros [k v] [Hk Hv]. apply pairText_ContainsAny; [reflexivity | |];
          (eapply ContainsAny_sub; [| eassumption]); reflexivity.
      * apply Join_first_nonempty.
        -- intros E%map_eq_nil. now apply (range_nonempty R _ HR Hne).
        -- apply Forall_map, Forall_forall. intros kv _.
           apply pairText_nonempty.
  - eexists. split; [now apply requestURL_ok |].
    cbn [url.RawQuery]. rewrite rawPairs_Encode.
    change (map ?f ?l) with (f <$> l). now rewrite sortedQuery_perm.
Qed.

(** C5 as stated fails in [part_000]: a name with an ['&'] is read back
    as two pairs. *)
Lemma C5_counterexample :
  escaped "1" = true
  /\ map_to_list ({["a&b" := "1"]} : gmap string string) = [("a&b", "1")]
  /\ exists u,
       FastPath.buildURL listOrder "/foo/bar" {["a&b" := "1"]} = Ok u
       /\ url.rawPairs (url.RawQuery u) = [("a", EmptyString); ("b", "1")].
Proof.
  split; [reflexivity |]. split; [vm_compute; reflexivity |].
  eexists. split; vm_compute; reflexivity.
Qed.

Lemma C5_witness :
  exists u,
    FastPath.buildURL listOrder "/foo/bar" (<["a" := "1"]> {["b" := "2"]})
    = Ok u
    /\ url.rawPairs (url.RawQuery u)
       ≡ₚ map_to_list (<["a" := "1"]> {["b" := "2"]} : gmap string string).
Proof.
  assert (H : exists u,
             FastPath.buildURL listOrder "/foo/bar"
               (<["a" := "1"]> {["b" := "2"]}) = Ok u)
    by (eexists; vm_compute; reflexivity).
  destruct H as [u H]. exists u. split; [exact H |].
  refine (proj1 (C5_query_pairs listOrder
                   (event "/foo/bar" (<["a" := "1"]> {["b" := "2"]})
                          EmptyString false)
                   listOrder_valid _) eq_refl _ u H);
    apply (bool_decide_unpack _); vm_compute; exact I.
Defined.

(** C6, as amended. For an event whose query map is empty, [buildURL]
    parses the path string alone, with no ['?'] appended, and [src/alb.go]
    takes the path as it is. In both revisions, when the path starts with
    one ['/'] and has no ['%'], ['?'], ['#'] or control byte, the URL has
    that path unchanged and an empty raw query. *)
Theorem C6_empty_query (R : mapOrder) (req : request) :
  request.Query req = ∅ ->
  FastPath.buildURL R (request.Path req) (request.Query req)
    = url.Parse (request.Path req)
  /\ Conservative.requestURL R req
     = Ok (url.mkURL EmptyString EmptyString None EmptyString
                     (request.Path req) EmptyString false EmptyString
                     EmptyString)
  /\ (plainPath (request.Path req) = true ->
      forall v, exists u,
        requestURL v R req = Ok u
        /\ url.Path u = request.Path req
        /\ url.RawQuery u = EmptyString
        /\ url.ForceQuery u = false).
Proof.
  intros E. split; [now rewrite E |].
  split; [now apply requestURL_empty |].
  intros Hplain [|]; cbn [requestURL].
  - rewrite requestURL_empty by exact E. eexists. repeat split.
  - rewrite E, buildURL_empty, Parse_plain by exact Hplain.
    eexists. repeat split.
Qed.

(** C6 as stated fails in [part_000]: an escaped path is decoded, and a
    ['?'] in the path starts a query. *)
Lemma C6_counterexample :
  request.Query (event "/a%20b" ∅ EmptyString false) = ∅
  /\ (exists u, FastPath.buildURL listOrder "/a%20b" ∅ = Ok u
                /\ url.Path u = "/a b" /\ url.Path u <> "/a%20b")
  /\ (exists u, FastPath.buildURL listOrder "/a?b=c" ∅ = Ok u
                /\ url.Path u = "/a" /\ url.RawQuery u = "b=c").
Proof.
  split; [reflexivity |].
  split; eexists; (split; [vm_compute; reflexivity |]); cbn;
    repeat split; discriminate.
Qed.

Lemma C6_witness :
  exists u,
    requestURL part_000 listOrder (event "/foo/bar" ∅ EmptyString false) = Ok u
    /\ url.Path u = "/foo/bar"
    /\ url.RawQuery u = EmptyString
    /\ url.ForceQuery u = false.
Proof.
  exact (proj2 (proj2 (C6_empty_query listOrder
                         (event "/foo/bar" ∅ EmptyString false) eq_refl))
           eq_refl part_000).
Defined.

(** C7. In a returned envelope every header name of the captured response
    carries one string: its captured values, in their captured order,
    joined with a comma; the envelope has no other header name. *)
Theorem C7_headers_comma_joined {context : Type} (v : revision) (R : mapOrder)
    (h : handler context) (ctx : context) (req : request) (out : response) :
  validOrder R ->
  returned (Run v R h ctx req) = Ok out ->
  exists r, calls (Run v R h ctx req) = [r] /\
    (forall k vv, httptest.Header (h r) !! k = Some vv ->
       response.Headers out !! k = Some (strings.Join vv ","))
    /\ dom (response.Headers out) = dom (httptest.Header (h r)).
Proof.
  intros HR Hret. destruct (Run_returns _ _ _ _ _ _ Hret) as (r & Hcalls & ->).
  exists r. split; [exact Hcalls |].
  assert (E : response.Headers (lambdaHandler.envelope R (h r))
              = (fun vv => strings.Join vv ",") <$> httptest.Header (h r)).
  { unfold lambdaHandler.envelope. cbn zeta.
    destruct (utf8.Valid _); cbn [response.Headers];
      now apply joinHeaders_map. }
  rewrite E. split.
  - intros k vv Hk. now rewrite lookup_fmap, Hk.
  - apply dom_fmap_L.
Qed.

Lemma C7_witness :
  exists out,
    returned (Run part_000 listOrder helloHandler tt
                  (event "/hello" ∅ EmptyString false)) = Ok out
    /\ response.Headers out !! "Content-Type"
       = Some "text/html,charset=utf-8".
Proof.
  assert (H : exists out,
             returned (Run part_000 listOrder helloHandler tt
                           (event "/hello" ∅ EmptyString false)) = Ok out)
    by (eexists; vm_compute; reflexivity).
  destruct H as [out H]. exists out. split; [exact H |].
  destruct (C7_headers_comma_joined part_000 listOrder helloHandler tt
              (event "/hello" ∅ EmptyString false) out listOrder_valid H)
    as (r & _ & Hjoin & _).
  apply (Hjoin "Content-Type" ["text/html"; "charset=utf-8"]).
  reflexivity.
Defined.

(** C8, as amended. In [src/alb.go] a query value whose percent-escaping
    is malformed makes [Run] return the unescape error, without an
    envelope and without a handler call; no URL parser is involved. In
    [part_000] the assembled text always goes through [url.Parse], and
    [Run] returns the parser's error without a handler call when the
    parser rejects the text. The parser does not check the escaping of
    the query: when the path starts with one ['/'], has no ['?'], ['#']
    or control byte and unescapes, and no name or value has a ['#'] or a
    control byte, the text parses although the value is malformed, the
    raw query is the written pairs, the malformed one among them, and
    the handler is called with that URL whenever the body decodes. *)
Theorem C8_malformed_query_value {context : Type} (R : mapOrder)
    (h : handler context) (ctx : context) (req : request)
    (k val : string) (e : error) :
  validOrder R ->
  request.Query req !! k = Some val ->
  url.QueryUnescape val = Err e ->
  let pairs := rangeQuery R (request.Query req) in
  let query := strings.Join (map pairText pairs) "&" in
  let rawurl := request.Path req +:+ String "?" query in
  (exists t, Conservative.Run R h ctx req = mkOutcome [] (Err (EscapeError t)))
  /\ FastPath.Run R h ctx req =
       match url.Parse rawurl with
       | Err err => mkOutcome [] (Err err)
       | Ok u => lambdaHandler.serve R h ctx req u
       end
  /\ (rootedPath (request.Path req) = true ->
      isOk (url.unescape (request.Path req) url.encodePath) = true ->
      map_Forall (fun k v => cleanText k = true /\ cleanText v = true)
                 (request.Query req) ->
      (k, val) ∈ pairs
      /\ exists u,
           url.Parse rawurl = Ok u
           /\ url.RawQuery u = query
           /\ FastPath.Run R h ctx req = lambdaHandler.serve R h ctx req u
           /\ (isOk (lambdaHandler.requestBody req) = true ->
               exists r,
                 FastPath.Run R h ctx req
                 = mkOutcome [r] (Ok (lambdaHandler.envelope R (h r)))
                 /\ http.Request.URL r = u)).
Proof.
  intros HR Hk Hval.
  assert (Hne : request.Query req <> ∅).
  { intros E. rewrite E, lookup_empty in Hk. discriminate. }
  assert (Hrun : FastPath.Run R h ctx req =
                 match url.Parse (assembled R (request.Path req)
                                            (request.Query req)) with
                 | Err err => mkOutcome [] (Err err)
                 | Ok u => lambdaHandler.serve R h ctx req u
                 end).
  { unfold FastPath.Run.
    rewrite buildURL_nonempty by assumption. reflexivity. }
  cbn zeta. split; [| split].
  - unfold Conservative.Run, Conservative.requestURL.
    destruct (Z.ltb_spec 0 (Z.of_nat (size (request.Query req)))) as [_ | Hs].
    + destruct (unescapeQuery_fails (rangeQuery R (request.Query req))
                  k val e) with (vals := (∅ : url.Values)) as [t ->].
      * destruct HR as (Hperm & _). rewrite Hperm.
        now apply elem_of_map_to_list.
      * exact Hval.
      * eauto.
    + exfalso. apply Hne. apply map_size_empty_iff. lia.
  - exact Hrun.
  - intros Hpath Hunesc Hclean. split.
    + destruct HR as (Hperm & _). rewrite Hperm.
      now apply elem_of_map_to_list.
    + fold (assembled R (request.Path req) (request.Query req)).
      rewrite Hrun.
      rewrite (Parse_assembled R _ _ HR Hpath Hne Hclean).
      unfold parsedPath.
      destruct (url.unescape (request.Path req) url.encodePath) as [p | ?];
        [| discriminate Hunesc].
      eexists. split; [reflexivity |]. split; [reflexivity |].
      split; [reflexivity |].
      intros Hbody. unfold lambdaHandler.serve.
      destruct (lambdaHandler.requestBody req) as [[body n] | ?];
        [| discriminate Hbody].
      eexists. split; reflexivity.
Qed.

(** C8 as stated fails in [part_000]: the malformed value reaches the
    handler inside the raw query. *)
Lemma C8_counterexample :
  url.QueryUnescape "%zz" = Err (EscapeError "%zz")
  /\ exists r out,
       FastPath.Run listOrder helloHandler tt
         (event "/p" {["a" := "%zz"]} EmptyString false)
       = mkOutcome [r] (Ok out)
       /\ url.RawQuery (http.Request.URL r) = "a=%zz".
Proof.
  split; [reflexivity |].
  eexists _, _. split; [vm_compute; reflexivity | reflexivity].
Qed.

Lemma C8_witness :
  (exists t,
     Conservative.Run listOrder helloHandler tt
       (event "/p" {["a" := "%zz"]} EmptyString false)
     = mkOutcome [] (Err (EscapeError t)))
  /\ (exists r,
        FastPath.Run listOrder helloHandler tt
          (event "/p" {["a" := "%zz"]} EmptyString false)
        = mkOutcome [r] (Ok (lambdaHandler.envelope listOrder
                                                    (helloHandler r)))
        /\ url.RawQuery (http.Request.URL r) = "a=%zz").
Proof.
  assert (Hclean : map_Forall (fun k v => cleanText k = true
                                          /\ cleanText v = true)
                     ({["a" := "%zz"]} : gmap string string))
    by (apply (bool_decide_unpack _); vm_compute; exact I).
  assert (Hk : request.Query (event "/p" {["a" := "%zz"]} EmptyString false)
               !! "a" = Some "%zz") by reflexivity.
  assert (Hval : url.QueryUnescape "%zz" = Err (EscapeError "%zz"))
    by reflexivity.
  destruct (C8_malformed_query_value listOrder helloHandler tt
              (event "/p" {["a" := "%zz"]} EmptyString false)
              "a" "%zz" (EscapeError "%zz")
              listOrder_valid Hk Hval) as (Halb & _ & Hfast).
  split; [exact Halb |].
  destruct (Hfast eq_refl eq_refl Hclean) as (_ & u & _ & Hq & _ & Hcall).
  destruct (Hcall eq_refl) as (r & Hrun & Hu).
  exists r. split; [exact Hrun |]. rewrite Hu, Hq. reflexivity.
Defined.

(** C9, as amended. For a path that starts with one ['/'] and has no
    ['%'], ['?'], ['#'] or control byte, and a query map whose names have
    no control byte and none of ['%'], ['+'], ['&'], [';'], ['='], ['#']
    and whose values are correctly escaped, both strategies succeed,
    whatever order each ranges over the map in; both URLs have the event's
    path, and [url.ParseQuery] reads the same values from both raw
    queries, without error: one unescaped value per name. *)
Theorem C9_strategies_agree (R1 R2 : mapOrder) (req : request) :
  validOrder R1 -> validOrder R2 ->
  plainPath (request.Path req) = true ->
  map_Forall (fun k v => plainName k = true /\ escaped v = true)
             (request.Query req) ->
  exists u1 u2,
    Conservative.requestURL R1 req = Ok u1
    /\ FastPath.buildURL R2 (request.Path req) (request.Query req) = Ok u2
    /\ url.Path u1 = request.Path req
    /\ url.Path u2 = request.Path req
    /\ url.ParseQuery (url.RawQuery u1)
       = (queryValues (request.Query req), None)
    /\ url.ParseQuery (url.RawQuery u2)
       = (queryValues (request.Query req), None).
Proof.
  intros HR1 HR2 Hpath Hq.
  destruct (buildURL_plain R2 _ _ HR2 Hpath Hq) as (u2 & Hu2 & Hp2 & Hq2).
  eexists _, u2. split.
  - apply requestURL_ok; [exact HR1 |].
    intros k v Hk. exact (proj2 (Hq k v Hk)).
  - repeat split; try assumption. cbn [url.RawQuery].
    apply ParseQuery_Encode.
Qed.

(** C9 as stated fails: [part_000] decodes an escaped path, [src/alb.go]
    keeps it as it is, so the two URLs differ in their path. *)
Lemma C9_counterexample :
  escaped "1" = true
  /\ exists u1 u2,
       Conservative.requestURL listOrder
         (event "/a%20b" {["a" := "1"]} EmptyString false) = Ok u1
       /\ FastPath.buildURL listOrder "/a%20b" {["a" := "1"]} = Ok u2
       /\ url.Path u1 = "/a%20b"
       /\ url.Path u2 = "/a b"
       /\ url.Path u1 <> url.Path u2.
Proof.
  split; [reflexivity |].
  eexists _, _. split; [vm_compute; reflexivity |].
  split; [vm_compute; reflexivity |]. cbn. repeat split. discriminate.
Qed.

Lemma C9_witness :
  exists u1 u2,
    Conservative.requestURL listOrder
      (event "/foo/bar" (<["a" := "1%7e"]> {["b" := "x+y"]}) EmptyString false)
    = Ok u1
    /\ FastPath.buildURL listOrder "/foo/bar"
         (<["a" := "1%7e"]> {["b" := "x+y"]}) = Ok u2
    /\ url.Path u1 = "/foo/bar"
    /\ url.Path u2 = "/foo/bar"
    /\ url.ParseQuery (url.RawQuery u1)
       = (queryValues (<["a" := "1%7e"]> {["b" := "x+y"]}), None)
    /\ url.ParseQuery (url.RawQuery u2)
       = (queryValues (<["a" := "1%7e"]> {["b" := "x+y"]}), None).
Proof.
  refine (C9_strategies_agree listOrder listOrder
            (event "/foo/bar" (<["a" := "1%7e"]> {["b" := "x+y"]})
                   EmptyString false)
            listOrder_valid listOrder_valid eq_refl _).
  apply (bool_decide_unpack _). vm_compute. exact I.
Defined.

(** C10. [Handler] panics on a nil handler; on any other handler it
    returns [Run] bound to it without a handler call; the nil check is the
    only way it fails. *)
Theorem C10_Handler_nil_check {context : Type} (v : revision) (R : mapOrder) :
  Handler v R (None : option (handler context))
    = ([], Panics "Wrap called with nil handler")
  /\ (forall h : handler context,
        Handler v R (Some h) = ([], Returns (Run v R h)))
  /\ (forall oh : option (handler context),
        (exists msg, snd (Handler v R oh) = Panics msg) <-> oh = None)
  /\ (forall oh : option (handler context), fst (Handler v R oh) = []).
Proof.
  destruct v; (split; [reflexivity |]); (split; [reflexivity |]); split;
    intros [h |]; cbn; try reflexivity;
    (split; [intros [msg Hmsg]; try discriminate; reflexivity
            | intros Hh; try discriminate; eexists; reflexivity]).
Qed.

(** * Further facts about the library functions *)

Section CodecFacts.
Import base64.
Implicit Types (s : string) (p src : list byte) (dbuf : list Z) (si : Z).

Lemma b2z_byte_of_ascii c : b2z (byte_of_ascii c) = c2z c.
Proof.
  unfold b2z, c2z. f_equal.
  pose proof (byte_of_ascii_via_N c) as H. symmetry in H.
  now apply Byte.to_of_N in H.
Qed.

(** Text made of ASCII bytes is valid UTF-8. *)
Lemma Valid_ascii p : asciiBytes p = true -> utf8.Valid p = true.
Proof.
  induction p as [| b p IH]; [reflexivity |].
  cbn [asciiBytes forallb]. intros [Hb Hp]%andb_prop.
  cbn [utf8.Valid]. rewrite Hb. now apply IH.
Qed.

Lemma encode_ascii i : 0 <= i < 64 -> (c2z (encode i) <? 128) = true.
Proof.
  intros Hi. rewrite <- (Z2Nat.id i) by lia.
  assert (Hn : (Z.to_nat i < 64)%nat) by lia.
  generalize dependent (Z.to_nat i). clear. intros n Hn.
  do 64 (destruct n as [| n]; [vm_compute; reflexivity |]).
  lia.
Qed.

Lemma asciiBytes_cons (c : ascii) s :
  asciiBytes (bytesOf (String c s))
  = (c2z c <? 128) && asciiBytes (bytesOf s).
Proof.
  unfold bytesOf, list_byte_of_string. cbn [list_ascii_of_string map].
  cbn [asciiBytes forallb]. now rewrite b2z_byte_of_ascii.
Qed.

(** The base64 text is ASCII. *)
Lemma EncodeToString_ascii src :
  asciiBytes (bytesOf (EncodeToString src)) = true.
Proof.
  induction src as [| b0 | b0 b1 | b0 b1 b2 rest IH] using list_ind3;
    [reflexivity | | |];
    cbn [EncodeToString]; rewrite !asciiBytes_cons;
    rewrite ?encode_ascii
      by first [ apply sextet_range; lia
               | rewrite sextet0_arith; apply Z.mod_pos_bound; lia ];
    rewrite ?IH; reflexivity.
Qed.

Lemma len_stringOf p : len (stringOf p) = Z.of_nat (length p).
Proof.
  unfold len, stringOf, string_of_list_byte. f_equal.
  induction p as [| b p IH]; [reflexivity |]. cbn. now rewrite IH.
Qed.

(** Four characters for every three bytes, the last block padded. *)
Lemma len_EncodeToString src :
  len (EncodeToString src) = 4 * ((Z.of_nat (length src) + 2) / 3).
Proof.
  unfold len.
  induction src as [| b0 | b0 b1 | b0 b1 b2 rest IH] using list_ind3;
    [reflexivity | reflexivity | reflexivity |].
  cbn [EncodeToString String.length length].
  rewrite !Nat2Z.inj_succ, IH.
  Z.div_mod_to_equations. lia.
Qed.

Lemma skipNewlines_len s si :
  len (fst (skipNewlines s si)) <= len s.
Proof.
  revert si. induction s as [| c s IH]; intros si; [cbn; lia |].
  cbn [skipNewlines]. destruct (isNewline c); [| cbn; lia].
  specialize (IH (si + 1)). unfold len in *. cbn [String.length]. lia.
Qed.

Lemma length_quantumBytes dbuf :
  (length dbuf <= 4)%nat ->
  length (quantumBytes dbuf) = (length dbuf - 1)%nat.
Proof.
  intros H. unfold quantumBytes. rewrite length_take. cbn [length]. lia.
Qed.

(** What the decoder returns: bytes, at most three for every four
    characters read, or a [CorruptInputError]. *)
Lemma decode_spec s :
  forall si dbuf, (length dbuf <= 3)%nat ->
    match decode s si dbuf with
    | Ok b => 4 * Z.of_nat (length b) <= 3 * (len s + Z.of_nat (length dbuf))
    | Err e => exists n, e = CorruptInputError n
    end.
Proof.
  induction s as [| c s IH]; intros si dbuf Hd.
  - cbn [decode]. destruct dbuf; [| eauto].
    unfold len. cbn [String.length length]. lia.
  - cbn [decode].
    assert (Hlen : len (String c s) = 1 + len s)
      by (unfold len; cbn [String.length]; lia).
    rewrite Hlen. pose proof (len_nonneg s) as Hs.
    destruct (negb (decodeMap c =? 255)).
    { destruct (Nat.eqb_spec (length (dbuf ++ [decodeMap c])) 4) as [E | E].
      - specialize (IH (si + 1) [] ltac:(cbn; lia)).
        destruct (decode s (si + 1) []) as [tl | e]; cbn [bind]; [| exact IH].
        rewrite length_app, length_quantumBytes by lia.
        rewrite E. cbn [length] in IH. rewrite length_app in E.
        cbn [length] in E. lia.
      - rewrite length_app in E. cbn [length] in E.
        specialize (IH (si + 1) (dbuf ++ [decodeMap c])
                       ltac:(rewrite length_app; cbn [length]; lia)).
        destruct (decode s (si + 1) (dbuf ++ [decodeMap c])); [| exact IH].
        rewrite length_app in IH. cbn [length] in IH. lia. }
    destruct (isNewline c).
    { specialize (IH (si + 1) dbuf Hd).
      destruct (decode s (si + 1) dbuf); [lia | exact IH]. }
    destruct (negb (Ascii.eqb c padChar)); [eauto |].
    destruct dbuf as [| d0 [| d1 [| d2 [| d3 dbuf]]]];
      cbn [length]; eauto.
    + destruct (skipNewlines s (si + 1)) as [rest1 si1].
      destruct rest1 as [| c1 rest2]; [eauto |].
      destruct (negb (Ascii.eqb c1 padChar)); [eauto |].
      destruct (skipNewlines rest2 (si1 + 1)) as [rest3 si3].
      destruct rest3; [| eauto].
      unfold quantumBytes. cbn [length take Nat.sub]. lia.
    + destruct (skipNewlines s (si + 1)) as [rest1 si1].
      destruct rest1; [| eauto].
      unfold quantumBytes. cbn [length take Nat.sub]. lia.
    + cbn [length] in Hd. lia.
Qed.

Lemma DecodeString_error s e :
  DecodeString s = Err e -> exists n, e = CorruptInputError n.
Proof.
  unfold DecodeString. intros H.
  pose proof (decode_spec s 0 [] ltac:(cbn; lia)) as Hs.
  now rewrite H in Hs.
Qed.

Lemma DecodeString_length s b :
  DecodeString s = Ok b -> 4 * Z.of_nat (length b) <= 3 * len s.
Proof.
  unfold DecodeString. intros H.
  pose proof (decode_spec s 0 [] ltac:(cbn; lia)) as Hs.
  rewrite H in Hs. cbn [length] in Hs. lia.
Qed.

End CodecFacts.

Section HeaderKeyFacts.
Import textproto.
Implicit Types (s : string) (c : ascii) (upper : bool)
  (l : list (string * string)).

Lemma canonical_byte c upper :
  let c' := if upper && isLower c then z2c (c2z c - toLower)
            else if negb upper && isUpper c then z2c (c2z c + toLower)
            else c in
  validHeaderFieldByte c = true ->
  validHeaderFieldByte c' = true
  /\ (if upper && isLower c' then z2c (c2z c' - toLower)
      else if negb upper && isUpper c' then z2c (c2z c' + toLower)
      else c') = c'.
Proof.
  destruct upper; destruct c as [[] [] [] [] [] [] [] []]; vm_compute;
    intros H; try discriminate H; split; reflexivity.
Qed.

Lemma canonical_fixed s upper :
  strings.all validHeaderFieldByte s = true ->
  strings.all validHeaderFieldByte (canonical s upper) = true
  /\ canonical (canonical s upper) upper = canonical s upper.
Proof.
  revert upper. induction s as [| c s IH]; intros upper; [now split |].
  cbn [strings.all]. intros [Hc Hs]%andb_prop.
  destruct (canonical_byte c upper Hc) as [Hv Hfix].
  cbn [canonical]. cbn zeta in Hv, Hfix.
  set (c' := if upper && isLower c then z2c (c2z c - toLower)
             else if negb upper && isUpper c then z2c (c2z c + toLower)
             else c) in *.
  destruct (IH (Ascii.eqb c' "-") Hs) as [IHv IHfix].
  split.
  - cbn [strings.all]. now rewrite Hv, IHv.
  - cbn [canonical]. rewrite Hfix. now rewrite IHfix.
Qed.

(** A canonical key is its own canonical form. *)
Lemma CanonicalMIMEHeaderKey_idempotent s :
  CanonicalMIMEHeaderKey (CanonicalMIMEHeaderKey s) = CanonicalMIMEHeaderKey s.
Proof.
  unfold CanonicalMIMEHeaderKey.
  destruct (strings.all validHeaderFieldByte s) eqn:E.
  - destruct (canonical_fixed s true E) as [-> ->]. reflexivity.
  - now rewrite E.
Qed.

Lemma setHeaders_snoc l k v :
  lambdaHandler.setHeaders (l ++ [(k, v)])
  = <[CanonicalMIMEHeaderKey k := [v]]> (lambdaHandler.setHeaders l).
Proof. unfold lambdaHandler.setHeaders. now rewrite foldl_app. Qed.

(** Every header of the request was set from an entry of the list, and
    holds that entry's value alone. *)
Lemma setHeaders_origin l key vs :
  lambdaHandler.setHeaders l !! key = Some vs ->
  exists k v, (k, v) ∈ l /\ CanonicalMIMEHeaderKey k = key /\ vs = [v].
Proof.
  induction l as [| [k0 v0] l IH] using rev_ind.
  - cbn. now rewrite lookup_empty.
  - rewrite setHeaders_snoc.
    destruct (decide (CanonicalMIMEHeaderKey k0 = key)) as [E | Hne].
    + rewrite E, lookup_insert_eq. intros [= <-].
      exists k0, v0. split; [| auto]. apply elem_of_app. right. left.
    + rewrite lookup_insert_ne by exact Hne. intros H.
      destruct (IH H) as (k & v & Hin & Hk & Hv).
      exists k, v. split; [| auto]. apply elem_of_app. now left.
Qed.

(** An entry whose canonical key it shares only with entries of the same
    value is found under that key. *)
Lemma setHeaders_entry l k v :
  (k, v) ∈ l ->
  (forall k2 v2, (k2, v2) ∈ l ->
     CanonicalMIMEHeaderKey k2 = CanonicalMIMEHeaderKey k -> v2 = v) ->
  lambdaHandler.setHeaders l !! CanonicalMIMEHeaderKey k = Some [v].
Proof.
  induction l as [| [k0 v0] l IH] using rev_ind; intros Hin Hsame.
  - now apply not_elem_of_nil in Hin.
  - rewrite setHeaders_snoc.
    destruct (decide (CanonicalMIMEHeaderKey k0 = CanonicalMIMEHeaderKey k))
      as [E | Hne].
    + rewrite E, lookup_insert_eq. f_equal. f_equal.
      apply (Hsame k0 v0); [| exact E]. apply elem_of_app. right. left.
    + rewrite lookup_insert_ne by exact Hne. apply IH.
      * apply elem_of_app in Hin as [Hin | Hin]; [exact Hin |].
        apply list_elem_of_singleton in Hin as [= -> ->]. contradiction.
      * intros k2 v2 Hin2. apply Hsame. apply elem_of_app. now left.
Qed.

(** Every entry leaves a header under its canonical key. *)
Lemma setHeaders_present l k v :
  (k, v) ∈ l ->
  is_Some (lambdaHandler.setHeaders l !! CanonicalMIMEHeaderKey k).
Proof.
  induction l as [| [k0 v0] l IH] using rev_ind; intros Hin.
  - now apply not_elem_of_nil in Hin.
  - rewrite setHeaders_snoc.
    destruct (decide (CanonicalMIMEHeaderKey k0 = CanonicalMIMEHeaderKey k))
      as [E | Hne].
    + rewrite E, lookup_insert_eq. eauto.
    + rewrite lookup_insert_ne by exact Hne. apply IH.
      apply elem_of_app in Hin as [Hin | Hin]; [exact Hin |].
      apply list_elem_of_singleton in Hin as [= -> ->]. contradiction.
Qed.

End HeaderKeyFacts.

(** * Further facts about the adapter *)

Section RunFacts.
Context {context : Type}.
Implicit Types (R : mapOrder) (h : handler context) (ctx : context)
  (req : request) (v : revision).

(** The two ways a call of [Run] goes. *)
Lemma Run_cases v R h ctx req :
  (exists e, Run v R h ctx req = mkOutcome [] (Err e)
             /\ (requestURL v R req = Err e
                 \/ (isOk (requestURL v R req) = true
                     /\ lambdaHandler.requestBody req = Err e)))
  \/ (exists u body n,
        requestURL v R req = Ok u
        /\ lambdaHandler.requestBody req = Ok (body, n)
        /\ Run v R h ctx req
           = mkOutcome [builtRequest R ctx req u body n]
               (Ok (lambdaHandler.envelope R
                      (h (builtRequest R ctx req u body n))))).
Proof.
  rewrite Run_unfold. destruct (requestURL v R req) as [u | e].
  - rewrite serve_unfold.
    destruct (lambdaHandler.requestBody req) as [[body n] | e].
    + right. exists u, body, n. auto.
    + left. exists e. auto.
  - left. exists e. auto.
Qed.

Lemma requestBody_length req body n :
  lambdaHandler.requestBody req = Ok (body, n) ->
  n = Z.of_nat (length body).
Proof.
  unfold lambdaHandler.requestBody.
  destruct (request.BodyEncoded req).
  - destruct (base64.DecodeString (request.Body req)); [| discriminate].
    now intros [= <- <-].
  - intros [= <- <-]. unfold len. now rewrite length_bytesOf.
Qed.

Lemma requestURL_error v R req e :
  requestURL v R req = Err e ->
  match v with
  | alb_go => exists t, e = EscapeError t
  | part_000 => exists text inner, e = urlError "parse" text inner
  end.
Proof.
  destruct v; cbn [requestURL].
  - unfold Conservative.requestURL.
    destruct (0 <? Z.of_nat (size (request.Query req))); [| discriminate].
    generalize (∅ : url.Values).
    induction (rangeQuery R (request.Query req)) as [| [k val] l IH];
      intros vals; [discriminate |].
    cbn [Conservative.unescapeQuery].
    destruct (url.QueryUnescape val) as [v2 | e'] eqn:E; cbn [bind].
    + destruct (Conservative.unescapeQuery l _) eqn:El; [discriminate |].
      cbn [bind]. intros [= <-]. apply (IH (url.Values_Set vals k v2)).
      now rewrite El.
    + intros [= <-]. now apply QueryUnescape_error in E.
  - unfold FastPath.buildURL.
    assert (HP : forall text, url.Parse text = Err e ->
                 exists text' inner, e = urlError "parse" text' inner).
    { intros text. unfold url.Parse.
      destruct (strings.Cut text "#") as [[u frag] found].
      destruct (url.parse u false); [| intros [= <-]; eauto].
      destruct (String.eqb frag EmptyString); [discriminate |].
      destruct (url.unescape frag url.encodeFragment);
        [discriminate | intros [= <-]; eauto]. }
    destruct (Z.of_nat (size (request.Query req)) =? 0); apply HP.
Qed.

End RunFacts.

(** * Further properties of the adapter *)

(** X1. [Run] hands the handler at most one request, and none when it
    returns an error: for a handler that returns from [ServeHTTP], a call
    of [Run] is either an error return without a handler call, or one
    handler call followed by the return of the envelope of what that call
    recorded. [Run] does not recover from a handler that panics or does
    not return; such a call is not covered. *)
Theorem X1_error_or_one_call {context : Type} (v : revision) (R : mapOrder)
    (h : handler context) (ctx : context) (req : request) :
  (exists e, Run v R h ctx req = mkOutcome [] (Err e))
  \/ (exists r, Run v R h ctx req
                = mkOutcome [r] (Ok (lambdaHandler.envelope R (h r)))).
Proof.
  destruct (Run_cases v R h ctx req) as [(e & -> & _) | (u & b & n & _ & _ & ->)];
    eauto.
Qed.

(** X2. The request handed to the handler carries the event's method, the
    protocol HTTP/1.1, the caller's context and the URL that was built;
    the envelope carries the status code and status text the handler
    recorded. *)
Theorem X2_fields_verbatim {context : Type} (v : revision) (R : mapOrder)
    (h : handler context) (ctx : context) (req : request) :
  Forall (fun r =>
            http.Request.Method r = request.Method req
            /\ http.Request.Proto r = "HTTP/1.1"
            /\ http.Request.ProtoMajor r = 1
            /\ http.Request.ProtoMinor r = 1
            /\ http.Request.Context r = ctx
            /\ requestURL v R req = Ok (http.Request.URL r)
            /\ returned (Run v R h ctx req)
               = Ok (lambdaHandler.envelope R (h r))
            /\ response.StatusCode (lambdaHandler.envelope R (h r))
               = httptest.StatusCode (h r)
            /\ response.Status (lambdaHandler.envelope R (h r))
               = httptest.Status (h r))
         (calls (Run v R h ctx req)).
Proof.
  destruct (Run_cases v R h ctx req)
    as [(e & -> & _) | (u & b & n & Hu & _ & ->)]; cbn [calls returned].
  - constructor.
  - apply Forall_singleton. rewrite Hu. cbn.
    repeat split; unfold lambdaHandler.envelope; cbn zeta;
      destruct (utf8.Valid _); reflexivity.
Qed.

(** X3. The declared content length of the request is the number of bytes
    of its body, whichever branch of the switch built it; for a base64
    event that is at most three quarters of the length of the event's
    body string, for a text event exactly its length. *)
Theorem X3_content_length {context : Type} (v : revision) (R : mapOrder)
    (h : handler context) (ctx : context) (req : request) :
  Forall (fun r =>
            http.Request.ContentLength r
              = Z.of_nat (length (http.Request.Body r))
            /\ 0 <= http.Request.ContentLength r
            /\ if request.BodyEncoded req
               then 4 * http.Request.ContentLength r
                    <= 3 * len (request.Body req)
               else http.Request.ContentLength r = len (request.Body req))
         (calls (Run v R h ctx req)).
Proof.
  destruct (Run_cases v R h ctx req)
    as [(e & -> & _) | (u & b & n & _ & Hb & ->)]; cbn [calls].
  - constructor.
  - apply Forall_singleton. cbn.
    pose proof (requestBody_length _ _ _ Hb) as ->.
    split; [reflexivity |]. split; [lia |].
    unfold lambdaHandler.requestBody in Hb.
    destruct (request.BodyEncoded req).
    + destruct (base64.DecodeString (request.Body req)) as [b' |] eqn:E;
        [| discriminate].
      injection Hb as <- _. now apply DecodeString_length.
    + injection Hb as <- _. unfold len. now rewrite length_bytesOf.
Qed.

(** X4. An event whose body is the standard base64 encoding of the bytes
    [b], with [isBase64Encoded] set, hands the handler exactly [b] with
    content length the number of those bytes, whenever its URL is built. *)
Theorem X4_inbound_round_trip {context : Type} (v : revision) (R : mapOrder)
    (h : handler context) (ctx : context) (req : request)
    (b : list byte) (u : url.URL) :
  request.BodyEncoded req = true ->
  request.Body req = base64.EncodeToString b ->
  requestURL v R req = Ok u ->
  exists r, calls (Run v R h ctx req) = [r]
            /\ http.Request.Body r = b
            /\ http.Request.ContentLength r = Z.of_nat (length b).
Proof.
  intros Henc Hbody Hu.
  assert (Hb : lambdaHandler.requestBody req = Ok (b, Z.of_nat (length b))).
  { unfold lambdaHandler.requestBody.
    now rewrite Henc, Hbody, DecodeString_EncodeToString. }
  destruct (Run_cases v R h ctx req)
    as [(e & _ & [Hbad | [_ Hbad]]) | (u' & b' & n & _ & Hb' & ->)];
    try congruence.
  rewrite Hb in Hb'. injection Hb' as <- <-.
  eexists. cbn. repeat split.
Qed.

Lemma X4_witness :
  exists r,
    calls (Run part_000 listOrder helloHandler tt
               (event "/up" ∅ "//4AAQ==" true)) = [r]
    /\ http.Request.Body r = [xff; xfe; x00; x01]
    /\ http.Request.ContentLength r = 4.
Proof.
  exact (X4_inbound_round_trip part_000 listOrder helloHandler tt
           (event "/up" ∅ "//4AAQ==" true) [xff; xfe; x00; x01]
           _ eq_refl eq_refl eq_refl).
Defined.

(** X5. The errors [Run] returns: in [src/alb.go] the [EscapeError] of a
    query value or the decoder's [CorruptInputError]; in [part_000] the
    [url.Error] of [url.Parse], with operation [parse], or the decoder's
    [CorruptInputError]. In each case the handler was not called. *)
Theorem X5_errors_returned {context : Type} (v : revision) (R : mapOrder)
    (h : handler context) (ctx : context) (req : request) (e : error) :
  returned (Run v R h ctx req) = Err e ->
  calls (Run v R h ctx req) = []
  /\ ((exists n, e = CorruptInputError n)
      \/ match v with
         | alb_go => exists t, e = EscapeError t
         | part_000 => exists text inner, e = urlError "parse" text inner
         end).
Proof.
  intros He. split; [now apply (Run_fails _ _ _ _ _ e) |].
  destruct (Run_cases v R h ctx req)
    as [(e' & Hrun & Hwhy) | (u & b & n & _ & _ & Hrun)];
    rewrite Hrun in He; cbn [returned] in He; [| discriminate].
  injection He as ->.
  destruct Hwhy as [Hurl | [_ Hbody]].
  - right. now apply (requestURL_error v R req).
  - left. unfold lambdaHandler.requestBody in Hbody.
    destruct (request.BodyEncoded req); [| discriminate].
    destruct (base64.DecodeString (request.Body req)) eqn:E; [discriminate |].
    injection Hbody as ->. now apply DecodeString_error in E.
Qed.

Lemma X5_witness :
  calls (Run alb_go listOrder helloHandler tt
             (event "/p" {["a" := "%zz"]} EmptyString false)) = []
  /\ ((exists n, EscapeError "%zz" = CorruptInputError n)
      \/ exists t, EscapeError "%zz" = EscapeError t).
Proof.
  exact (X5_errors_returned alb_go listOrder helloHandler tt
           (event "/p" {["a" := "%zz"]} EmptyString false)
           (EscapeError "%zz") eq_refl).
Defined.

Lemma envelopeBytes_envelope (R : mapOrder) (recorder : httptest.ResponseRecorder) :
  envelopeBytes (lambdaHandler.envelope R recorder)
  = Ok (httptest.Body recorder).
Proof.
  unfold lambdaHandler.envelope, envelopeBytes. cbn zeta.
  destruct (utf8.Valid (httptest.Body recorder));
    cbn [response.BodyEncoded response.Body].
  - now rewrite bytesOf_stringOf.
  - apply DecodeString_EncodeToString.
Qed.

(** X6. The body field of every returned envelope is valid UTF-8, whatever
    bytes the handler wrote: valid text goes out as it is, anything else
    as base64, which is ASCII. *)
Theorem X6_envelope_body_is_text {context : Type} (v : revision)
    (R : mapOrder) (h : handler context) (ctx : context) (req : request)
    (out : response) :
  returned (Run v R h ctx req) = Ok out ->
  utf8.Valid (bytesOf (response.Body out)) = true.
Proof.
  intros Hret. destruct (Run_returns _ _ _ _ _ _ Hret) as (r & _ & ->).
  unfold lambdaHandler.envelope. cbn zeta.
  destruct (utf8.Valid (httptest.Body (h r))) eqn:E; cbn [response.Body].
  - now rewrite bytesOf_stringOf.
  - apply Valid_ascii, EncodeToString_ascii.
Qed.

Lemma X6_witness :
  exists out,
    returned (Run part_000 listOrder binaryHandler tt
                  (event "/hello" ∅ EmptyString false)) = Ok out
    /\ utf8.Valid (bytesOf (response.Body out)) = true.
Proof.
  assert (H : exists out,
             returned (Run part_000 listOrder binaryHandler tt
                           (event "/hello" ∅ EmptyString false)) = Ok out)
    by (eexists; vm_compute; reflexivity).
  destruct H as [out H]. exists out. split; [exact H |].
  exact (X6_envelope_body_is_text part_000 listOrder binaryHandler tt
           (event "/hello" ∅ EmptyString false) out H).
Defined.

(** X7. The length of the envelope's body field: the number of bytes the
    handler wrote when they are valid UTF-8, and otherwise four
    characters for every three bytes or part of three. *)
Theorem X7_envelope_body_length {context : Type} (v : revision)
    (R : mapOrder) (h : handler context) (ctx : context) (req : request)
    (out : response) :
  returned (Run v R h ctx req) = Ok out ->
  exists r, calls (Run v R h ctx req) = [r] /\
    let n := Z.of_nat (length (httptest.Body (h r))) in
    len (response.Body out)
    = if response.BodyEncoded out then 4 * ((n + 2) / 3) else n.
Proof.
  intros Hret. destruct (Run_returns _ _ _ _ _ _ Hret) as (r & Hc & ->).
  exists r. split; [exact Hc |].
  unfold lambdaHandler.envelope. cbn zeta.
  destruct (utf8.Valid (httptest.Body (h r)));
    cbn [response.Body response.BodyEncoded].
  - apply len_stringOf.
  - apply len_EncodeToString.
Qed.

Lemma X7_witness :
  exists out,
    returned (Run part_000 listOrder binaryHandler tt
                  (event "/hello" ∅ EmptyString false)) = Ok out
    /\ len (response.Body out) = 8.
Proof.
  assert (H : exists out,
             returned (Run part_000 listOrder binaryHandler tt
                           (event "/hello" ∅ EmptyString false)) = Ok out)
    by (eexists; vm_compute; reflexivity).
  destruct H as [out H]. exists out. split; [exact H |].
  destruct (X7_envelope_body_length part_000 listOrder binaryHandler tt
              (event "/hello" ∅ EmptyString false) out H) as (r & _ & Hlen).
  cbn zeta in Hlen. rewrite Hlen.
  destruct (Run_returns _ _ _ _ _ _ H) as (r' & _ & ->). reflexivity.
Defined.

(** X8. A response body of ASCII bytes is never base64-encoded: the
    envelope carries it as text with [isBase64Encoded] false. *)
Theorem X8_ascii_body_is_text {context : Type} (v : revision)
    (R : mapOrder) (h : handler context) (ctx : context) (req : request)
    (r : http.Request context) :
  calls (Run v R h ctx req) = [r] ->
  asciiBytes (httptest.Body (h r)) = true ->
  exists out, returned (Run v R h ctx req) = Ok out
              /\ response.BodyEncoded out = false
              /\ response.Body out = stringOf (httptest.Body (h r)).
Proof.
  intros Hc Hascii.
  destruct (Run_cases v R h ctx req)
    as [(e & Hrun & _) | (u & b & n & _ & _ & Hrun)];
    rewrite Hrun in Hc |- *; cbn [calls returned] in *; [discriminate |].
  injection Hc as <-. eexists. split; [reflexivity |].
  unfold lambdaHandler.envelope. cbn zeta.
  rewrite (Valid_ascii _ Hascii). split; reflexivity.
Qed.

Lemma X8_witness :
  exists r out,
    calls (Run part_000 listOrder helloHandler tt
               (event "/hello" ∅ EmptyString false)) = [r]
    /\ returned (Run part_000 listOrder helloHandler tt
                     (event "/hello" ∅ EmptyString false)) = Ok out
    /\ response.BodyEncoded out = false
    /\ response.Body out = "Hello".
Proof.
  assert (Hc : exists r,
             calls (Run part_000 listOrder helloHandler tt
                        (event "/hello" ∅ EmptyString false)) = [r])
    by (eexists; vm_compute; reflexivity).
  destruct Hc as [r Hc]. exists r.
  destruct (X8_ascii_body_is_text part_000 listOrder helloHandler tt
              (event "/hello" ∅ EmptyString false) r Hc eq_refl)
    as (out & Hout & Hflag & Hbody).
  exists out. auto.
Defined.

(** X9. Through a handler that answers with the request's body, the bytes
    read back from the envelope are the bytes the event's body decodes
    to: text or base64 on the way in, text or base64 on the way out. *)
Theorem X9_echo_round_trip {context : Type} (v : revision) (R : mapOrder)
    (h : handler context) (ctx : context) (req : request) (out : response) :
  (forall r, httptest.Body (h r) = http.Request.Body r) ->
  returned (Run v R h ctx req) = Ok out ->
  exists body n,
    lambdaHandler.requestBody req = Ok (body, n)
    /\ envelopeBytes out = Ok body.
Proof.
  intros Hecho Hret.
  destruct (Run_cases v R h ctx req)
    as [(e & Hrun & _) | (u & b & n & _ & Hb & Hrun)];
    rewrite Hrun in Hret; cbn [returned] in Hret; [discriminate |].
  injection Hret as <-. exists b, n. split; [exact Hb |].
  now rewrite envelopeBytes_envelope, Hecho.
Qed.

Lemma X9_witness :
  exists out,
    returned (Run alb_go listOrder echoHandler tt
                  (event "/echo" ∅ "//4AAQ==" true)) = Ok out
    /\ envelopeBytes out = Ok [xff; xfe; x00; x01].
Proof.
  assert (H : exists out,
             returned (Run alb_go listOrder echoHandler tt
                           (event "/echo" ∅ "//4AAQ==" true)) = Ok out)
    by (eexists; vm_compute; reflexivity).
  destruct H as [out H]. exists out. split; [exact H |].
  destruct (X9_echo_round_trip alb_go listOrder echoHandler tt
              (event "/echo" ∅ "//4AAQ==" true) out
              (fun r => eq_refl) H) as (body & n & Hb & Hout).
  injection Hb as <- _. exact Hout.
Defined.

Section RequestHeaderFacts.
Import textproto.
Implicit Types (R : mapOrder) (hs : gmap string string).

Lemma headers_origin R hs key vs :
  validOrder R ->
  lambdaHandler.setHeaders (rangeHeaders R hs) !! key = Some vs ->
  CanonicalMIMEHeaderKey key = key
  /\ exists k val, hs !! k = Some val
                   /\ CanonicalMIMEHeaderKey k = key /\ vs = [val].
Proof.
  intros (_ & Hperm & _) H.
  destruct (setHeaders_origin _ _ _ H) as (k & val & Hin & <- & ->).
  split; [apply CanonicalMIMEHeaderKey_idempotent |].
  exists k, val. rewrite Hperm in Hin.
  apply elem_of_map_to_list in Hin. auto.
Qed.

Lemma headers_entry R hs k val :
  validOrder R ->
  hs !! k = Some val ->
  map_Forall (fun k2 _ => CanonicalMIMEHeaderKey k2 = CanonicalMIMEHeaderKey k
                          -> k2 = k) hs ->
  lambdaHandler.setHeaders (rangeHeaders R hs) !! CanonicalMIMEHeaderKey k
  = Some [val].
Proof.
  intros (_ & Hperm & _) Hk Huniq. apply setHeaders_entry.
  - rewrite Hperm. now apply elem_of_map_to_list.
  - intros k2 v2 Hin Hc. rewrite Hperm in Hin.
    apply elem_of_map_to_list in Hin.
    rewrite (Huniq k2 v2 Hin Hc) in Hin. congruence.
Qed.

Lemma headers_present R hs k val :
  validOrder R ->
  hs !! k = Some val ->
  exists k' val',
    hs !! k' = Some val'
    /\ CanonicalMIMEHeaderKey k' = CanonicalMIMEHeaderKey k
    /\ lambdaHandler.setHeaders (rangeHeaders R hs) !! CanonicalMIMEHeaderKey k
       = Some [val'].
Proof.
  intros HR Hk.
  assert (Hin : (k, val) ∈ rangeHeaders R hs).
  { destruct HR as (_ & Hperm & _). rewrite Hperm.
    now apply elem_of_map_to_list. }
  destruct (setHeaders_present _ k val Hin) as [vs Hvs].
  destruct (headers_origin R hs _ vs HR Hvs) as (_ & k' & val' & Hk' & Hc & ->).
  exists k', val'. auto.
Qed.

End RequestHeaderFacts.

(** X10. The headers of the request handed to the handler: every key is in
    canonical MIME form and carries exactly one value, that of an event
    header with this canonical key; and an event header that shares its
    canonical key with no other is found under it with its own value. *)
Theorem X10_request_headers {context : Type} (v : revision) (R : mapOrder)
    (h : handler context) (ctx : context) (req : request) :
  validOrder R ->
  Forall (fun r =>
            (forall key vs, http.Request.Header r !! key = Some vs ->
               textproto.CanonicalMIMEHeaderKey key = key
               /\ exists k val,
                    request.Headers req !! k = Some val
                    /\ textproto.CanonicalMIMEHeaderKey k = key
                    /\ vs = [val])
            /\ (forall k val,
                  request.Headers req !! k = Some val ->
                  map_Forall (fun k2 _ =>
                                textproto.CanonicalMIMEHeaderKey k2
                                = textproto.CanonicalMIMEHeaderKey k
                                -> k2 = k) (request.Headers req) ->
                  http.Request.Header r !! textproto.CanonicalMIMEHeaderKey k
                  = Some [val]))
         (calls (Run v R h ctx req)).
Proof.
  intros HR.
  destruct (Run_cases v R h ctx req)
    as [(e & -> & _) | (u & b & n & _ & _ & ->)]; cbn [calls].
  - constructor.
  - apply Forall_singleton. cbn [builtRequest http.Request.Header]. split.
    + intros key vs. now apply headers_origin.
    + intros k val. now apply headers_entry.
Qed.

Lemma X10_witness :
  exists r,
    calls (Run part_000 listOrder helloHandler tt
               (eventWith (<["content-type" := "text/plain"]>
                             {["x-id" := "7"]}))) = [r]
    /\ http.Request.Header r !! "Content-Type" = Some ["text/plain"].
Proof.
  assert (Hc : exists r,
             calls (Run part_000 listOrder helloHandler tt
                        (eventWith (<["content-type" := "text/plain"]>
                                      {["x-id" := "7"]}))) = [r])
    by (eexists; vm_compute; reflexivity).
  destruct Hc as [r Hc]. exists r. split; [exact Hc |].
  pose proof (X10_request_headers part_000 listOrder helloHandler tt
                (eventWith (<["content-type" := "text/plain"]>
                              {["x-id" := "7"]})) listOrder_valid) as H.
  rewrite Hc in H. apply Forall_singleton in H as [_ H].
  apply (H "content-type" "text/plain"); [reflexivity |].
  apply (bool_decide_unpack _). vm_compute. exact I.
Defined.

(** X11. The [Host] of the request: empty when no event header has the
    canonical key [Host]; when some event header has it, the value of an
    event header with that canonical key, and the value of the only one
    when there is only one. *)
Theorem X11_request_host {context : Type} (v : revision) (R : mapOrder)
    (h : handler context) (ctx : context) (req : request) :
  validOrder R ->
  Forall (fun r =>
            (map_Forall (fun k _ =>
                           textproto.CanonicalMIMEHeaderKey k <> "Host")
                        (request.Headers req) ->
             http.Request.Host r = EmptyString)
            /\ (forall k0 val0,
                  request.Headers req !! k0 = Some val0 ->
                  textproto.CanonicalMIMEHeaderKey k0 = "Host" ->
                  exists k val,
                    request.Headers req !! k = Some val
                    /\ textproto.CanonicalMIMEHeaderKey k = "Host"
                    /\ http.Request.Host r = val)
            /\ (forall k val,
                  request.Headers req !! k = Some val ->
                  textproto.CanonicalMIMEHeaderKey k = "Host" ->
                  map_Forall (fun k2 _ =>
                                textproto.CanonicalMIMEHeaderKey k2
                                = textproto.CanonicalMIMEHeaderKey k
                                -> k2 = k) (request.Headers req) ->
                  http.Request.Host r = val))
         (calls (Run v R h ctx req)).
Proof.
  intros HR.
  destruct (Run_cases v R h ctx req)
    as [(e & -> & _) | (u & b & n & _ & _ & ->)]; cbn [calls].
  - constructor.
  - apply Forall_singleton. cbn [builtRequest http.Request.Host].
    unfold http.Header_Get.
    change (textproto.CanonicalMIMEHeaderKey "Host") with "Host".
    set (headers := lambdaHandler.setHeaders
                      (rangeHeaders R (request.Headers req))).
    split; [| split].
    + intros Hnone. destruct (headers !! "Host") as [vs |] eqn:E; [| reflexivity].
      destruct (headers_origin R _ _ _ HR E) as (_ & k & val & Hk & Hc & _).
      now destruct (Hnone k val Hk).
    + intros k0 val0 Hk0 Hc0.
      destruct (headers_present R _ k0 val0 HR Hk0) as (k & val & Hk & Hc & E).
      rewrite Hc0 in Hc, E. fold headers in E. rewrite E.
      exists k, val. auto.
    + intros k val Hk Hc Huniq.
      pose proof (headers_entry R _ k val HR Hk Huniq) as E.
      rewrite Hc in E. fold headers in E. now rewrite E.
Qed.

Lemma X11_witness :
  (exists r,
     calls (Run part_000 listOrder helloHandler tt
                (eventWith (<["host" := "example.com"]> {["x-id" := "7"]})))
     = [r]
     /\ http.Request.Host r = "example.com")
  /\ (exists r,
        calls (Run alb_go listOrder helloHandler tt
                   (eventWith (<["host" := "a.example"]>
                                 {["HOST" := "b.example"]})))
        = [r]
        /\ exists k val,
             (<["host" := "a.example"]> {["HOST" := "b.example"]}
              : gmap string string) !! k = Some val
             /\ textproto.CanonicalMIMEHeaderKey k = "Host"
             /\ http.Request.Host r = val).
Proof.
  split.
  - assert (Hc : exists r,
               calls (Run part_000 listOrder helloHandler tt
                          (eventWith (<["host" := "example.com"]>
                                        {["x-id" := "7"]}))) = [r])
      by (eexists; vm_compute; reflexivity).
    destruct Hc as [r Hc]. exists r. split; [exact Hc |].
    pose proof (X11_request_host part_000 listOrder helloHandler tt
                  (eventWith (<["host" := "example.com"]> {["x-id" := "7"]}))
                  listOrder_valid) as H.
    rewrite Hc in H. apply Forall_singleton in H as (_ & _ & H).
    apply (H "host" "example.com"); [reflexivity | reflexivity |].
    apply (bool_decide_unpack _). vm_compute. exact I.
  - assert (Hc : exists r,
               calls (Run alb_go listOrder helloHandler tt
                          (eventWith (<["host" := "a.example"]>
                                        {["HOST" := "b.example"]}))) = [r])
      by (eexists; vm_compute; reflexivity).
    destruct Hc as [r Hc]. exists r. split; [exact Hc |].
    pose proof (X11_request_host alb_go listOrder helloHandler tt
                  (eventWith (<["host" := "a.example"]>
                                {["HOST" := "b.example"]}))
                  listOrder_valid) as H.
    rewrite Hc in H. apply Forall_singleton in H as (_ & H & _).
    apply (H "host" "a.example"); reflexivity.
Defined.

Section QueryOfAlbGo.
Import url.
Implicit Types (R : mapOrder) (l : list (string * string))
  (q : gmap string string) (req : request).

Lemma unescapeQuery_unescapes l (vals : Values) :
  Forall (fun kv => isOk (QueryUnescape kv.2) = true) l ->
  Conservative.unescapeQuery l vals
  = Ok (foldl (fun m kv => Values_Set m kv.1 (unescaped kv.2)) vals l).
Proof.
  revert vals. induction l as [| [k v] l IH]; intros vals Hl; [reflexivity |].
  apply Forall_cons in Hl as [Hv Hl]. cbn [fst snd] in Hv.
  cbn [Conservative.unescapeQuery foldl fst snd]. unfold unescaped at 2.
  destruct (QueryUnescape v) as [t |]; [| discriminate Hv]. cbn [bind].
  now apply IH.
Qed.

Lemma requestURL_unescapes R req :
  validOrder R ->
  map_Forall (fun _ v => isOk (QueryUnescape v) = true) (request.Query req) ->
  Conservative.requestURL R req
  = Ok (mkURL EmptyString EmptyString None EmptyString (request.Path req)
              EmptyString false
              (Values_Encode (queryValues (request.Query req)))
              EmptyString).
Proof.
  intros HR Hq. unfold Conservative.requestURL.
  destruct (Z.ltb_spec 0 (Z.of_nat (size (request.Query req)))) as [_ | Hs].
  - rewrite unescapeQuery_unescapes.
    + cbn [bind]. do 3 f_equal.
      apply (foldl_step_map
               (fun m kv => Values_Set m kv.1 (unescaped kv.2))
               (fun v => [unescaped v])).
      * intros m k a k' Hne. cbn. now apply lookup_insert_ne.
      * intros m k a _. cbn. apply lookup_insert_eq.
      * apply HR.
    + apply Forall_forall. intros [k v] Hin.
      destruct HR as (Hperm & _). rewrite Hperm in Hin.
      apply elem_of_map_to_list in Hin. exact (Hq k v Hin).
  - assert (E : request.Query req = ∅) by (apply map_size_empty_iff; lia).
    rewrite E. reflexivity.
Qed.

Lemma requestURL_values R req u :
  validOrder R ->
  Conservative.requestURL R req = Ok u ->
  map_Forall (fun _ v => isOk (QueryUnescape v) = true) (request.Query req).
Proof.
  intros HR Hu k v Hk.
  destruct (QueryUnescape v) as [t | e] eqn:E; [reflexivity | exfalso].
  unfold Conservative.requestURL in Hu.
  destruct (Z.ltb_spec 0 (Z.of_nat (size (request.Query req)))) as [_ | Hs].
  - assert (Hin : (k, v) ∈ rangeQuery R (request.Query req)).
    { destruct HR as (Hperm & _). rewrite Hperm.
      now apply elem_of_map_to_list. }
    destruct (unescapeQuery_fails _ k v e Hin E ∅) as [t Ht].
    rewrite Ht in Hu. discriminate Hu.
  - assert (E0 : request.Query req = ∅) by (apply map_size_empty_iff; lia).
    rewrite E0 in Hk. discriminate Hk.
Qed.

Lemma sortedQuery_names q :
  StronglySorted String.le (map fst (sortedQuery q)).
Proof.
  unfold sortedQuery. rewrite map_map. cbn [fst]. rewrite map_id.
  apply StronglySorted_merge_sort; apply _.
Qed.

End QueryOfAlbGo.

(** X12. In [src/alb.go], when every query value unescapes, the URL is
    built whatever the parameter names are: its path is the event's path
    as it is, nothing else but the raw query is set, and [url.ParseQuery]
    reads from the raw query, without error, exactly one value per name of
    the map: the unescaped value. *)
Theorem X12_alb_go_query_read_back (R : mapOrder) (req : request) :
  validOrder R ->
  map_Forall (fun _ v => isOk (url.QueryUnescape v) = true)
             (request.Query req) ->
  exists q,
    requestURL alb_go R req
    = Ok (url.mkURL EmptyString EmptyString None EmptyString
                    (request.Path req) EmptyString false q EmptyString)
    /\ url.ParseQuery q
       = ((fun v => [unescaped v]) <$> request.Query req, None).
Proof.
  intros HR Hq. eexists. split.
  - apply (requestURL_unescapes R req HR Hq).
  - apply ParseQuery_Encode.
Qed.

Lemma X12_witness :
  exists q,
    requestURL alb_go listOrder
      (event "/a%2Fb" (<["x&y" := "1%202"]> {["k=" := "a+b"]})
             EmptyString false)
    = Ok (url.mkURL EmptyString EmptyString None EmptyString "/a%2Fb"
                    EmptyString false q EmptyString)
    /\ url.ParseQuery q
       = (<["x&y" := ["1 2"]]> {["k=" := ["a b"]]}, None).
Proof.
  assert (Hvals : map_Forall (fun _ v => isOk (url.QueryUnescape v) = true)
                    (<["x&y" := "1%202"]> {["k=" := "a+b"]}
                     : gmap string string))
    by (apply (bool_decide_unpack _); vm_compute; exact I).
  destruct (X12_alb_go_query_read_back listOrder
              (event "/a%2Fb" (<["x&y" := "1%202"]> {["k=" := "a+b"]})
                     EmptyString false)
              listOrder_valid Hvals) as (q & Hu & Hq).
  exists q. split; [exact Hu |]. rewrite Hq. vm_compute. reflexivity.
Defined.

(** X13. In [src/alb.go] the URL is built exactly when every query value
    unescapes, and then it does not depend on the order in which the map
    is ranged over: the raw query lists the parameters sorted by name,
    each as the escaped name and the escaped unescaped value. *)
Theorem X13_alb_go_query_sorted (R : mapOrder) (req : request) :
  validOrder R ->
  (isOk (requestURL alb_go R req) = true
   <-> map_Forall (fun _ v => isOk (url.QueryUnescape v) = true)
                  (request.Query req))
  /\ (forall u,
        requestURL alb_go R req = Ok u ->
        (forall R', validOrder R' -> requestURL alb_go R' req = Ok u)
        /\ exists l,
             l ≡ₚ map_to_list (request.Query req)
             /\ StronglySorted String.le (map fst l)
             /\ url.rawPairs (url.RawQuery u) = map encodedPair l).
Proof.
  intros HR. split; [split |].
  - destruct (requestURL alb_go R req) as [u |] eqn:E; [| discriminate].
    intros _. exact (requestURL_values R req u HR E).
  - intros Hq. cbn [requestURL].
    now rewrite (requestURL_unescapes R req HR Hq).
  - intros u Hu.
    pose proof (requestURL_values R req u HR Hu) as Hq.
    cbn [requestURL] in Hu. rewrite (requestURL_unescapes R req HR Hq) in Hu.
    injection Hu as <-. split.
    + intros R' HR'. apply (requestURL_unescapes R' req HR' Hq).
    + exists (sortedQuery (request.Query req)). split; [| split].
      * apply sortedQuery_perm.
      * apply sortedQuery_names.
      * cbn [url.RawQuery]. apply rawPairs_Encode.
Qed.

Lemma X13_witness :
  exists u,
    requestURL alb_go listOrder
      (event "/s" (<["b" := "2%203"]> {["a" := "1"]}) EmptyString false)
    = Ok u
    /\ exists l,
         l ≡ₚ map_to_list (<["b" := "2%203"]> {["a" := "1"]}
                           : gmap string string)
         /\ StronglySorted String.le (map fst l)
         /\ url.rawPairs (url.RawQuery u) = map encodedPair l.
Proof.
  assert (Hu : exists u,
             requestURL alb_go listOrder
               (event "/s" (<["b" := "2%203"]> {["a" := "1"]})
                      EmptyString false) = Ok u)
    by (eexists; vm_compute; reflexivity).
  destruct Hu as [u Hu]. exists u. split; [exact Hu |].
  destruct (X13_alb_go_query_sorted listOrder
              (event "/s" (<["b" := "2%203"]> {["a" := "1"]})
                     EmptyString false) listOrder_valid) as [_ H].
  exact (proj2 (H u Hu)).
Defined.

(** X14. [buildURL] on a path that starts with one ['/'] and has no
    ['?'], ['#'] or control byte, with names and values that have no ['#']
    and no control byte: it succeeds exactly when the path unescapes. The
    URL then has the unescaped path, the event's path as raw path when
    escaping the path again does not give it back, and as raw query the
    written pairs joined by ['&'], values neither checked nor changed;
    scheme, user, host and fragment are empty. Otherwise the error is
    the unescape error wrapped by [url.Parse]. *)
Theorem X14_buildURL_rooted_path (R : mapOrder) (path : string)
    (query : gmap string string) :
  validOrder R ->
  rootedPath path = true ->
  map_Forall (fun k v => cleanText k = true /\ cleanText v = true) query ->
  match url.unescape path url.encodePath with
  | Ok p =>
      exists u,
        FastPath.buildURL R path query = Ok u
        /\ url.Path u = p
        /\ url.RawPath u
           = (if String.eqb path (url.escape p url.encodePath)
              then EmptyString else path)
        /\ url.RawQuery u
           = strings.Join (map pairText (rangeQuery R query)) "&"
        /\ url.Scheme u = EmptyString /\ url.User u = None
        /\ url.Host u = EmptyString /\ url.Fragment u = EmptyString
  | Err e =>
      exists text, FastPath.buildURL R path query
                   = Err (urlError "parse" text e)
  end.
Proof.
  intros HR Hpath Hq.
  destruct (decide (query = ∅)) as [-> | Hne].
  - rewrite buildURL_empty, Parse_rooted by exact Hpath.
    assert (E : rangeQuery R (∅ : gmap string string) = []).
    { destruct HR as (Hperm & _). apply Permutation_nil_r.
      rewrite <- (map_to_list_empty (A := string)). apply Hperm. }
    rewrite E. unfold parsedPath.
    destruct (url.unescape path url.encodePath) as [p | e].
    + eexists. repeat split.
    + eexists. reflexivity.
  - assert (Hl : Forall (fun kv => cleanText kv.1 = true
                                   /\ cleanText kv.2 = true)
                        (rangeQuery R query)).
    { apply Forall_forall. intros [k v] Hin.
      destruct HR as (Hperm & _). rewrite Hperm in Hin.
      apply elem_of_map_to_list in Hin. exact (Hq k v Hin). }
    rewrite buildURL_nonempty by assumption.
    rewrite Parse_rooted_query; try assumption.
    + unfold parsedPath.
      destruct (url.unescape path url.encodePath) as [p | e].
      * eexists. repeat split.
      * eexists. reflexivity.
    + apply Join_first_nonempty.
      * intros E%map_eq_nil. now apply (range_nonempty R _ HR Hne).
      * apply Forall_map, Forall_forall. intros kv _.
        apply pairText_nonempty.
    + apply CTL_Join, Forall_map. eapply Forall_impl; [exact Hl |].
      intros [k v] [[Hk%negb_true_iff _]%andb_prop
                      [Hv%negb_true_iff _]%andb_prop].
      cbn [fst snd] in *.
      rewrite pairText_eq, CTL_app, Hk. cbn [url.stringContainsCTLByte].
      now rewrite Hv.
    + apply (ContainsAny_byte _ "#"); [| reflexivity].
      apply (ContainsAny_Join _ "&" "#"); [reflexivity |].
      apply Forall_map. eapply Forall_impl; [exact Hl |].
      intros [k v] [[_ Hk%negb_true_iff]%andb_prop
                      [_ Hv%negb_true_iff]%andb_prop].
      cbn [fst snd] in *.
      apply pairText_ContainsAny; [reflexivity | assumption | assumption].
Qed.

Lemma X14_witness :
  exists u,
    FastPath.buildURL listOrder "/a%20b"
      (<["x" := "%zz"]> {["y&" := "1"]}) = Ok u
    /\ url.Path u = "/a b"
    /\ url.RawPath u = EmptyString
    /\ url.RawQuery u
       = strings.Join
           (map pairText
                (rangeQuery listOrder (<["x" := "%zz"]> {["y&" := "1"]})))
           "&"
    /\ url.Scheme u = EmptyString /\ url.User u = None
    /\ url.Host u = EmptyString /\ url.Fragment u = EmptyString.
Proof.
  assert (Hq : map_Forall (fun k v => cleanText k = true
                                      /\ cleanText v = true)
                 (<["x" := "%zz"]> {["y&" := "1"]} : gmap string string))
    by (apply (bool_decide_unpack _); vm_compute; exact I).
  exact (X14_buildURL_rooted_path listOrder "/a%20b"
           (<["x" := "%zz"]> {["y&" := "1"]}) listOrder_valid eq_refl Hq).
Defined.

Section Utf8Facts.

Lemma forbidden_first b :
  forbiddenByte b = true ->
  (b2z b <? utf8.RuneSelf) = false /\ utf8.first (b2z b) = utf8.xx.
Proof.
  unfold forbiddenByte, utf8.first, utf8.RuneSelf. intros H.
  repeat match goal with
         | |- context [?x <? ?y] => destruct (Z.ltb_spec x y)
         | |- context [?x =? ?y] => destruct (Z.eqb_spec x y)
         | H : context [?x =? ?y] |- _ => destruct (Z.eqb_spec x y)
         | H : context [?x <=? ?y] |- _ => destruct (Z.leb_spec x y)
         end; cbn in H; try discriminate; try lia; split; reflexivity.
Qed.

Lemma continuation_allowed i c :
  utf8.outside (b2z c) (utf8.acceptRanges i).1 (utf8.acceptRanges i).2 = false ->
  forbiddenByte c = false.
Proof.
  pose proof (b2z_range c) as Hc.
  unfold utf8.acceptRanges, utf8.outside, forbiddenByte, utf8.locb, utf8.hicb.
  repeat match goal with
         | |- context [if ?x =? ?y then _ else _] => destruct (Z.eqb_spec x y)
         end; cbn [fst snd];
    intros [H1%Z.ltb_ge H2%Z.ltb_ge]%orb_false_elim;
    repeat match goal with
           | |- context [?x =? ?y] => destruct (Z.eqb_spec x y)
           | |- context [?x <=? ?y] => destruct (Z.leb_spec x y)
           end; cbn; try reflexivity; lia.
Qed.

Lemma Valid_forbidden p :
  existsb forbiddenByte p = true -> utf8.Valid p = false.
Proof.
  assert (H : forall n p, (length p <= n)%nat ->
            existsb forbiddenByte p = true -> utf8.Valid p = false).
  { clear p. induction n as [| n IH]; intros p Hn Hex.
    - destruct p; [discriminate Hex | cbn in Hn; lia].
    - destruct p as [| p0 rest]; [discriminate Hex |].
      cbn [existsb] in Hex. cbn [length] in Hn.
      cbn [utf8.Valid]. cbv zeta.
      destruct (forbiddenByte p0) eqn:Hp0.
      + destruct (forbidden_first p0 Hp0) as [-> ->]. reflexivity.
      + cbn [orb] in Hex.
        destruct (b2z p0 <? utf8.RuneSelf); [apply IH; [lia | exact Hex] |].
        destruct (utf8.first (b2z p0) =? utf8.xx); [reflexivity |].
        destruct (Z.of_nat (length (p0 :: rest)) <? _); [reflexivity |].
        pose proof (continuation_allowed
                      (Z.shiftr (utf8.first (b2z p0)) 4)) as Hc1.
        destruct (utf8.acceptRanges _) as [lo hi]. cbn [fst snd] in Hc1.
        destruct rest as [| c1 rest1]; [reflexivity |].
        destruct (utf8.outside (b2z c1) lo hi) eqn:O1; [reflexivity |].
        cbn [existsb] in Hex. rewrite (Hc1 c1 O1) in Hex. cbn [orb] in Hex.
        cbn [length] in Hn.
        destruct (_ =? 2); [apply IH; [lia | exact Hex] |].
        destruct rest1 as [| c2 rest2]; [reflexivity |].
        destruct (utf8.outside (b2z c2) utf8.locb utf8.hicb) eqn:O2;
          [reflexivity |].
        cbn [existsb] in Hex.
        rewrite (continuation_allowed 0 c2 O2) in Hex. cbn [orb] in Hex.
        cbn [length] in Hn.
        destruct (_ =? 3); [apply IH; [lia | exact Hex] |].
        destruct rest2 as [| c3 rest3]; [reflexivity |].
        destruct (utf8.outside (b2z c3) utf8.locb utf8.hicb) eqn:O3;
          [reflexivity |].
        cbn [existsb] in Hex.
        rewrite (continuation_allowed 0 c3 O3) in Hex. cbn [orb] in Hex.
        cbn [length] in Hn.
        apply IH; [lia | exact Hex]. }
  apply (H (length p)). lia.
Qed.

End Utf8Facts.

(** X15. A response body that holds a byte of no UTF-8 encoding ([0xC0],
    [0xC1], or [0xF5] and above) anywhere is always sent as base64: the
    envelope carries its standard base64 encoding with [isBase64Encoded]
    true. *)
Theorem X15_forbidden_byte_is_base64 {context : Type} (v : revision)
    (R : mapOrder) (h : handler context) (ctx : context) (req : request)
    (r : http.Request context) :
  calls (Run v R h ctx req) = [r] ->
  existsb forbiddenByte (httptest.Body (h r)) = true ->
  exists out, returned (Run v R h ctx req) = Ok out
              /\ response.BodyEncoded out = true
              /\ response.Body out
                 = base64.EncodeToString (httptest.Body (h r)).
Proof.
  intros Hc Hbyte.
  destruct (Run_cases v R h ctx req)
    as [(e & Hrun & _) | (u & b & n & _ & _ & Hrun)];
    rewrite Hrun in Hc |- *; cbn [calls returned] in *; [discriminate |].
  injection Hc as <-. eexists. split; [reflexivity |].
  unfold lambdaHandler.envelope. cbn zeta.
  rewrite (Valid_forbidden _ Hbyte). split; reflexivity.
Qed.

Lemma X15_witness :
  exists r out,
    calls (Run alb_go listOrder binaryHandler tt
               (event "/bin" ∅ EmptyString false)) = [r]
    /\ returned (Run alb_go listOrder binaryHandler tt
                     (event "/bin" ∅ EmptyString false)) = Ok out
    /\ response.BodyEncoded out = true
    /\ response.Body out = "//4AAQ==".
Proof.
  assert (Hc : exists r,
             calls (Run alb_go listOrder binaryHandler tt
                        (event "/bin" ∅ EmptyString false)) = [r])
    by (eexists; vm_compute; reflexivity).
  destruct Hc as [r Hc]. exists r.
  destruct (X15_forbidden_byte_is_base64 alb_go listOrder binaryHandler tt
              (event "/bin" ∅ EmptyString false) r Hc eq_refl)
    as (out & Hout & Hflag & Hbody).
  exists out. auto.
Defined.
